(** * Door opener controller: authorization, timed relays, operation log

    A shallow embedding of the ESP8266 D1 mini sketch
    (authorization registry, relay pulses, five-slot operation log,
    Telegram dispatcher, debounced push button) and the properties
    proved about it.

    Conventions of the embedding.
    - [unsigned long] and [long] are 32 bits wide on the ESP8266; an
      [unsigned long] is a [Z] in [0, 2^32) and every subtraction or
      addition is written with its wrap-around.
    - A C string or an Arduino [String] is the [string] of its characters
      before the terminator.
    - All globals of the sketch are fields of one [World] record that the
      functions thread; what the sketch sends to the outside (serial
      line, Telegram bot, buzzer, display) is appended to [trace].
    - [millis()] reads the field [clock]; [delay] advances it.
    - The configuration record in the EEPROM and the handlers of the
      configuration portal are embedded over a second record, [Portal].
    - [loop] and its callees work on a third record, [Board], that adds
      their globals and statics to [World]; the level of the reset pin
      and the answers of [bot.getUpdates] are arguments of a pass.
    - The pages of the portal, [setup] and the connection to the Wi-Fi
      network are outside the embedding; [handleNewMessages] receives the
      batch of updates as a list. *)

From Stdlib Require Import ZArith Lia Ascii String List.
From stdpp Require Import base list strings pretty.

Local Open Scope string_scope.
Local Open Scope list_scope.
Local Open Scope Z_scope.

(** ** Machine integers *)

Definition ULONG_MOD : Z := 2 ^ 32.
Definition LONG_MAX : Z := 2 ^ 31 - 1.
Definition LONG_MIN : Z := - 2 ^ 31.

(** Result of an [unsigned long] operation. *)
Definition wrap (z : Z) : Z := z mod ULONG_MOD.

(** [a - b] on [unsigned long]. *)
Definition usub (a b : Z) : Z := wrap (a - b).

(** [a + b] on [unsigned long]. *)
Definition uadd (a b : Z) : Z := wrap (a + b).

(** Saturation of [strtol] to the range of [long]. *)
Definition clamp_long (z : Z) : Z :=
  if z <? LONG_MIN then LONG_MIN
  else if LONG_MAX <? z then LONG_MAX
  else z.

(** ** Constants of the sketch *)

Definition MAX_USERS_LEN : nat := 128.
Definition MAX_USERS : nat := 10.
Definition DOOR_TIMEOUT : Z := 1000.
Definition LIGHT_TIMEOUT : Z := 1000.
Definition interruptDebounceDelay : Z := 100.
(** The length of [operationLog], a literal 5 in the sketch. *)
Definition LOG_SIZE : nat := 5.

(** ** Characters and text *)

Definition nl : string := String (ascii_of_nat 10) EmptyString.
Definition dq : string := String (ascii_of_nat 34) EmptyString.
Definition comma : ascii := ascii_of_nat 44.

(** [String(n)] for an integer [n]. *)
Definition String_of (z : Z) : string := pretty z.

(** ** Data *)

Record LogEntry := mkLogEntry {
  timestamp : Z;
  chatId : Z;
  operation : string;
  userName : string
}.

(** One update delivered by the bot library ([bot.messages[i]]). *)
Record Message := mkMessage {
  msg_type : string;
  chat_id : string;
  text : string;
  from_name : string;
  query_id : string
}.

(** What leaves the board. *)
Inductive Output :=
| SerialPrint (s : string)
| SerialPrintln (s : string)
| SendMessage (chat text mode : string)
| SendMessageWithInlineKeyboard (chat text mode keyboard : string)
| AnswerCallbackQuery (query text : string)
| Tone (freq : Z) (duration : option Z)
| NoTone
| DisplayShow (lines : list string).

(** Readings of the radio and of the heap, used by the status report. *)
Record Radio := mkRadio {
  wifiConnected : bool;
  rssi : Z;
  freeHeap : Z
}.

(** The globals of the sketch and the two relay pins. *)
Record World := mkWorld {
  clock : Z;                            (* what [millis()] returns *)
  doorRelay : bool;                     (* level of pin DOOR_RELAY *)
  lightRelay : bool;                    (* level of pin LIGHT_RELAY *)
  doorOpenTime : Z;
  lightOpenTime : Z;
  buttonInterruptFlag : bool;
  lastInterruptTime : Z;
  userConfig_authorizedUsers : string;  (* userConfig.authorizedUsers *)
  authorizedUsers : list Z;             (* long authorizedUsers[MAX_USERS] *)
  numAuthorizedUsers : nat;
  operationLog : list LogEntry;         (* LogEntry operationLog[5] *)
  wifiOk : bool;
  telegramOk : bool;
  lastDisplayContent : string;
  radio : Radio;
  trace : list Output
}.

Definition set_clock (v : Z) (w : World) : World :=
  {| clock := v; doorRelay := doorRelay w; lightRelay := lightRelay w;
     doorOpenTime := doorOpenTime w; lightOpenTime := lightOpenTime w;
     buttonInterruptFlag := buttonInterruptFlag w;
     lastInterruptTime := lastInterruptTime w;
     userConfig_authorizedUsers := userConfig_authorizedUsers w;
     authorizedUsers := authorizedUsers w;
     numAuthorizedUsers := numAuthorizedUsers w;
     operationLog := operationLog w; wifiOk := wifiOk w;
     telegramOk := telegramOk w; lastDisplayContent := lastDisplayContent w;
     radio := radio w; trace := trace w |}.

Definition set_doorRelay (v : bool) (w : World) : World :=
  {| clock := clock w; doorRelay := v; lightRelay := lightRelay w;
     doorOpenTime := doorOpenTime w; lightOpenTime := lightOpenTime w;
     buttonInterruptFlag := buttonInterruptFlag w;
     lastInterruptTime := lastInterruptTime w;
     userConfig_authorizedUsers := userConfig_authorizedUsers w;
     authorizedUsers := authorizedUsers w;
     numAuthorizedUsers := numAuthorizedUsers w;
     operationLog := operationLog w; wifiOk := wifiOk w;
     telegramOk := telegramOk w; lastDisplayContent := lastDisplayContent w;
     radio := radio w; trace := trace w |}.

Definition set_lightRelay (v : bool) (w : World) : World :=
  {| clock := clock w; doorRelay := doorRelay w; lightRelay := v;
     doorOpenTime := doorOpenTime w; lightOpenTime := lightOpenTime w;
     buttonInterruptFlag := buttonInterruptFlag w;
     lastInterruptTime := lastInterruptTime w;
     userConfig_authorizedUsers := userConfig_authorizedUsers w;
     authorizedUsers := authorizedUsers w;
     numAuthorizedUsers := numAuthorizedUsers w;
     operationLog := operationLog w; wifiOk := wifiOk w;
     telegramOk := telegramOk w; lastDisplayContent := lastDisplayContent w;
     radio := radio w; trace := trace w |}.

Definition set_doorOpenTime (v : Z) (w : World) : World :=
  {| clock := clock w; doorRelay := doorRelay w; lightRelay := lightRelay w;
     doorOpenTime := v; lightOpenTime := lightOpenTime w;
     buttonInterruptFlag := buttonInterruptFlag w;
     lastInterruptTime := lastInterruptTime w;
     userConfig_authorizedUsers := userConfig_authorizedUsers w;
     authorizedUsers := authorizedUsers w;
     numAuthorizedUsers := numAuthorizedUsers w;
     operationLog := operationLog w; wifiOk := wifiOk w;
     telegramOk := telegramOk w; lastDisplayContent := lastDisplayContent w;
     radio := radio w; trace := trace w |}.

Definition set_lightOpenTime (v : Z) (w : World) : World :=
  {| clock := clock w; doorRelay := doorRelay w; lightRelay := lightRelay w;
     doorOpenTime := doorOpenTime w; lightOpenTime := v;
     buttonInterruptFlag := buttonInterruptFlag w;
     lastInterruptTime := lastInterruptTime w;
     userConfig_authorizedUsers := userConfig_authorizedUsers w;
     authorizedUsers := authorizedUsers w;
     numAuthorizedUsers := numAuthorizedUsers w;
     operationLog := operationLog w; wifiOk := wifiOk w;
     telegramOk := telegramOk w; lastDisplayContent := lastDisplayContent w;
     radio := radio w; trace := trace w |}.

Definition set_buttonInterruptFlag (v : bool) (w : World) : World :=
  {| clock := clock w; doorRelay := doorRelay w; lightRelay := lightRelay w;
     doorOpenTime := doorOpenTime w; lightOpenTime := lightOpenTime w;
     buttonInterruptFlag := v; lastInterruptTime := lastInterruptTime w;
     userConfig_authorizedUsers := userConfig_authorizedUsers w;
     authorizedUsers := authorizedUsers w;
     numAuthorizedUsers := numAuthorizedUsers w;
     operationLog := operationLog w; wifiOk := wifiOk w;
     telegramOk := telegramOk w; lastDisplayContent := lastDisplayContent w;
     radio := radio w; trace := trace w |}.

Definition set_lastInterruptTime (v : Z) (w : World) : World :=
  {| clock := clock w; doorRelay := doorRelay w; lightRelay := lightRelay w;
     doorOpenTime := doorOpenTime w; lightOpenTime := lightOpenTime w;
     buttonInterruptFlag := buttonInterruptFlag w; lastInterruptTime := v;
     userConfig_authorizedUsers := userConfig_authorizedUsers w;
     authorizedUsers := authorizedUsers w;
     numAuthorizedUsers := numAuthorizedUsers w;
     operationLog := operationLog w; wifiOk := wifiOk w;
     telegramOk := telegramOk w; lastDisplayContent := lastDisplayContent w;
     radio := radio w; trace := trace w |}.

Definition set_userConfig_authorizedUsers (v : string) (w : World) : World :=
  {| clock := clock w; doorRelay := doorRelay w; lightRelay := lightRelay w;
     doorOpenTime := doorOpenTime w; lightOpenTime := lightOpenTime w;
     buttonInterruptFlag := buttonInterruptFlag w;
     lastInterruptTime := lastInterruptTime w;
     userConfig_authorizedUsers := v; authorizedUsers := authorizedUsers w;
     numAuthorizedUsers := numAuthorizedUsers w;
     operationLog := operationLog w; wifiOk := wifiOk w;
     telegramOk := telegramOk w; lastDisplayContent := lastDisplayContent w;
     radio := radio w; trace := trace w |}.

Definition set_authorizedUsers (v : list Z) (w : World) : World :=
  {| clock := clock w; doorRelay := doorRelay w; lightRelay := lightRelay w;
     doorOpenTime := doorOpenTime w; lightOpenTime := lightOpenTime w;
     buttonInterruptFlag := buttonInterruptFlag w;
     lastInterruptTime := lastInterruptTime w;
     userConfig_authorizedUsers := userConfig_authorizedUsers w;
     authorizedUsers := v; numAuthorizedUsers := numAuthorizedUsers w;
     operationLog := operationLog w; wifiOk := wifiOk w;
     telegramOk := telegramOk w; lastDisplayContent := lastDisplayContent w;
     radio := radio w; trace := trace w |}.

Definition set_numAuthorizedUsers (v : nat) (w : World) : World :=
  {| clock := clock w; doorRelay := doorRelay w; lightRelay := lightRelay w;
     doorOpenTime := doorOpenTime w; lightOpenTime := lightOpenTime w;
     buttonInterruptFlag := buttonInterruptFlag w;
     lastInterruptTime := lastInterruptTime w;
     userConfig_authorizedUsers := userConfig_authorizedUsers w;
     authorizedUsers := authorizedUsers w; numAuthorizedUsers := v;
     operationLog := operationLog w; wifiOk := wifiOk w;
     telegramOk := telegramOk w; lastDisplayContent := lastDisplayContent w;
     radio := radio w; trace := trace w |}.

Definition set_operationLog (v : list LogEntry) (w : World) : World :=
  {| clock := clock w; doorRelay := doorRelay w; lightRelay := lightRelay w;
     doorOpenTime := doorOpenTime w; lightOpenTime := lightOpenTime w;
     buttonInterruptFlag := buttonInterruptFlag w;
     lastInterruptTime := lastInterruptTime w;
     userConfig_authorizedUsers := userConfig_authorizedUsers w;
     authorizedUsers := authorizedUsers w;
     numAuthorizedUsers := numAuthorizedUsers w; operationLog := v;
     wifiOk := wifiOk w; telegramOk := telegramOk w;
     lastDisplayContent := lastDisplayContent w; radio := radio w;
     trace := trace w |}.

Definition set_lastDisplayContent (v : string) (w : World) : World :=
  {| clock := clock w; doorRelay := doorRelay w; lightRelay := lightRelay w;
     doorOpenTime := doorOpenTime w; lightOpenTime := lightOpenTime w;
     buttonInterruptFlag := buttonInterruptFlag w;
     lastInterruptTime := lastInterruptTime w;
     userConfig_authorizedUsers := userConfig_authorizedUsers w;
     authorizedUsers := authorizedUsers w;
     numAuthorizedUsers := numAuthorizedUsers w;
     operationLog := operationLog w; wifiOk := wifiOk w;
     telegramOk := telegramOk w; lastDisplayContent := v; radio := radio w;
     trace := trace w |}.

Definition set_trace (v : list Output) (w : World) : World :=
  {| clock := clock w; doorRelay := doorRelay w; lightRelay := lightRelay w;
     doorOpenTime := doorOpenTime w; lightOpenTime := lightOpenTime w;
     buttonInterruptFlag := buttonInterruptFlag w;
     lastInterruptTime := lastInterruptTime w;
     userConfig_authorizedUsers := userConfig_authorizedUsers w;
     authorizedUsers := authorizedUsers w;
     numAuthorizedUsers := numAuthorizedUsers w;
     operationLog := operationLog w; wifiOk := wifiOk w;
     telegramOk := telegramOk w; lastDisplayContent := lastDisplayContent w;
     radio := radio w; trace := v |}.
(** Appends an output to the trace. *)
Definition emit (o : Output) (w : World) : World :=
  set_trace (trace w ++ [o]) w.

(** [millis()] *)
Definition millis (w : World) : Z := clock w.

(** [delay(ms)] *)
Definition delay (ms : Z) (w : World) : World :=
  set_clock (uadd (clock w) ms) w.

(** ** Debounced push button *)

(** The test of [buttonISR]: more than the debounce delay has passed
    since the last accepted edge. *)
Definition edge_passes (w : World) : bool :=
  interruptDebounceDelay <? usub (millis w) (lastInterruptTime w).

(** [buttonISR]: an edge that passes the test raises the flag and
    becomes the last accepted edge; any other is ignored. *)
Definition buttonISR (w : World) : World :=
  let now := millis w in
  if edge_passes w
  then set_lastInterruptTime now (set_buttonInterruptFlag true w)
  else w.

(** The environment: the clock shows [t] when the next statement runs. *)
Definition at_time (t : Z) (w : World) : World := set_clock t w.

(** Falling edges at the clock values [ts]: the number of them that
    the handler accepted, and the state they leave. *)
Fixpoint edges (ts : list Z) (w : World) : nat * World :=
  match ts with
  | [] => (O, w)
  | t :: ts' =>
      let w1 := at_time t w in
      let (n, w2) := edges ts' (buttonISR w1) in
      ((if edge_passes w1 then S n else n), w2)
  end.

(** ** Relay control and timeouts *)

Definition openDoor (w : World) : World :=
  let w := set_doorRelay true w in
  let w := set_doorOpenTime (millis w) w in
  emit (SerialPrintln "🚪 Open door") w.

Definition lightOn (w : World) : World :=
  let w := set_lightRelay true w in
  let w := set_lightOpenTime (millis w) w in
  emit (SerialPrintln "💡 Light on") w.

Definition handleTimeouts (w : World) : World :=
  let w :=
    if (0 <? doorOpenTime w) && (DOOR_TIMEOUT <? usub (millis w) (doorOpenTime w))
    then emit (SerialPrintln "🚪 Automatically closed door")
           (set_doorOpenTime 0 (set_doorRelay false w))
    else w in
  if (0 <? lightOpenTime w) && (LIGHT_TIMEOUT <? usub (millis w) (lightOpenTime w))
  then emit (SerialPrintln "💡 Light off automatically")
         (set_lightOpenTime 0 (set_lightRelay false w))
  else w.

(** ** Sound feedback *)

(** One note of a melody: [tone(BUZZER_PIN, f, d); delay(250);] *)
Definition play_note (w : World) (note : Z * Z) : World :=
  delay 250 (emit (Tone (fst note) (Some (snd note))) w).

Definition confirmationBeep (w : World) : World :=
  let melody := [587; 659; 523; 262; 392] in
  let duration := [200; 200; 200; 200; 800] in
  emit NoTone (foldl play_note w (zip melody duration)).

Definition errorBeep (w : World) : World :=
  let w := delay 100 (emit (Tone 1000 None) w) in
  let w := delay 80 (emit NoTone w) in
  let w := delay 100 (emit (Tone 1500 None) w) in
  emit NoTone w.

(** ** Authorization registry *)

(** [isspace] of the C library. *)
Definition isspace (c : ascii) : bool :=
  let n := nat_of_ascii c in
  Nat.eqb n 32 || (Nat.leb 9 n && Nat.leb n 13).

Definition isdigit (c : ascii) : bool :=
  let n := nat_of_ascii c in
  Nat.leb 48 n && Nat.leb n 57.

Definition digit_value (c : ascii) : Z := Z.of_nat (nat_of_ascii c) - 48.

Fixpoint skip_spaces (s : string) : string :=
  match s with
  | String c s' => if isspace c then skip_spaces s' else s
  | EmptyString => s
  end.

(** Value of the longest prefix of decimal digits, continuing from [acc]. *)
Fixpoint read_digits (acc : Z) (s : string) : Z :=
  match s with
  | String c s' =>
      if isdigit c then read_digits (acc * 10 + digit_value c) s' else acc
  | EmptyString => acc
  end.

(** [atol]: leading white space, an optional sign, then digits; the
    result is 0 when no digit follows and saturates at the ends of
    [long] as [strtol] does. *)
Definition atol (s : string) : Z :=
  match skip_spaces s with
  | String c r =>
      if Ascii.eqb c "-" then clamp_long (- read_digits 0 r)
      else if Ascii.eqb c "+" then clamp_long (read_digits 0 r)
      else clamp_long (read_digits 0 (String c r))
  | EmptyString => 0
  end.

(** [String::toInt] is [atol] on the buffer. *)
Definition toInt (s : string) : Z := atol s.

(** [strncpy(dst, src, n)] followed by the terminator at [dst[n]]. *)
Fixpoint strncpy (n : nat) (src : string) : string :=
  match n, src with
  | S n', String c s' => String c (strncpy n' s')
  | _, _ => EmptyString
  end.

(** Leading delimiters are skipped by [strtok]. *)
Fixpoint skip_delims (s : string) : string :=
  match s with
  | String c s' => if Ascii.eqb c comma then skip_delims s' else s
  | EmptyString => s
  end.

(** The token at the head of [s] and what follows its delimiter. *)
Fixpoint split_token (s : string) : string * string :=
  match s with
  | String c s' =>
      if Ascii.eqb c comma then (EmptyString, s')
      else let (tok, rest) := split_token s' in (String c tok, rest)
  | EmptyString => (EmptyString, EmptyString)
  end.

(** [strtok(.., ",")] on the text that is left: [None] is the NULL
    result, otherwise the token and the text the next call resumes at. *)
Definition strtok (s : string) : option (string * string) :=
  match skip_delims s with
  | EmptyString => None
  | s1 => Some (split_token s1)
  end.

(** The body of the [while] loop of [parseAuthorizedUsers]; [room] is
    [MAX_USERS - numAuthorizedUsers], which the loop condition keeps
    positive. *)
Fixpoint parse_tokens (room : nat) (token : option (string * string))
    (w : World) : World :=
  match room, token with
  | S room', Some (tok, rest) =>
      let n := numAuthorizedUsers w in
      let w := set_authorizedUsers (<[n := atol tok]> (authorizedUsers w)) w in
      let w := emit (SerialPrint "Authorized user uploaded: ") w in
      let w := emit (SerialPrintln (String_of (authorizedUsers w !!! n))) w in
      let w := set_numAuthorizedUsers (S n) w in
      parse_tokens room' (strtok rest) w
  | _, _ => w
  end.

Definition parseAuthorizedUsers (w : World) : World :=
  let w := set_numAuthorizedUsers 0%nat w in
  let usersCopy :=
    strncpy (MAX_USERS_LEN - 1) (userConfig_authorizedUsers w) in
  let w :=
    parse_tokens (MAX_USERS - numAuthorizedUsers w) (strtok usersCopy) w in
  let w := emit (SerialPrint "Total authorized users: ") w in
  emit (SerialPrintln (String_of (Z.of_nat (numAuthorizedUsers w)))) w.

(** The [for] loop of [isAuthorizedUser] from index [i], with [todo]
    iterations left. *)
Fixpoint scan_users (todo i : nat) (id : Z) (w : World) : bool * World :=
  match todo with
  | O => (false, w)
  | S todo' =>
      let w := emit (SerialPrint "Check against: ") w in
      let w := emit (SerialPrintln (String_of (authorizedUsers w !!! i))) w in
      if authorizedUsers w !!! i =? id then (true, w)
      else scan_users todo' (S i) id w
  end.

Definition isAuthorizedUser (id : Z) (w : World) : bool * World :=
  let w := emit (SerialPrint "Authorization check for chat_id: ") w in
  let w := emit (SerialPrintln (String_of id)) w in
  scan_users (numAuthorizedUsers w) 0 id w.

(** ** Operation log *)

Definition empty_entry : LogEntry :=
  mkLogEntry 0 0 EmptyString EmptyString.

#[global] Instance LogEntry_inhabited : Inhabited LogEntry :=
  populate empty_entry.

Definition formatTimeAgoShort (ago : Z) : string :=
  let seconds := ago / 1000 in
  if seconds <? 60 then String_of seconds +:+ "s " else
  let minutes := seconds / 60 in
  if minutes <? 60 then String_of minutes +:+ "m " else
  let hours := minutes / 60 in
  if hours <? 24 then String_of hours +:+ "h " else
  let days := hours / 24 in
  String_of days +:+ "g ".

Definition formatTimeAgo (ago : Z) : string :=
  let seconds := ago / 1000 in
  if seconds <? 60 then String_of seconds +:+ " seconds ago" else
  let minutes := seconds / 60 in
  if minutes <? 60 then String_of minutes +:+ " minutes ago" else
  let hours := minutes / 60 in
  if hours <? 24 then String_of hours +:+ " hours ago" else
  let days := hours / 24 in
  String_of days +:+ " days ago".

Definition getShortLogLine (idx : nat) (w : World) : string :=
  let e := operationLog w !!! idx in
  if timestamp e =? 0 then EmptyString else
  let action :=
    if String.eqb (operation e) "LIGHT_ON" then "Light"
    else if String.eqb (operation e) "DOOR_BUTTON" then "Door"
    else "Door" in
  let name := userName e in
  let ago := formatTimeAgoShort (usub (millis w) (timestamp e)) in
  name +:+ " " +:+ action +:+ " " +:+ ago.

Definition getConnStatusLine (w : World) : string :=
  let wf := if wifiOk w then "WiFi:OK" else "WiFi:--" in
  let t := if telegramOk w then "TG:OK" else "TG:--" in
  wf +:+ " " +:+ t.

Definition updateDisplay (w : World) : World :=
  let line1 := "D1 Mini Door Opener" in
  let line2 := getShortLogLine 0 w in
  let line3 := getShortLogLine 1 w in
  let line4 := getShortLogLine 2 w in
  let line5 := getShortLogLine 3 w in
  let line6 := getConnStatusLine w in
  let displayContent :=
    line1 +:+ "|" +:+ line2 +:+ "|" +:+ line3 +:+ "|" +:+ line4 +:+ "|"
      +:+ line5 +:+ "|" +:+ line6 in
  if String.eqb displayContent (lastDisplayContent w) then w else
  let w := set_lastDisplayContent displayContent w in
  emit (DisplayShow [line1; line2; line3; line4; line5; getConnStatusLine w]) w.

Definition initializeLog (w : World) : World :=
  set_operationLog (replicate LOG_SIZE empty_entry) w.

(** The shifting loop of [logOperation]: [for (i = n; i > 0; i--)
    log[i] = log[i - 1]]. *)
Fixpoint shift_down (n : nat) (log : list LogEntry) : list LogEntry :=
  match n with
  | O => log
  | S j => shift_down j (<[S j := log !!! j]> log)
  end.

Definition logOperation (id : Z) (op name : string) (w : World) : World :=
  let log := shift_down (LOG_SIZE - 1) (operationLog w) in
  let log := <[0%nat := mkLogEntry (millis w) id op name]> log in
  updateDisplay (set_operationLog log w).

(** Number of slots among the first [n] whose timestamp is positive. *)
Fixpoint count_valid (n : nat) (log : list LogEntry) : nat :=
  match n with
  | O => O
  | S j =>
      let c := count_valid j log in
      if 0 <? timestamp (log !!! j) then S c else c
  end.

(** The text appended to the log message for slot [i]. *)
Definition log_block (i : nat) (w : World) : string :=
  let e := operationLog w !!! i in
  let timeAgo := formatTimeAgo (usub (millis w) (timestamp e)) in
  let emoji := if String.eqb (operation e) "LIGHT_ON" then "💡" else "🚪" in
  let operationName :=
    if String.eqb (operation e) "LIGHT_ON" then "LIGHT ON" else "DOOR OPENED" in
  ("• " +:+ emoji +:+ " " +:+ operationName +:+ nl)
    +:+ ("  👤 " +:+ userName e +:+ nl)
    +:+ ("  ⏰ " +:+ timeAgo +:+ nl +:+ nl).

(** The rendering loop of [getFormattedLog] from slot [i], [todo]
    iterations left. *)
Fixpoint log_blocks (todo i : nat) (w : World) (logStr : string) : string :=
  match todo with
  | O => logStr
  | S todo' => log_blocks todo' (S i) w (logStr +:+ log_block i w)
  end.

Definition log_header : string := "📋 *Operations Log*" +:+ nl +:+ nl.

Definition getFormattedLog (w : World) : string :=
  let logStr := log_header in
  let validEntries := count_valid LOG_SIZE (operationLog w) in
  if Nat.eqb validEntries 0 then logStr +:+ "No operations recorded."
  else log_blocks validEntries 0 w logStr.

(** ** Status report *)

Definition formatUptime (milliseconds : Z) : string :=
  let seconds := milliseconds / 1000 in
  let minutes := seconds / 60 in
  let hours := minutes / 60 in
  let days := hours / 24 in
  let uptime := EmptyString in
  let uptime := if 0 <? days then uptime +:+ String_of days +:+ "d " else uptime in
  let uptime :=
    if 0 <? hours mod 24 then uptime +:+ String_of (hours mod 24) +:+ "h "
    else uptime in
  let uptime :=
    if 0 <? minutes mod 60 then uptime +:+ String_of (minutes mod 60) +:+ "m "
    else uptime in
  uptime +:+ String_of (seconds mod 60) +:+ "s".

Definition getDetailedSystemStatus (w : World) : string :=
  let status := "ℹ️ *Door Opener System Status*" +:+ nl +:+ nl in
  let status := status +:+ "*Connectivity:*" +:+ nl in
  let status := status +:+ "📶 WiFi: "
    +:+ (if wifiConnected (radio w) then "✅ Connected" else "❌ Disconnected")
    +:+ nl in
  let status := status +:+ "📡 Signal: " +:+ String_of (rssi (radio w))
    +:+ " dBm" +:+ nl +:+ nl in
  let status := status +:+ "*Devices:*" +:+ nl in
  let status := status +:+ "🚪 Door: "
    +:+ (if 0 <? doorOpenTime w then "🟢 Open" else "🔴 Closed") +:+ nl in
  let status := status +:+ "💡 Light: "
    +:+ (if 0 <? lightOpenTime w then "🟢 Turned on" else "🔴 Turned off")
    +:+ nl +:+ nl in
  let status := status +:+ "*System:*" +:+ nl in
  let status := status +:+ "⏱️ Uptime: " +:+ formatUptime (millis w) +:+ nl in
  let status := status +:+ "🔋 Free memory: " +:+ String_of (freeHeap (radio w))
    +:+ " bytes" +:+ nl in
  status +:+ "👥 Authorized users: "
    +:+ String_of (Z.of_nat (numAuthorizedUsers w)).

(** ** Telegram dispatcher *)

Definition sendMainMenu (chat : string) (w : World) : World :=
  let menuText := "🎛️ *Door Opener Control Menu*" +:+ nl +:+ nl in
  let menuText := menuText +:+ "Choose an action using the buttons below:" in
  let button (label data : string) : string :=
    "{" +:+ dq +:+ "text" +:+ dq +:+ ":" +:+ dq +:+ label +:+ dq +:+ ","
      +:+ dq +:+ "callback_data" +:+ dq +:+ ":" +:+ dq +:+ data +:+ dq +:+ "}" in
  let keyboard :=
    "[[" +:+ button "🚪 Open Door" "OPEN_DOOR" +:+ "],"
      +:+ "[" +:+ button "💡 Turn on Light" "LIGHT_ON" +:+ "],"
      +:+ "[" +:+ button "ℹ️ System Status" "STATE_SYSTEM" +:+ ","
      +:+ button "📋 Show Log" "SHOW_LOG" +:+ "],"
      +:+ "[" +:+ button "❓ Help" "HELP" +:+ "]]" in
  emit (SendMessageWithInlineKeyboard chat menuText "Markdown" keyboard) w.

Definition sendWelcomeMessage (chat : string) (w : World) : World :=
  let welcome := "🏠 *Welcome to the Door Opener System*" +:+ nl +:+ nl in
  let welcome := welcome
    +:+ "The system is up and running and ready to use." +:+ nl +:+ nl in
  let welcome := welcome
    +:+ "Use the buttons below to control the system or type in commands manually. "
    +:+ nl +:+ nl in
  let welcome := welcome +:+ "*Text commands available: *" +:+ nl in
  let welcome := welcome +:+ "🚪 /open - Opens the front door" +:+ nl in
  let welcome := welcome +:+ "💡 /light - Turns on stair light" +:+ nl in
  let welcome := welcome +:+ "ℹ️ /status - System status" +:+ nl in
  let welcome := welcome +:+ "📋 /log - Operations log" +:+ nl in
  let welcome := welcome +:+ "🎛️ /menu - Show menu buttons" +:+ nl in
  let welcome := welcome +:+ "❓ /help - Complete guide" +:+ nl in
  let welcome := welcome +:+ "_Secure system with access control_" in
  let w := emit (SendMessage chat welcome "Markdown") w in
  let w := delay 500 w in
  sendMainMenu chat w.

Definition handleOpenDoor (chat name : string) (user_id : Z) (w : World)
    : World :=
  let w := openDoor w in
  let message := "🚪 *Open Door*" +:+ nl +:+ nl in
  let message := message +:+ "✅ Command executed successfully" +:+ nl in
  let message := message +:+ "⏰ The door has been OPENED" +:+ nl in
  let message := message +:+ "👤 Requested by: " +:+ name in
  let w := emit (SendMessage chat message "Markdown") w in
  let w := logOperation user_id "OPEN_DOOR" name w in
  let w := updateDisplay w in
  let w := emit (SerialPrintln ("✅ Open door at the request of: " +:+ name)) w in
  let w := confirmationBeep w in
  let w := delay 2000 w in
  sendMainMenu chat w.

Definition handleTurnOnLight (chat name : string) (user_id : Z) (w : World)
    : World :=
  let w := lightOn w in
  let message := "💡 *Light On*" +:+ nl +:+ nl in
  let message := message +:+ "✅ Staircase light on" +:+ nl in
  let message := message
    +:+ "⏰ It will automatically turn off in few seconds" +:+ nl in
  let message := message +:+ "👤 Requested by: " +:+ name in
  let w := emit (SendMessage chat message "Markdown") w in
  let w := logOperation user_id "LIGHT_ON" name w in
  let w := updateDisplay w in
  let w :=
    emit (SerialPrintln ("✅ Light turned on at the request of: " +:+ name)) w in
  let w := confirmationBeep w in
  let w := delay 2000 w in
  sendMainMenu chat w.

Definition openDoorFromButton (w : World) : World :=
  let w := set_buttonInterruptFlag false w in
  let w := openDoor w in
  let w := logOperation 0 "DOOR_BUTTON" "Button" w in
  let w := emit (SerialPrintln "✅ Door opened by physical button") w in
  let w := confirmationBeep w in
  updateDisplay w.

Definition checkButtonOpenDoor (w : World) : World :=
  if buttonInterruptFlag w
  then openDoorFromButton (set_buttonInterruptFlag false w)
  else w.

Definition handleStateSystem (chat : string) (w : World) : World :=
  let status := getDetailedSystemStatus w in
  let w := emit (SendMessage chat status "Markdown") w in
  let w := delay 1000 w in
  sendMainMenu chat w.

Definition handleShowLog (chat : string) (w : World) : World :=
  let logStr := getFormattedLog w in
  let w := emit (SendMessage chat logStr "Markdown") w in
  let w := delay 1000 w in
  sendMainMenu chat w.

Definition sendHelpMessage (chat : string) (w : World) : World :=
  let help := "❓ *Door Opener System Control Guide*" +:+ nl +:+ nl in
  let help := help +:+ "*Main Commands:*" +:+ nl in
  let help := help +:+ "🚪 `/open` - Opens the door" +:+ nl in
  let help := help +:+ "💡 `/light` - Turns on stair light" +:+ nl in
  let help := help +:+ "*Information Commands:*" +:+ nl in
  let help := help +:+ "ℹ️ `/status` - Full system status" +:+ nl in
  let help := help +:+ "📋 `/log` - Latest operation logs" +:+ nl in
  let help := help +:+ "❓ `/help` - This guide" +:+ nl +:+ nl in
  let help := help +:+ "*Security:*" +:+ nl in
  let help := help +:+ "🔒 Only authorized users can use the system" +:+ nl in
  let help := help +:+ "📊 Only the last 5 transactions are recorded" +:+ nl in
  let help := help +:+ "🔄 Automatic release Relay for safety" in
  let w := emit (SendMessage chat help "Markdown") w in
  let w := delay 1000 w in
  sendMainMenu chat w.

Definition handleUnknownCommand (chat : string) (w : World) : World :=
  let message := "❓ *Command Not Recognized*" +:+ nl +:+ nl in
  let message := message +:+ "The entered command is invalid." +:+ nl in
  let message := message
    +:+ "Use /help to see all available commands or /menu for buttons." in
  emit (SendMessage chat message "Markdown") w.

Definition access_denied_text : string :=
  ("🚫 *Access Denied*" +:+ nl +:+ nl)
    +:+ ("You are not authorized to use this system." +:+ nl)
    +:+ "Contact the administrator to request access.".

Definition handleUnauthorizedUser (chat name : string) (w : World) : World :=
  let message := access_denied_text in
  let w := emit (SendMessage chat message "Markdown") w in
  let w :=
    emit (SerialPrintln
            ("🚫 Access denied for: " +:+ name +:+ " (ID: " +:+ chat +:+ ")")) w in
  errorBeep w.

Definition handleOpenDoorCallback (chat name : string) (user_id : Z)
    (query : string) (w : World) : World :=
  let w := openDoor w in
  let w :=
    emit (AnswerCallbackQuery query "🚪 Door Open! Door Opener Pressed!") w in
  let message := "🚪 *Open Door!*" +:+ nl +:+ nl in
  let message := message +:+ "✅ Command executed successfully" +:+ nl in
  let message := message +:+ "⏰ The door has been opened!" +:+ nl in
  let message := message +:+ "👤 Requested by: " +:+ name in
  let w := emit (SendMessage chat message "Markdown") w in
  let w := logOperation user_id "OPEN_DOOR" name w in
  let w := updateDisplay w in
  let w := emit (SerialPrintln ("✅ Open door at the request of: " +:+ name)) w in
  let w := confirmationBeep w in
  sendMainMenu chat w.

Definition handleLightOnCallback (chat name : string) (user_id : Z)
    (query : string) (w : World) : World :=
  let w := lightOn w in
  let w :=
    emit (AnswerCallbackQuery query
            "💡 Light On. It will automatically turn off") w in
  let message := "💡 *Light On*" +:+ nl +:+ nl in
  let message := message +:+ "✅ Staircase light on" +:+ nl in
  let message := message +:+ "⏰ It will turn off automatically!" +:+ nl in
  let message := message +:+ "👤 Requested by: " +:+ name in
  let w := emit (SendMessage chat message "Markdown") w in
  let w := logOperation user_id "LIGHT_ON" name w in
  let w := updateDisplay w in
  let w :=
    emit (SerialPrintln ("✅ Light turned on at the request of: " +:+ name)) w in
  let w := confirmationBeep w in
  let w := delay 1000 w in
  sendMainMenu chat w.

Definition handleStateSystemCallback (chat query : string) (w : World)
    : World :=
  let w := emit (AnswerCallbackQuery query "📊 Retrieving system status...") w in
  let status := getDetailedSystemStatus w in
  let w := emit (SendMessage chat status "Markdown") w in
  let w := delay 1000 w in
  sendMainMenu chat w.

Definition handleShowLogCallback (chat query : string) (w : World) : World :=
  let w := emit (AnswerCallbackQuery query "📋 Retrieval log operations...") w in
  let logStr := getFormattedLog w in
  let w := emit (SendMessage chat logStr "Markdown") w in
  let w := delay 1000 w in
  sendMainMenu chat w.

Definition handleHelpCallback (chat query : string) (w : World) : World :=
  let w := emit (AnswerCallbackQuery query "❓ Command guide...") w in
  sendHelpMessage chat w.

Definition processCommand (chat text name : string) (user_id : Z) (w : World)
    : World :=
  if String.eqb text "/start" then sendWelcomeMessage chat w
  else if String.eqb text "/open" then handleOpenDoor chat name user_id w
  else if String.eqb text "/light" then handleTurnOnLight chat name user_id w
  else if String.eqb text "/status" then handleStateSystem chat w
  else if String.eqb text "/log" then handleShowLog chat w
  else if String.eqb text "/help" then sendHelpMessage chat w
  else if String.eqb text "/menu" then sendMainMenu chat w
  else handleUnknownCommand chat w.

Definition processCallback (chat callback_data name : string) (user_id : Z)
    (query : string) (w : World) : World :=
  if String.eqb callback_data "OPEN_DOOR"
  then handleOpenDoorCallback chat name user_id query w
  else if String.eqb callback_data "LIGHT_ON"
  then handleLightOnCallback chat name user_id query w
  else if String.eqb callback_data "STATE_SYSTEM"
  then handleStateSystemCallback chat query w
  else if String.eqb callback_data "SHOW_LOG"
  then handleShowLogCallback chat query w
  else if String.eqb callback_data "HELP"
  then handleHelpCallback chat query w
  else emit (AnswerCallbackQuery query "❌ Unrecognized command") w.

(** One iteration of the loop of [handleNewMessages], on [bot.messages[i]]. *)
Definition handleMessage (w : World) (m : Message) : World :=
  if String.eqb (msg_type m) "message" then
    let user_id := toInt (chat_id m) in
    let (ok, w) := isAuthorizedUser user_id w in
    if negb ok then handleUnauthorizedUser (chat_id m) (from_name m) w
    else processCommand (chat_id m) (text m) (from_name m) user_id w
  else if String.eqb (msg_type m) "callback_query" then
    let user_id := toInt (chat_id m) in
    let (ok, w) := isAuthorizedUser user_id w in
    if negb ok then emit (AnswerCallbackQuery (query_id m) "Unauthorized") w
    else processCallback (chat_id m) (text m) (from_name m) user_id
           (query_id m) w
  else w.

(** [handleNewMessages(numNewMessages)], on the first [numNewMessages]
    entries of [bot.messages]. *)
Definition handleNewMessages (messages : list Message) (w : World) : World :=
  foldl handleMessage w messages.

(** ** The state the sketch starts from *)

(** The globals at their initialisers (statics are zero-filled), with
    the clock at [t0] and [users] in the configuration record. *)
Definition initial_world (t0 : Z) (users : string) (r : Radio) : World :=
  {| clock := t0; doorRelay := false; lightRelay := false;
     doorOpenTime := 0; lightOpenTime := 0;
     buttonInterruptFlag := false; lastInterruptTime := 0;
     userConfig_authorizedUsers := users;
     authorizedUsers := replicate MAX_USERS 0; numAuthorizedUsers := 0;
     operationLog := replicate LOG_SIZE empty_entry;
     wifiOk := false; telegramOk := false;
     lastDisplayContent := EmptyString; radio := r; trace := [] |}.

(** ** Observations on traces *)

(** Messages that go out through the bot. *)
Definition is_remote (o : Output) : bool :=
  match o with
  | SendMessage _ _ _ | SendMessageWithInlineKeyboard _ _ _ _
  | AnswerCallbackQuery _ _ => true
  | _ => false
  end.

(** Buzzer activity. *)
Definition is_sound (o : Output) : bool :=
  match o with
  | Tone _ _ | NoTone => true
  | _ => false
  end.

Definition outbound (tr : list Output) : list Output := List.filter is_remote tr.
Definition sounds (tr : list Output) : list Output := List.filter is_sound tr.

(** The buzzer pattern of [errorBeep]. *)
Definition error_pattern : list Output :=
  [Tone 1000 None; NoTone; Tone 1500 None; NoTone].

(** * Vocabulary of the properties *)

(** ** Relay steps *)

(** What the control loop and the handlers do to the relays. *)
Inductive RelayStep :=
| ActivateDoor (t : Z)
| ActivateLight (t : Z)
| Sweep (t : Z).

Definition relay_step (w : World) (s : RelayStep) : World :=
  match s with
  | ActivateDoor t => openDoor (at_time t w)
  | ActivateLight t => lightOn (at_time t w)
  | Sweep t => handleTimeouts (at_time t w)
  end.

Definition relay_run (w : World) (steps : list RelayStep) : World :=
  foldl relay_step w steps.

(** A relay is energised exactly when its timestamp is set. *)
Definition relay_inv (w : World) : Prop :=
  (doorRelay w = true <-> 0 < doorOpenTime w) /\
  (lightRelay w = true <-> 0 < lightOpenTime w).

(** The clock reading of a step. *)
Definition step_time (s : RelayStep) : Z :=
  match s with ActivateDoor t | ActivateLight t | Sweep t => t end.

Definition is_activation (s : RelayStep) : bool :=
  match s with Sweep _ => false | _ => true end.

(** ** Core state and traces *)

(** The fields that carry the relays, the log, the registry and the
    button: equal in [w] and [w']. *)
Definition same_core (w w' : World) : Prop :=
  doorRelay w' = doorRelay w /\ lightRelay w' = lightRelay w /\
  doorOpenTime w' = doorOpenTime w /\ lightOpenTime w' = lightOpenTime w /\
  operationLog w' = operationLog w /\
  authorizedUsers w' = authorizedUsers w /\
  numAuthorizedUsers w' = numAuthorizedUsers w /\
  buttonInterruptFlag w' = buttonInterruptFlag w /\
  lastInterruptTime w' = lastInterruptTime w.

(** A stretch of trace with nothing for the bot and nothing for the
    buzzer. *)
Definition quiet (tr : list Output) : Prop := outbound tr = [] /\ sounds tr = [].

(** The claim of the specification for one rejected event: the
    access-denied message to the chat, the error pattern on the buzzer,
    and the core state as it was. *)
Definition denied_with_feedback (w : World) (m : Message) : Prop :=
  let w' := handleNewMessages [m] w in
  outbound (trace w')
  = outbound (trace w) ++ [SendMessage (chat_id m) access_denied_text "Markdown"] /\
  sounds (trace w') = sounds (trace w) ++ error_pattern /\
  same_core w w'.

(** ** Calls of [logOperation] *)

(** One call of [logOperation], made when the clock reads [call_time]. *)
Record AppendCall := mkAppendCall {
  call_time : Z;
  call_id : Z;
  call_op : string;
  call_name : string
}.

Definition append (w : World) (c : AppendCall) : World :=
  logOperation (call_id c) (call_op c) (call_name c) (at_time (call_time c) w).

(** The history after [initializeLog] and the calls [cs], in order. *)
Definition appends (cs : list AppendCall) (w : World) : World :=
  foldl append (initializeLog w) cs.

Definition entry_of (c : AppendCall) : LogEntry :=
  mkLogEntry (call_time c) (call_id c) (call_op c) (call_name c).

(** No gap among the valid entries: a valid slot is preceded by a valid
    slot. *)
Definition valid_prefix (log : list LogEntry) : Prop :=
  forall i, (S i < LOG_SIZE)%nat ->
    0 < timestamp (log !!! S i) -> 0 < timestamp (log !!! i).

(** Two entries that the detailed rendering cannot tell apart: same
    time, same user name, and both or neither a [LIGHT_ON]. *)
Definition same_rendering (e e' : LogEntry) : Prop :=
  timestamp e = timestamp e' /\ userName e = userName e' /\
  String.eqb (operation e) "LIGHT_ON" = String.eqb (operation e') "LIGHT_ON".

(** ** The loading rule in the words of the specification *)

(** The fields of [s] between commas, empty ones included. *)
Fixpoint comma_fields (s : string) : list string :=
  match s with
  | EmptyString => [EmptyString]
  | String c s' =>
      if Ascii.eqb c comma then EmptyString :: comma_fields s'
      else match comma_fields s' with
           | f :: fs => String c f :: fs
           | [] => [String c EmptyString]
           end
  end.

Definition is_empty (s : string) : bool :=
  match s with EmptyString => true | _ => false end.

(** The non-empty comma-separated tokens of [raw], in order. *)
Definition spec_tokens (raw : string) : list string :=
  List.filter (fun f => negb (is_empty f)) (comma_fields raw).

(** The integers the tokens convert to. *)
Definition spec_ids (raw : string) : list Z := atol <$> spec_tokens raw.

(** Does [s] begin, after white space and an optional sign, with a
    digit? *)
Definition starts_number (s : string) : bool :=
  match skip_spaces s with
  | String c r =>
      if Ascii.eqb c "-" || Ascii.eqb c "+"
      then match r with String d _ => isdigit d | EmptyString => false end
      else isdigit c
  | EmptyString => false
  end.

(** ** Worked instances *)

Definition radio0 : Radio := mkRadio true (-60) 30000.

(** A board just started, nobody loaded yet. *)
Definition fresh_world : World := initial_world 0 EmptyString radio0.

(** A board at clock value 5000 with the users 111 and 222 loaded. *)
Definition demo_world : World :=
  parseAuthorizedUsers (initial_world 5000 "111,222" radio0).

Definition mallory_text : Message :=
  mkMessage "message" "999" "/open" "Mallory" EmptyString.

Definition mallory_callback : Message :=
  mkMessage "callback_query" "999" "OPEN_DOOR" "Mallory" "q1".

(** Three operations at clock values 1000, 2000, 3000, rendered at 9000. *)
Definition three_ops_world : World :=
  at_time 9000
    (appends [mkAppendCall 1000 111 "OPEN_DOOR" "Alice";
              mkAppendCall 2000 222 "LIGHT_ON" "Bob";
              mkAppendCall 3000 0 "DOOR_BUTTON" "Button"] fresh_world).

(** ** More vocabulary *)

(** A message sent to the chat [chat], with or without keyboard. *)
Definition to_chat (chat : string) (o : Output) : Prop :=
  match o with
  | SendMessage c _ _ | SendMessageWithInlineKeyboard c _ _ _ => c = chat
  | _ => False
  end.

(** What a reporting text command does: nothing to the core state, and
    one or two messages to the chat. *)
Definition reports_to (chat : string) (w w' : World) : Prop :=
  same_core w w' /\
  exists msgs, outbound (trace w') = outbound (trace w) ++ msgs /\
    msgs <> [] /\ Forall (to_chat chat) msgs.

(** What every callback handler does first: it answers the callback
    query; whatever follows goes to the chat. *)
Definition acknowledged (query chat : string) (w w' : World) : Prop :=
  exists ack rest,
    outbound (trace w')
    = outbound (trace w) ++ AnswerCallbackQuery query ack :: rest /\
    Forall (to_chat chat) rest.

(** The answer an unauthorized event gets through the bot. *)
Definition denial (m : Message) : list Output :=
  if String.eqb (msg_type m) "message"
  then [SendMessage (chat_id m) access_denied_text "Markdown"]
  else if String.eqb (msg_type m) "callback_query"
  then [AnswerCallbackQuery (query_id m) "Unauthorized"]
  else [].

(** The buzzer pattern an unauthorized event causes. *)
Definition denial_sound (m : Message) : list Output :=
  if String.eqb (msg_type m) "message" then error_pattern else [].

(** The text [updateDisplay] compares with [lastDisplayContent]: the six
    lines joined by bars. *)
Definition displayContent_of (w : World) : string :=
  "D1 Mini Door Opener" +:+ "|" +:+ getShortLogLine 0 w +:+ "|"
    +:+ getShortLogLine 1 w +:+ "|" +:+ getShortLogLine 2 w +:+ "|"
    +:+ getShortLogLine 3 w +:+ "|" +:+ getConnStatusLine w.

(** The configuration text an administrator types for the chat ids
    [ids]: their decimal forms separated by commas. *)
Fixpoint join_ids (ids : list Z) : string :=
  match ids with
  | [] => EmptyString
  | [z] => String_of z
  | z :: rest => String_of z +:+ "," +:+ join_ids rest
  end.

(** [z] fits the 32-bit [long] of the board. *)
Definition in_long (z : Z) : Prop := LONG_MIN <= z <= LONG_MAX.

(** No character of [s] is the separator. *)
Fixpoint comma_free (s : string) : bool :=
  match s with
  | EmptyString => true
  | String c s' => negb (Ascii.eqb c comma) && comma_free s'
  end.

(** The units of the elapsed-time texts, with their length in
    milliseconds and the two suffixes the sketch prints. *)
Inductive TimeUnit := Seconds | Minutes | Hours | Days.

Definition unit_ms (u : TimeUnit) : Z :=
  match u with
  | Seconds => 1000
  | Minutes => 60000
  | Hours => 3600000
  | Days => 86400000
  end.

Definition long_suffix (u : TimeUnit) : string :=
  match u with
  | Seconds => " seconds ago"
  | Minutes => " minutes ago"
  | Hours => " hours ago"
  | Days => " days ago"
  end.

Definition short_suffix (u : TimeUnit) : string :=
  match u with
  | Seconds => "s "
  | Minutes => "m "
  | Hours => "h "
  | Days => "g "
  end.

(** The largest count a unit is shown with for a 32-bit interval. *)
Definition unit_bound (u : TimeUnit) : Z :=
  match u with
  | Seconds => 60
  | Minutes => 60
  | Hours => 24
  | Days => 50
  end.

(** A component of the uptime text: absent when zero. *)
Definition uptime_part (n : Z) (suffix : string) : string :=
  if 0 <? n then String_of n +:+ suffix else EmptyString.

(** * The configuration record and its portal *)

(** The EEPROM holds one [struct Config]; the portal is the web server
    of the configuration mode. The state of this part is a record of
    its own, [Portal]. The two pages ([handleRoot], the form of
    [handleChangePassword]) write nothing and are not embedded; a
    request is given as the handler the server calls for it. *)

Definition MAX_SSID_LEN : nat := 32.
Definition MAX_PASS_LEN : nat := 64.
Definition MAX_TOKEN_LEN : nat := 64.
Definition MAX_PASSCFG_LEN : nat := 32.

(** [struct Config]. A [char] array is the text before its first NUL
    (the whole array when it has none); [configured] is the C++ [bool].
    An EEPROM whose flag byte is neither 0 nor 1 (erased flash reads
    0xFF) does not hold a [bool]: what the sketch does with it is not
    defined by the language, and such contents are outside this
    model. The sketch itself writes only 0 ([resetEEPROM]) and the
    flags of [userConfig] ([saveConfig]). *)
Record Config := mkConfig {
  ssid : string;
  password : string;
  botToken : string;
  configPassword : string;
  config_authorizedUsers : string;
  configured : bool
}.

Definition set_configPassword (v : string) (c : Config) : Config :=
  mkConfig (ssid c) (password c) (botToken c) v (config_authorizedUsers c)
           (configured c).

(** [memset(&userConfig, 0, sizeof(userConfig))]. *)
Definition zero_config : Config :=
  mkConfig EmptyString EmptyString EmptyString EmptyString EmptyString false.

(** [array[n] = 0]: the text is cut after [n] characters. *)
Definition terminate_at (n : nat) (s : string) : string := strncpy n s.

(** What the web server sends. *)
Inductive HttpOut :=
| SendHeader (name value : string) (first : bool)
| Send (code : Z) (content_type content : string).

(** The arguments of a request, in the order received. *)
Definition Args : Type := list (string * string).

Fixpoint hasArg (name : string) (a : Args) : bool :=
  match a with
  | [] => false
  | (k, _) :: rest => if String.eqb k name then true else hasArg name rest
  end.

Fixpoint arg (name : string) (a : Args) : string :=
  match a with
  | [] => EmptyString
  | (k, v) :: rest => if String.eqb k name then v else arg name rest
  end.

Record Portal := mkPortal {
  userConfig : Config;
  EEPROM : Config;
  passwordOk : bool;
  portal_clock : Z;
  sent : list HttpOut;
  restarted : bool
}.

Definition set_userConfig (v : Config) (p : Portal) : Portal :=
  mkPortal v (EEPROM p) (passwordOk p) (portal_clock p) (sent p) (restarted p).
Definition set_EEPROM (v : Config) (p : Portal) : Portal :=
  mkPortal (userConfig p) v (passwordOk p) (portal_clock p) (sent p)
           (restarted p).
Definition set_passwordOk (v : bool) (p : Portal) : Portal :=
  mkPortal (userConfig p) (EEPROM p) v (portal_clock p) (sent p) (restarted p).
Definition set_portal_clock (v : Z) (p : Portal) : Portal :=
  mkPortal (userConfig p) (EEPROM p) (passwordOk p) v (sent p) (restarted p).
Definition set_sent (v : list HttpOut) (p : Portal) : Portal :=
  mkPortal (userConfig p) (EEPROM p) (passwordOk p) (portal_clock p) v
           (restarted p).
Definition set_restarted (v : bool) (p : Portal) : Portal :=
  mkPortal (userConfig p) (EEPROM p) (passwordOk p) (portal_clock p) (sent p) v.

Definition server_send (o : HttpOut) (p : Portal) : Portal :=
  set_sent (sent p ++ [o]) p.

Definition portal_delay (ms : Z) (p : Portal) : Portal :=
  set_portal_clock (uadd (portal_clock p) ms) p.

(** [ESP.restart()] does not return; the flag records that this run of
    the sketch is over. *)
Definition ESP_restart (p : Portal) : Portal := set_restarted true p.

Definition loadConfig (p : Portal) : Portal :=
  let c := EEPROM p in
  let c :=
    mkConfig (terminate_at (MAX_SSID_LEN - 1) (ssid c))
             (terminate_at (MAX_PASS_LEN - 1) (password c))
             (terminate_at (MAX_TOKEN_LEN - 1) (botToken c))
             (terminate_at (MAX_PASSCFG_LEN - 1) (configPassword c))
             (terminate_at (MAX_USERS_LEN - 1) (config_authorizedUsers c))
             (configured c) in
  let c := if negb (configured c) then zero_config else c in
  let c :=
    match configPassword c with
    | EmptyString =>
        set_configPassword (strncpy (MAX_PASSCFG_LEN - 1) "admin") c
    | String _ _ => c
    end in
  set_userConfig c p.

Definition saveConfig (p : Portal) : Portal := set_EEPROM (userConfig p) p.

Definition resetEEPROM (p : Portal) : Portal := set_EEPROM zero_config p.

Definition handleResetEEPROM (p : Portal) : Portal :=
  let p := resetEEPROM p in
  let p :=
    server_send
      (Send 200 "text/html" "<h1>EEPROM Reset!</h1><p>Restarting up...</p>.") p in
  let p := portal_delay 2000 p in
  ESP_restart p.

Definition handleLogin (a : Args) (p : Portal) : Portal :=
  if hasArg "cfgpass" a
     && String.eqb (arg "cfgpass" a) (configPassword (userConfig p))
  then
    let p := set_passwordOk true p in
    let p := server_send (SendHeader "Location" "/" true) p in
    server_send (Send 302 "text/plain" EmptyString) p
  else
    server_send
      (Send 403 "text/html" "<h1>Wrong configuration password!</h1>") p.

Definition handleSave (a : Args) (p : Portal) : Portal :=
  if negb (passwordOk p)
  then server_send (Send 403 "text/html" "<h1>Unauthorized</h1>") p
  else if hasArg "ssid" a && hasArg "pass" a && hasArg "token" a
          && hasArg "users" a
  then
    let newSsid := arg "ssid" a in
    let newPass := arg "pass" a in
    let newToken := arg "token" a in
    let newUsers := arg "users" a in
    let c := userConfig p in
    let c :=
      mkConfig (strncpy (MAX_SSID_LEN - 1) newSsid)
               (strncpy (MAX_PASS_LEN - 1) newPass)
               (strncpy (MAX_TOKEN_LEN - 1) newToken)
               (configPassword c)
               (strncpy (MAX_USERS_LEN - 1) newUsers)
               true in
    let p := set_userConfig c p in
    let p := saveConfig p in
    let p :=
      server_send
        (Send 200 "text/html"
           "<h1>Configuration Saved!</h1><p>Il dispositivo si riavvia...</p>")
        p in
    let p := portal_delay 2000 p in
    ESP_restart p
  else server_send (Send 400 "text/plain" "Missing parameters.") p.

Definition handleNotFound (p : Portal) : Portal :=
  let p := server_send (SendHeader "Location" "/" true) p in
  server_send (Send 302 "text/plain" EmptyString) p.

Definition handleChangePasswordPost (a : Args) (p : Portal) : Portal :=
  if negb (hasArg "oldpw" a) || negb (hasArg "newpw" a)
     || negb (hasArg "newpw2" a)
  then server_send (Send 400 "text/plain" "Missing parameters.") p
  else
    let oldpw := arg "oldpw" a in
    let newpw := arg "newpw" a in
    let newpw2 := arg "newpw2" a in
    if negb (String.eqb oldpw (configPassword (userConfig p)))
    then
      server_send
        (Send 403 "text/html" "<h1>Current password incorrect!</h1>") p
    else if negb (String.eqb newpw newpw2)
    then
      server_send
        (Send 400 "text/html"
           ("<h1>The new passwords do not match!</h1>"
            +:+ "<a href=" +:+ dq +:+ "/changepw" +:+ dq +:+ " class=" +:+ dq
            +:+ "button-link" +:+ dq +:+ ">Riprova</a>")) p
    else
      let p :=
        set_userConfig
          (set_configPassword (strncpy (MAX_PASSCFG_LEN - 1) newpw)
             (userConfig p)) p in
      let p := saveConfig p in
      server_send
        (Send 200 "text/html"
           ("<h1>Password updated!</h1>"
            +:+ "<a href=" +:+ dq +:+ "/" +:+ dq +:+ " class=" +:+ dq
            +:+ "button-link" +:+ dq +:+ ">Back to configuration</a>")) p.

(** The globals of the portal at their initialisers, over an EEPROM
    that holds [e]. *)
Definition power_on (e : Config) : Portal :=
  mkPortal zero_config e false 0 [] false.

(** ** Vocabulary of the portal properties *)

(** A request, by the handler registered for it in [setupAP]. *)
Inductive PortalRequest :=
| PostLogin (a : Args)
| PostSave (a : Args)
| PostChangePassword (a : Args)
| PostResetEEPROM
| OtherUri.

(** One call of [server.handleClient()] that finds request [r]; after a
    restart this run of the sketch handles nothing. *)
Definition handleClient (p : Portal) (r : PortalRequest) : Portal :=
  if restarted p then p else
  match r with
  | PostLogin a => handleLogin a p
  | PostSave a => handleSave a p
  | PostChangePassword a => handleChangePasswordPost a p
  | PostResetEEPROM => handleResetEEPROM p
  | OtherUri => handleNotFound p
  end.

Definition serve (rs : list PortalRequest) (p : Portal) : Portal :=
  foldl handleClient p rs.

(** Does the request present [pw] as the configuration password? *)
Definition presents (pw : string) (r : PortalRequest) : bool :=
  match r with
  | PostLogin a => String.eqb (arg "cfgpass" a) pw
  | PostChangePassword a => String.eqb (arg "oldpw" a) pw
  | _ => false
  end.

Definition is_reset (r : PortalRequest) : bool :=
  match r with PostResetEEPROM => true | _ => false end.

(** The answers with status 200. *)
Definition is_ok (o : HttpOut) : bool :=
  match o with
  | Send code _ _ => code =? 200
  | SendHeader _ _ _ => false
  end.

Definition accepted (p : Portal) : list HttpOut := List.filter is_ok (sent p).

(** The record an unconfigured board works with. *)
Definition default_config : Config :=
  mkConfig EmptyString EmptyString EmptyString "admin" EmptyString false.

(** The text fields fit their arrays with the terminator. *)
Definition fits_arrays (c : Config) : Prop :=
  (String.length (ssid c) <= MAX_SSID_LEN - 1)%nat /\
  (String.length (password c) <= MAX_PASS_LEN - 1)%nat /\
  (String.length (botToken c) <= MAX_TOKEN_LEN - 1)%nat /\
  (String.length (configPassword c) <= MAX_PASSCFG_LEN - 1)%nat /\
  (String.length (config_authorizedUsers c) <= MAX_USERS_LEN - 1)%nat.

(** The first steps of [setup] that concern the registry: [loadConfig]
    and then [parseAuthorizedUsers] on the loaded text. *)
Definition registry_at_boot (e : Config) (w : World) : World :=
  parseAuthorizedUsers
    (set_userConfig_authorizedUsers
       (config_authorizedUsers (userConfig (loadConfig (power_on e)))) w).

(** * The main loop *)

(** [loop] with its callees that the dispatcher part did not need. The
    globals and statics they add to [World] are the fields of [Board].
    What the environment decides during one pass is an argument: the
    level read on the reset pin and the answers of [bot.getUpdates]. *)

Definition BOT_REQUEST_DELAY : Z := 500.

Definition set_wifiOk (v : bool) (w : World) : World :=
  {| clock := clock w; doorRelay := doorRelay w; lightRelay := lightRelay w;
     doorOpenTime := doorOpenTime w; lightOpenTime := lightOpenTime w;
     buttonInterruptFlag := buttonInterruptFlag w;
     lastInterruptTime := lastInterruptTime w;
     userConfig_authorizedUsers := userConfig_authorizedUsers w;
     authorizedUsers := authorizedUsers w;
     numAuthorizedUsers := numAuthorizedUsers w;
     operationLog := operationLog w; wifiOk := v;
     telegramOk := telegramOk w; lastDisplayContent := lastDisplayContent w;
     radio := radio w; trace := trace w |}.

Definition set_telegramOk (v : bool) (w : World) : World :=
  {| clock := clock w; doorRelay := doorRelay w; lightRelay := lightRelay w;
     doorOpenTime := doorOpenTime w; lightOpenTime := lightOpenTime w;
     buttonInterruptFlag := buttonInterruptFlag w;
     lastInterruptTime := lastInterruptTime w;
     userConfig_authorizedUsers := userConfig_authorizedUsers w;
     authorizedUsers := authorizedUsers w;
     numAuthorizedUsers := numAuthorizedUsers w;
     operationLog := operationLog w; wifiOk := wifiOk w;
     telegramOk := v; lastDisplayContent := lastDisplayContent w;
     radio := radio w; trace := trace w |}.

(** One answer of [bot.getUpdates]: the count it returns and the
    content of [bot.messages]. *)
Record Updates := mkUpdates {
  numNewMessages : Z;
  messages : list Message
}.

(** The [while (numNewMessages)] loop of [checkTelegramMessages], with
    the last answer [u] and the answers still to come; when those run
    out [getUpdates] answers 0. *)
Fixpoint handle_updates (answers : list Updates) (u : Updates) (w : World)
  : World :=
  if numNewMessages u =? 0 then w else
  let w :=
    handleNewMessages (take (Z.to_nat (numNewMessages u)) (messages u)) w in
  match answers with
  | [] => updateDisplay (set_telegramOk (0 <=? 0) w)
  | u' :: rest =>
      let w := set_telegramOk (0 <=? numNewMessages u') w in
      let w := updateDisplay w in
      handle_updates rest u' w
  end.

Definition checkTelegramMessages (answers : list Updates) (w : World)
  : World :=
  let u := match answers with [] => mkUpdates 0 [] | u :: _ => u end in
  let w := set_telegramOk (0 <=? numNewMessages u) w in
  let w := updateDisplay w in
  handle_updates (tail answers) u w.

Record Board := mkBoard {
  world : World;
  lastTimeBotRan : Z;
  resetButtonPressTime : Z;
  configModeRequested : bool;
  lastBlink : Z;                 (* static of [blinkStatusLED] *)
  ledState : bool;               (* static of [blinkStatusLED] *)
  statusLed : bool;              (* level of pin LED_STATUS *)
  lastCheck : Z;                 (* static of [checkWiFiConnection] *)
  reconnects : nat               (* calls of [WiFi.reconnect()] *)
}.

Definition set_world (v : World) (b : Board) : Board :=
  mkBoard v (lastTimeBotRan b) (resetButtonPressTime b)
          (configModeRequested b) (lastBlink b) (ledState b) (statusLed b)
          (lastCheck b) (reconnects b).
Definition set_lastTimeBotRan (v : Z) (b : Board) : Board :=
  mkBoard (world b) v (resetButtonPressTime b)
          (configModeRequested b) (lastBlink b) (ledState b) (statusLed b)
          (lastCheck b) (reconnects b).
Definition set_resetButtonPressTime (v : Z) (b : Board) : Board :=
  mkBoard (world b) (lastTimeBotRan b) v
          (configModeRequested b) (lastBlink b) (ledState b) (statusLed b)
          (lastCheck b) (reconnects b).
Definition set_configModeRequested (v : bool) (b : Board) : Board :=
  mkBoard (world b) (lastTimeBotRan b) (resetButtonPressTime b)
          v (lastBlink b) (ledState b) (statusLed b)
          (lastCheck b) (reconnects b).
Definition set_lastBlink (v : Z) (b : Board) : Board :=
  mkBoard (world b) (lastTimeBotRan b) (resetButtonPressTime b)
          (configModeRequested b) v (ledState b) (statusLed b)
          (lastCheck b) (reconnects b).
Definition set_ledState (v : bool) (b : Board) : Board :=
  mkBoard (world b) (lastTimeBotRan b) (resetButtonPressTime b)
          (configModeRequested b) (lastBlink b) v (statusLed b)
          (lastCheck b) (reconnects b).
Definition set_statusLed (v : bool) (b : Board) : Board :=
  mkBoard (world b) (lastTimeBotRan b) (resetButtonPressTime b)
          (configModeRequested b) (lastBlink b) (ledState b) v
          (lastCheck b) (reconnects b).
Definition set_lastCheck (v : Z) (b : Board) : Board :=
  mkBoard (world b) (lastTimeBotRan b) (resetButtonPressTime b)
          (configModeRequested b) (lastBlink b) (ledState b) (statusLed b)
          v (reconnects b).
Definition set_reconnects (v : nat) (b : Board) : Board :=
  mkBoard (world b) (lastTimeBotRan b) (resetButtonPressTime b)
          (configModeRequested b) (lastBlink b) (ledState b) (statusLed b)
          (lastCheck b) v.

(** A function of the sketch that works on the globals of [World]. *)
Definition on_world (f : World -> World) (b : Board) : Board :=
  set_world (f (world b)) b.

Definition blinkStatusLED (b : Board) : Board :=
  if 1000 <? usub (millis (world b)) (lastBlink b) then
    let b := set_ledState (negb (ledState b)) b in
    let b := set_statusLed (ledState b) b in
    set_lastBlink (millis (world b)) b
  else b.

Definition checkWiFiConnection (b : Board) : Board :=
  if 30000 <? usub (millis (world b)) (lastCheck b) then
    let b :=
      if negb (wifiConnected (radio (world b))) then
        let b :=
          on_world (emit (SerialPrintln "WiFi disconnected, reconnect...")) b in
        let b := set_reconnects (S (reconnects b)) b in
        on_world (set_wifiOk false) b
      else on_world (set_wifiOk true) b in
    let b := on_world updateDisplay b in
    set_lastCheck (millis (world b)) b
  else b.

(** How a pass of [loop] ends: it returns, or it has entered the
    configuration mode, which it never leaves. *)
Inductive LoopEnd :=
| Returns (b : Board)
| ConfigMode (b : Board).

(** [loop] after the reset-button block. *)
Definition loop_body (answers : list Updates) (b : Board) : Board :=
  let b :=
    if uadd (lastTimeBotRan b) BOT_REQUEST_DELAY <? millis (world b) then
      let b := on_world (checkTelegramMessages answers) b in
      set_lastTimeBotRan (millis (world b)) b
    else b in
  let b := on_world handleTimeouts b in
  let b := blinkStatusLED b in
  let b := checkWiFiConnection b in
  let b := on_world checkButtonOpenDoor b in
  on_world updateDisplay b.

(** The signal that announces the configuration mode. *)
Definition config_mode_signal (w : World) : World :=
  let w := emit (Tone 1000 (Some 500)) w in
  let w := delay 600 w in
  let w := emit (Tone 1500 (Some 500)) w in
  let w := delay 600 w in
  emit NoTone w.

(** [loop()]; [reset_low] is [digitalRead(RESET_BUTTON_PIN) == LOW]. *)
Definition loop (reset_low : bool) (answers : list Updates) (b : Board)
  : LoopEnd :=
  if reset_low then
    if resetButtonPressTime b =? 0 then
      Returns (loop_body answers
                 (set_resetButtonPressTime (millis (world b)) b))
    else if (3000 <? usub (millis (world b)) (resetButtonPressTime b))
            && negb (configModeRequested b) then
      let b := set_configModeRequested true b in
      ConfigMode (on_world config_mode_signal b)
    else Returns (loop_body answers b)
  else
    Returns (loop_body answers
               (set_configModeRequested false (set_resetButtonPressTime 0 b))).

(** ** Vocabulary of the loop properties *)

(** One pass as the environment shapes it: the clock when it starts,
    the level of the reset pin, the answers of the bot. *)
Record Pass := mkPass {
  pass_time : Z;
  pass_reset_low : bool;
  pass_answers : list Updates
}.

Definition board_at (t : Z) (b : Board) : Board := on_world (at_time t) b.

(** Successive passes, up to the one that enters the configuration
    mode. *)
Fixpoint passes (ps : list Pass) (b : Board) : LoopEnd :=
  match ps with
  | [] => Returns b
  | p :: rest =>
      match loop (pass_reset_low p) (pass_answers p)
                 (board_at (pass_time p) b) with
      | Returns b' => passes rest b'
      | ConfigMode b' => ConfigMode b'
      end
  end.

Definition in_config_mode (e : LoopEnd) : bool :=
  match e with ConfigMode _ => true | Returns _ => false end.

Definition board_of (e : LoopEnd) : Board :=
  match e with ConfigMode b => b | Returns b => b end.

(** What no event from the bot changes: the registry, the state of the
    push button and the length of the log; and a relay that is on stays
    on. *)
Definition installation_kept (w w' : World) : Prop :=
  userConfig_authorizedUsers w' = userConfig_authorizedUsers w /\
  authorizedUsers w' = authorizedUsers w /\
  numAuthorizedUsers w' = numAuthorizedUsers w /\
  buttonInterruptFlag w' = buttonInterruptFlag w /\
  lastInterruptTime w' = lastInterruptTime w /\
  length (operationLog w') = length (operationLog w) /\
  (doorRelay w = true -> doorRelay w' = true) /\
  (lightRelay w = true -> lightRelay w' = true).

(** The part of a pass before the sweep. *)
Definition poll_stage (answers : list Updates) (b : Board) : Board :=
  if uadd (lastTimeBotRan b) BOT_REQUEST_DELAY <? millis (world b) then
    let b := on_world (checkTelegramMessages answers) b in
    set_lastTimeBotRan (millis (world b)) b
  else b.

(** The part of a pass after the sweep. *)
Definition after_sweep (b : Board) : Board :=
  on_world updateDisplay
    (on_world checkButtonOpenDoor (checkWiFiConnection (blinkStatusLED b))).

(** ** More worked instances *)

Definition alice_open : Message :=
  mkMessage "message" "111" "/open" "Alice" EmptyString.

Definition alice_status : Message :=
  mkMessage "message" "111" "/status" "Alice" EmptyString.

Definition alice_open_callback : Message :=
  mkMessage "callback_query" "111" "OPEN_DOOR" "Alice" "q7".

Definition alice_help_callback : Message :=
  mkMessage "callback_query" "111" "HELP" "Alice" "q8".

(** The board of [demo_world] with the loop's own globals at zero. *)
Definition demo_board : Board :=
  mkBoard demo_world 0 0 false 0 false false 0 0%nat.

(** The same board with a button press pending. *)
Definition pressed_board : Board :=
  on_world (set_buttonInterruptFlag true) demo_board.

(** The portal of a board after a factory reset (the EEPROM all zero). *)
Definition new_portal : Portal := loadConfig (power_on zero_config).

(** That portal after a login with the default password. *)
Definition open_portal : Portal :=
  handleLogin [("cfgpass", "admin")] new_portal.

Definition home_args : Args :=
  [("ssid", "home"); ("pass", "secret"); ("token", "123:abc");
   ("users", "111,222")].

(** [pressed_board] after one pass in which the bot has no news, and
    after a second such pass that starts at clock value 9000. *)
Definition pressed_board_after : Board :=
  board_of (loop false [] pressed_board).

Definition pressed_board_later : Board :=
  board_of (loop false [] (board_at 9000 pressed_board_after)).

(** [demo_board] after a pass in which Alice's [/open] arrives. *)
Definition demo_board_after_open : Board :=
  board_of (loop false [mkUpdates 1 [alice_open]] demo_board).

(** Requests of a client that guesses the password. *)
Definition guessing_requests : list PortalRequest :=
  [PostLogin [("cfgpass", "guess")];
   PostSave home_args;
   PostChangePassword [("oldpw", "guess"); ("newpw", "x"); ("newpw2", "x")];
   OtherUri].

Definition new_password_args : Args :=
  [("oldpw", "admin"); ("newpw", "hunter2"); ("newpw2", "hunter2")].

(** ** Senders and the registry *)

(** The authorized set: the ids the registry holds. *)
Definition authorized_set (w : World) : list Z :=
  take (numAuthorizedUsers w) (authorizedUsers w).

(** The sender of [m] has an id in the range of [long] that is not in
    the registry; the chat id of an event is the decimal form of the
    sender's id. *)
Definition outsider (w : World) (m : Message) : Prop :=
  exists id, chat_id m = String_of id /\ in_long id /\
             ~ In id (authorized_set w).

(** A board whose registry was configured with one id beyond the
    32-bit [long], and an [/open] from another such id. *)
Definition big_registry_world : World :=
  parseAuthorizedUsers (initial_world 5000 "5000000000" radio0).

Definition big_sender_open : Message :=
  mkMessage "message" "6000000000" "/open" "Eve" EmptyString.

(** ** The detailed block in the words of the claim *)

(** The label of an entry: the light for [LIGHT_ON], the door for
    every other operation kind. *)
Definition spec_label (e : LogEntry) : string :=
  if String.eqb (operation e) "LIGHT_ON" then "💡 LIGHT ON"
  else "🚪 DOOR OPENED".

(** The block of an entry, rendered when the clock reads [now]: label,
    user name, elapsed time. *)
Definition spec_block (now : Z) (e : LogEntry) : string :=
  ("• " +:+ spec_label e +:+ nl)
    +:+ ("  👤 " +:+ userName e +:+ nl)
    +:+ ("  ⏰ " +:+ formatTimeAgo (usub now (timestamp e)) +:+ nl +:+ nl).

(** Four operations around the wrap of the 32-bit clock: the first
    5000 ms before it, the second while [millis()] reads 0, two more
    3000 and 5000 ms after it. *)
Definition wrap_calls : list AppendCall :=
  [mkAppendCall 4294962296 333 "OPEN_DOOR" "Carol";
   mkAppendCall 0 222 "LIGHT_ON" "Bob";
   mkAppendCall 3000 0 "DOOR_BUTTON" "Button";
   mkAppendCall 5000 111 "OPEN_DOOR" "Alice"].

(** * Properties *)

(** Reduces the projections of a world built by setters, and nothing
    else (no arithmetic, no text). *)
Ltac fields :=
  cbn [clock doorRelay lightRelay doorOpenTime lightOpenTime
       buttonInterruptFlag lastInterruptTime userConfig_authorizedUsers
       authorizedUsers numAuthorizedUsers operationLog wifiOk telegramOk
       lastDisplayContent radio trace
       set_clock set_doorRelay set_lightRelay set_doorOpenTime
       set_lightOpenTime set_buttonInterruptFlag set_lastInterruptTime
       set_userConfig_authorizedUsers set_authorizedUsers
       set_numAuthorizedUsers set_operationLog set_lastDisplayContent
       set_trace emit delay at_time millis].

Ltac fields_in H :=
  cbn [clock doorRelay lightRelay doorOpenTime lightOpenTime
       buttonInterruptFlag lastInterruptTime userConfig_authorizedUsers
       authorizedUsers numAuthorizedUsers operationLog wifiOk telegramOk
       lastDisplayContent radio trace
       set_clock set_doorRelay set_lightRelay set_doorOpenTime
       set_lightOpenTime set_buttonInterruptFlag set_lastInterruptTime
       set_userConfig_authorizedUsers set_authorizedUsers
       set_numAuthorizedUsers set_operationLog set_lastDisplayContent
       set_trace emit delay at_time millis] in H.

Ltac case_sweep :=
  unfold handleTimeouts;
  repeat match goal with
    | |- context [if ?c then _ else _] => destruct c eqn:?
    end; cbn in *.

(** ** The embedding at work *)

Example atol_examples :
  atol "  -12abc" = -12 /\ atol "abc" = 0 /\ atol "+7" = 7 /\
  atol "99999999999" = LONG_MAX /\ atol "-99999999999" = LONG_MIN.
Proof. repeat split. Qed.

Example strtok_examples :
  strtok ",,a,,b," = Some ("a", ",b,") /\ strtok ",b," = Some ("b", EmptyString) /\
  strtok ",," = None.
Proof. repeat split. Qed.

Example formatTimeAgoShort_examples :
  formatTimeAgoShort 59999 = "59s " /\ formatTimeAgoShort 60000 = "1m " /\
  formatTimeAgoShort 7200000 = "2h " /\ formatTimeAgoShort 86400000 = "1g ".
Proof. repeat split. Qed.

Example formatUptime_examples :
  formatUptime 5000 = "5s" /\ formatUptime 3600000 = "1h 0s" /\
  formatUptime 90061000 = "1d 1h 1m 1s".
Proof. repeat split. Qed.

Example short_lines_example :
  getShortLogLine 0 three_ops_world = "Button Door 6s " /\
  getShortLogLine 1 three_ops_world = "Bob Light 7s " /\
  getShortLogLine 4 three_ops_world = EmptyString.
Proof. vm_compute. repeat split. Qed.

(** ** Unsigned arithmetic *)

(** Time read back after [d] more milliseconds, across a wrap of the
    counter or not. *)
Lemma usub_uadd t d : 0 <= d < ULONG_MOD -> usub (uadd t d) t = d.
Proof.
  intros Hd. unfold usub, uadd, wrap.
  rewrite Zminus_mod_idemp_l.
  replace (t + d - t) with d by lia.
  apply Z.mod_small. exact Hd.
Qed.

(** ** Debounced push button *)

Lemma buttonISR_accept w :
  edge_passes w = true ->
  buttonISR w = set_lastInterruptTime (millis w) (set_buttonInterruptFlag true w).
Proof. unfold buttonISR, edge_passes. intros ->. reflexivity. Qed.

Lemma buttonISR_ignore w : edge_passes w = false -> buttonISR w = w.
Proof. unfold buttonISR, edge_passes. intros ->. reflexivity. Qed.

(** C9. After an accepted edge at clock value [t1], a second edge [d] ms
    later is ignored when [d < 100] (the state is left as it was and one
    edge in all was accepted) and accepted when [100 < d] (the flag is
    raised, the edge time recorded, two edges in all were accepted). *)
Theorem debounce_two_edges (w : World) (t1 d : Z) :
  edge_passes (at_time t1 w) = true ->
  let w1 := buttonISR (at_time t1 w) in
  let t2 := uadd t1 d in
  (0 <= d < interruptDebounceDelay ->
     buttonISR (at_time t2 w1) = at_time t2 w1 /\
     fst (edges [t1; t2] w) = 1%nat) /\
  (interruptDebounceDelay < d < ULONG_MOD ->
     buttonInterruptFlag (buttonISR (at_time t2 w1)) = true /\
     lastInterruptTime (buttonISR (at_time t2 w1)) = t2 /\
     fst (edges [t1; t2] w) = 2%nat).
Proof.
  intros Hfirst w1 t2.
  assert (Hlast : lastInterruptTime (at_time t2 w1) = t1).
  { subst w1. rewrite (buttonISR_accept _ Hfirst). reflexivity. }
  assert (Hel : forall x, 0 <= x < ULONG_MOD ->
            usub (millis (at_time (uadd t1 x) w1))
              (lastInterruptTime (at_time (uadd t1 x) w1)) = x).
  { intros x Hx. subst w1. rewrite (buttonISR_accept _ Hfirst). cbn.
    apply usub_uadd. exact Hx. }
  split; intros Hd.
  - assert (Hrej : edge_passes (at_time t2 w1) = false).
    { unfold edge_passes. subst t2. rewrite Hel.
      + apply Z.ltb_ge. lia.
      + unfold interruptDebounceDelay, ULONG_MOD in *. lia. }
    split.
    + apply buttonISR_ignore. exact Hrej.
    + cbn [edges fst]. fold w1. fold t2. rewrite Hfirst, Hrej. reflexivity.
  - assert (Hacc : edge_passes (at_time t2 w1) = true).
    { unfold edge_passes. subst t2. rewrite Hel.
      + apply Z.ltb_lt. lia.
      + unfold interruptDebounceDelay in *. lia. }
    rewrite (buttonISR_accept _ Hacc).
    split; [reflexivity|]. split; [reflexivity|].
    cbn [edges fst]. fold w1. fold t2. rewrite Hfirst, Hacc. reflexivity.
Qed.

(** ** Relay pulses *)

Lemma openDoor_sets w :
  doorRelay (openDoor w) = true /\ doorOpenTime (openDoor w) = millis w.
Proof. split; reflexivity. Qed.

(** A sweep no later than the timeout leaves the door relay alone. *)
Lemma handleTimeouts_door_keeps w :
  usub (millis w) (doorOpenTime w) <= DOOR_TIMEOUT ->
  doorRelay (handleTimeouts w) = doorRelay w /\
  doorOpenTime (handleTimeouts w) = doorOpenTime w.
Proof.
  intros H.
  assert (Hc : (0 <? doorOpenTime w)
               && (DOOR_TIMEOUT <? usub (millis w) (doorOpenTime w)) = false).
  { apply andb_false_iff. right. apply Z.ltb_ge. exact H. }
  unfold handleTimeouts. rewrite Hc. cbv beta zeta iota. clear Hc.
  destruct (_ && _); split; reflexivity.
Qed.

(** A sweep later than the timeout releases a door relay whose
    timestamp is set. *)
Lemma handleTimeouts_door_releases w :
  0 < doorOpenTime w ->
  DOOR_TIMEOUT < usub (millis w) (doorOpenTime w) ->
  doorRelay (handleTimeouts w) = false /\ doorOpenTime (handleTimeouts w) = 0.
Proof.
  intros H0 H1.
  assert (Hc : (0 <? doorOpenTime w)
               && (DOOR_TIMEOUT <? usub (millis w) (doorOpenTime w)) = true).
  { apply andb_true_iff. split; apply Z.ltb_lt; assumption. }
  unfold handleTimeouts. rewrite Hc. cbv beta zeta iota. clear Hc.
  destruct (_ && _); split; reflexivity.
Qed.

(** With the timestamp at 0 a sweep never touches the door relay. *)
Lemma handleTimeouts_door_unset w :
  doorOpenTime w = 0 ->
  doorRelay (handleTimeouts w) = doorRelay w /\
  doorOpenTime (handleTimeouts w) = 0.
Proof.
  intros H.
  assert (Hc : (0 <? doorOpenTime w)
               && (DOOR_TIMEOUT <? usub (millis w) (doorOpenTime w)) = false).
  { rewrite H. reflexivity. }
  unfold handleTimeouts. rewrite Hc. cbv beta zeta iota. clear Hc.
  destruct (_ && _); split; cbn; auto.
Qed.

(** The pulse of one activation read at a nonzero clock value [t]: the
    relay is energised at once, a sweep [x] ms later leaves it so while
    [x <= 1000] and releases it once [1000 < x]. *)
Lemma door_pulse_at_nonzero_clock w t x :
  0 < t < ULONG_MOD -> 0 <= x < ULONG_MOD ->
  let w1 := openDoor (at_time t w) in
  let w2 := handleTimeouts (at_time (uadd t x) w1) in
  doorRelay w1 = true /\
  (x <= DOOR_TIMEOUT -> doorRelay w2 = true) /\
  (DOOR_TIMEOUT < x -> doorRelay w2 = false /\ doorOpenTime w2 = 0).
Proof.
  intros Ht Hx w1 w2.
  assert (Hel : usub (millis (at_time (uadd t x) w1))
                  (doorOpenTime (at_time (uadd t x) w1)) = x).
  { subst w1. unfold openDoor. fields. apply usub_uadd. exact Hx. }
  split; [reflexivity|]. subst w2. split; intros Hd.
  - destruct (handleTimeouts_door_keeps (at_time (uadd t x) w1)) as [-> _];
      [rewrite Hel; exact Hd | reflexivity].
  - apply handleTimeouts_door_releases; [|rewrite Hel; exact Hd].
    subst w1. unfold openDoor. fields. lia.
Qed.

(** Re-activation restarts the countdown: after activations at [t] and
    600 ms later, a sweep up to 1000 ms after the second one leaves the
    relay energised. *)
Lemma retrigger_restarts w t x :
  0 <= x <= DOOR_TIMEOUT ->
  let w1 := openDoor (at_time t w) in
  let w2 := openDoor (at_time (uadd t 600) w1) in
  doorRelay (handleTimeouts (at_time (uadd (uadd t 600) x) w2)) = true.
Proof.
  intros Hx w1 w2.
  destruct (handleTimeouts_door_keeps (at_time (uadd (uadd t 600) x) w2)) as [-> _].
  - cbn. rewrite usub_uadd; unfold DOOR_TIMEOUT, ULONG_MOD in *; lia.
  - reflexivity.
Qed.

(** The invariant is kept by every step whose activations read a
    nonzero clock. *)
Lemma relay_inv_step w s :
  (is_activation s = true -> 0 < step_time s) ->
  relay_inv w -> relay_inv (relay_step w s).
Proof.
  intros Ht [Hd Hl]. destruct s as [t|t|t]; cbn in Ht.
  - specialize (Ht eq_refl). split; cbn; [tauto | exact Hl].
  - specialize (Ht eq_refl). split; cbn; [exact Hd | tauto].
  - unfold relay_step, relay_inv. case_sweep; intuition (try discriminate; try lia).
    all: try (apply andb_true_iff in Heqb as [? _]; lia).
    all: try (apply andb_true_iff in Heqb0 as [? _]; lia).
Qed.

Lemma relay_inv_run steps : forall w,
  Forall (fun s => is_activation s = true -> 0 < step_time s) steps ->
  relay_inv w -> relay_inv (relay_run w steps).
Proof.
  induction steps as [|s steps IH]; intros w Hall Hinv; [exact Hinv|].
  inversion Hall; subst. cbn. apply IH; [assumption|].
  apply relay_inv_step; assumption.
Qed.

(** Sweeps cannot release a relay whose timestamp reads 0. *)
Lemma sweeps_keep_unset_door (ts : list Z) : forall w,
  doorRelay w = true -> doorOpenTime w = 0 ->
  doorRelay (relay_run w (Sweep <$> ts)) = true /\
  doorOpenTime (relay_run w (Sweep <$> ts)) = 0.
Proof.
  induction ts as [|t ts IH]; intros w Hr Ht; [split; assumption|].
  cbn. destruct (handleTimeouts_door_unset (at_time t w) Ht) as [H1 H2].
  apply IH; [rewrite H1; exact Hr | exact H2].
Qed.

Lemma handleTimeouts_light_unset w :
  lightOpenTime w = 0 ->
  lightRelay (handleTimeouts w) = lightRelay w /\
  lightOpenTime (handleTimeouts w) = 0.
Proof.
  intros H. unfold handleTimeouts.
  destruct ((0 <? doorOpenTime w) && _); cbv beta zeta iota; cbn;
    rewrite H; cbn; auto.
Qed.

Lemma sweeps_keep_unset_light (ts : list Z) : forall w,
  lightRelay w = true -> lightOpenTime w = 0 ->
  lightRelay (relay_run w (Sweep <$> ts)) = true /\
  lightOpenTime (relay_run w (Sweep <$> ts)) = 0.
Proof.
  induction ts as [|t ts IH]; intros w Hr Ht; [split; assumption|].
  cbn. destruct (handleTimeouts_light_unset (at_time t w) Ht) as [H1 H2].
  apply IH; [rewrite H1; exact Hr | exact H2].
Qed.

(** C3, at the clock value 0. The door is activated while [millis()]
    reads 0 and swept 2000 ms later, twice the timeout: the relay is
    energised after the activation and still energised after the sweep. *)
Theorem door_held_past_timeout_at_clock_zero (w : World) :
  let w1 := openDoor (at_time 0 w) in
  let w2 := handleTimeouts (at_time 2000 w1) in
  doorRelay w1 = true /\
  DOOR_TIMEOUT < usub (millis (at_time 2000 w1)) (millis (at_time 0 w)) /\
  doorRelay w2 = true.
Proof.
  cbn zeta. split; [reflexivity|]. split; [reflexivity|].
  destruct (handleTimeouts_door_unset (at_time 2000 (openDoor (at_time 0 w))))
    as [-> _]; reflexivity.
Qed.

(** C4, at the clock value 0. An activation that reads 0 from
    [millis()] energises the relay and leaves its timestamp unset, so
    the invariant fails in that state, and no sequence of sweeps ever
    releases the relay; the same for the light. *)
Theorem relay_inv_broken_at_clock_zero (w : World) (sweeps : list Z) :
  let wd := relay_step w (ActivateDoor 0) in
  let wl := relay_step w (ActivateLight 0) in
  ~ relay_inv wd /\ ~ relay_inv wl /\
  doorRelay (relay_run wd (Sweep <$> sweeps)) = true /\
  lightRelay (relay_run wl (Sweep <$> sweeps)) = true.
Proof.
  cbn zeta. repeat split.
  - intros [[H _] _]. cbn in H. specialize (H eq_refl). lia.
  - intros [_ [H _]]. cbn in H. specialize (H eq_refl). lia.
  - apply sweeps_keep_unset_door; reflexivity.
  - apply sweeps_keep_unset_light; reflexivity.
Qed.

(** ** Display refresh and feedback leave the core state alone *)

Lemma updateDisplay_cases w :
  updateDisplay w = w \/
  exists c ls, updateDisplay w = emit (DisplayShow ls) (set_lastDisplayContent c w).
Proof.
  unfold updateDisplay. cbv zeta.
  destruct (String.eqb _ (lastDisplayContent w)); [left; reflexivity|].
  right. eexists _, _. reflexivity.
Qed.

Lemma same_core_refl w : same_core w w.
Proof. repeat split. Qed.

Lemma updateDisplay_core w : same_core w (updateDisplay w).
Proof.
  destruct (updateDisplay_cases w) as [-> | (c & ls & ->)]; repeat split.
Qed.

Lemma updateDisplay_outbound w :
  outbound (trace (updateDisplay w)) = outbound (trace w).
Proof.
  destruct (updateDisplay_cases w) as [-> | (c & ls & ->)]; [reflexivity|].
  cbn. unfold outbound. rewrite List.filter_app. cbn. apply app_nil_r.
Qed.

Lemma confirmationBeep_core w : same_core w (confirmationBeep w).
Proof. repeat split. Qed.

Lemma confirmationBeep_outbound w :
  outbound (trace (confirmationBeep w)) = outbound (trace w).
Proof.
  cbn. unfold outbound. rewrite <- !app_assoc, List.filter_app. cbn.
  apply app_nil_r.
Qed.

(** ** Operation log *)

Lemma shift_down_insert (e : LogEntry) (log : list LogEntry) :
  length log = LOG_SIZE ->
  <[0%nat := e]> (shift_down (LOG_SIZE - 1) log) = e :: take 4 log.
Proof.
  intros H. do 5 (destruct log as [|? log]; [discriminate H|]).
  destruct log; [reflexivity | discriminate H].
Qed.

Lemma logOperation_log id op name w :
  length (operationLog w) = LOG_SIZE ->
  operationLog (logOperation id op name w)
  = mkLogEntry (millis w) id op name :: take 4 (operationLog w).
Proof.
  intros H. unfold logOperation. cbv zeta.
  destruct (updateDisplay_core
              (set_operationLog
                 (<[0%nat := mkLogEntry (millis w) id op name]>
                    (shift_down (LOG_SIZE - 1) (operationLog w))) w))
    as (_&_&_&_&->&_).
  cbn [operationLog set_operationLog]. apply shift_down_insert. exact H.
Qed.

Lemma logOperation_length id op name w :
  length (operationLog w) = LOG_SIZE ->
  length (operationLog (logOperation id op name w)) = LOG_SIZE.
Proof.
  intros H. rewrite logOperation_log by exact H.
  cbn. rewrite length_take, H. reflexivity.
Qed.

Lemma appends_length cs w : length (operationLog (appends cs w)) = LOG_SIZE.
Proof.
  unfold appends.
  assert (H : length (operationLog (initializeLog w)) = LOG_SIZE) by reflexivity.
  revert H. generalize (initializeLog w). clear w.
  induction cs as [|c cs IH]; intros w H; [exact H|].
  cbn. apply IH. unfold append. apply logOperation_length. exact H.
Qed.

Lemma count_valid_le n log : (count_valid n log <= n)%nat.
Proof.
  induction n as [|n IH]; cbn; [lia|].
  destruct (0 <? timestamp (log !!! n)); lia.
Qed.

(** C5. After [initializeLog] and any sequence of [logOperation] calls
    the log has its five slots and at most five valid entries; one more
    call puts the new entry in slot 0, moves the entry of every slot
    [i < 4] to slot [i + 1], and the entry of slot 4 is gone: the new
    log is the new entry followed by the first four old ones. *)
Theorem log_bounded_most_recent_first (w : World) (cs : list AppendCall)
    (c : AppendCall) :
  let old := operationLog (appends cs w) in
  let new := operationLog (appends (cs ++ [c]) w) in
  length old = 5%nat /\ (count_valid LOG_SIZE old <= 5)%nat /\
  length new = 5%nat /\ (count_valid LOG_SIZE new <= 5)%nat /\
  new !! 0%nat = Some (entry_of c) /\
  (forall i, (i < 4)%nat -> new !! S i = old !! i) /\
  new = entry_of c :: take 4 old.
Proof.
  cbn zeta.
  assert (Hnew : operationLog (appends (cs ++ [c]) w)
                 = entry_of c :: take 4 (operationLog (appends cs w))).
  { unfold appends. rewrite foldl_app. cbn [foldl]. unfold append at 1.
    rewrite logOperation_log; [reflexivity|]. apply (appends_length cs w). }
  split; [apply appends_length|]. split; [apply count_valid_le|].
  split; [apply appends_length|]. split; [apply count_valid_le|].
  rewrite Hnew. split; [reflexivity|]. split; [|reflexivity].
  intros i Hi. cbn. apply lookup_take_lt. exact Hi.
Qed.

Lemma logOperation_others id op name w :
  let w' := logOperation id op name w in
  doorRelay w' = doorRelay w /\ doorOpenTime w' = doorOpenTime w /\
  lightRelay w' = lightRelay w /\ lightOpenTime w' = lightOpenTime w /\
  buttonInterruptFlag w' = buttonInterruptFlag w /\
  outbound (trace w') = outbound (trace w).
Proof.
  cbn zeta. unfold logOperation. cbv zeta.
  match goal with |- context [updateDisplay ?x] => set (w0 := x) end.
  destruct (updateDisplay_core w0) as (-> & -> & -> & -> & _ & _ & _ & -> & _).
  rewrite updateDisplay_outbound. repeat split.
Qed.

(** ** Push button to door *)

(** C6. An accepted edge raises the flag; when the main loop then runs
    [checkButtonOpenDoor] at clock value [t'], the door relay is
    energised with timestamp [t'], the log gains the single entry
    (t', 0, DOOR_BUTTON, Button) at its head, the flag is lowered and
    nothing is sent through the bot. *)
Theorem button_press_opens_and_logs (w : World) (t t' : Z) :
  length (operationLog w) = LOG_SIZE ->
  edge_passes (at_time t w) = true ->
  let w1 := buttonISR (at_time t w) in
  let w2 := checkButtonOpenDoor (at_time t' w1) in
  buttonInterruptFlag w1 = true /\
  doorRelay w2 = true /\ doorOpenTime w2 = t' /\
  operationLog w2
  = mkLogEntry t' 0 "DOOR_BUTTON" "Button" :: take 4 (operationLog w) /\
  buttonInterruptFlag w2 = false /\
  outbound (trace w2) = outbound (trace w).
Proof.
  intros Hlen Hedge. cbn zeta.
  rewrite (buttonISR_accept _ Hedge).
  split; [reflexivity|].
  unfold checkButtonOpenDoor. cbn [buttonInterruptFlag at_time set_clock
    set_lastInterruptTime set_buttonInterruptFlag].
  unfold openDoorFromButton. cbv zeta.
  match goal with |- context [logOperation ?a ?b ?c ?x] =>
    set (w0 := x); set (wl := logOperation a b c w0) end.
  pose proof (logOperation_others 0 "DOOR_BUTTON" "Button" w0) as Hl.
  cbn zeta in Hl. fold wl in Hl. destruct Hl as (Hr & Ht & _ & _ & Hf & Ho).
  pose proof (logOperation_log 0 "DOOR_BUTTON" "Button" w0) as Hlog.
  fold wl in Hlog.
  match goal with |- context [updateDisplay ?x] => set (wb := x) end.
  destruct (updateDisplay_core wb) as (-> & _ & -> & _ & -> & _ & _ & -> & _).
  rewrite updateDisplay_outbound.
  subst wb. rewrite confirmationBeep_outbound.
  cbn [doorRelay doorOpenTime operationLog buttonInterruptFlag confirmationBeep
       emit set_trace delay set_clock foldl play_note zip zip_with trace].
  unfold outbound. rewrite List.filter_app. cbn [List.filter is_remote].
  rewrite app_nil_r. fold (outbound (trace wl)).
  rewrite Hr, Ht, Hf, Ho, Hlog by exact Hlen.
  subst w0. cbn. repeat split.
  unfold outbound. rewrite List.filter_app. cbn. apply app_nil_r.
Qed.

(** ** Authorization gate of the dispatcher *)

Lemma outbound_app tr1 tr2 : outbound (tr1 ++ tr2) = outbound tr1 ++ outbound tr2.
Proof. apply List.filter_app. Qed.

Lemma sounds_app tr1 tr2 : sounds (tr1 ++ tr2) = sounds tr1 ++ sounds tr2.
Proof. apply List.filter_app. Qed.

Lemma quiet_app tr1 tr2 : quiet tr1 -> quiet tr2 -> quiet (tr1 ++ tr2).
Proof.
  unfold quiet, outbound, sounds. intros [H1 H2] [H3 H4].
  rewrite !List.filter_app, H1, H2, H3, H4. split; reflexivity.
Qed.

Lemma quiet_serial a b : quiet [SerialPrint a; SerialPrintln b].
Proof. split; reflexivity. Qed.

Lemma scan_users_trace todo : forall i id w,
  exists tr, snd (scan_users todo i id w) = set_trace (trace w ++ tr) w /\ quiet tr.
Proof.
  induction todo as [|todo IH]; intros i id w.
  - exists []. cbn. rewrite app_nil_r.
    destruct w; split; [reflexivity | split; reflexivity].
  - cbn [scan_users]. cbv zeta.
    match goal with |- context [if ?c then _ else _] => destruct c end.
    + eexists. unfold emit, set_trace. cbn. rewrite <- app_assoc.
      split; [reflexivity|]. split; reflexivity.
    + match goal with |- context [scan_users todo (S i) id ?x] =>
        destruct (IH (S i) id x) as (tr & -> & Hq) end.
      eexists. unfold emit, set_trace. cbn. rewrite <- !app_assoc.
      split; [reflexivity|].
      apply (quiet_app [_; _]); [split; reflexivity | exact Hq].
Qed.

Lemma isAuthorizedUser_trace id w :
  exists tr, snd (isAuthorizedUser id w) = set_trace (trace w ++ tr) w /\ quiet tr.
Proof.
  unfold isAuthorizedUser. cbv zeta.
  match goal with |- context [scan_users ?n ?i id ?x] =>
    destruct (scan_users_trace n i id x) as (tr & -> & Hq) end.
  eexists. unfold emit, set_trace. cbn. rewrite <- !app_assoc.
  split; [reflexivity|].
  apply (quiet_app [_; _]); [split; reflexivity | exact Hq].
Qed.

(** An event that fails the check of [isAuthorizedUser] is not routed:
    the relays, their timestamps, the log, the registry and the button
    state are as before. A text message is answered with the
    access-denied message to its chat together with the error pattern
    on the buzzer; a callback query is answered with the callback
    acknowledgement [Unauthorized] and nothing else goes out through
    the bot. *)
Lemma failed_check_not_routed (w : World) (m : Message) :
  fst (isAuthorizedUser (toInt (chat_id m)) w) = false ->
  let w' := handleNewMessages [m] w in
  same_core w w' /\
  (msg_type m = "message" -> denied_with_feedback w m) /\
  (msg_type m = "callback_query" ->
     outbound (trace w')
     = outbound (trace w) ++ [AnswerCallbackQuery (query_id m) "Unauthorized"]).
Proof.
  intros Hno. cbn zeta.
  assert (Hstep : handleNewMessages [m] w = handleMessage w m) by reflexivity.
  unfold denied_with_feedback. cbv zeta. rewrite Hstep. clear Hstep.
  unfold handleMessage.
  destruct (isAuthorizedUser_trace (toInt (chat_id m)) w) as (tr & Hsnd & Ho & Hs).
  destruct (isAuthorizedUser (toInt (chat_id m)) w) as [ok w1].
  cbn in Hno, Hsnd. subst ok w1. cbn [negb].
  assert (Hmsg :
    let w' := handleUnauthorizedUser (chat_id m) (from_name m)
                (set_trace (trace w ++ tr) w) in
    same_core w w' /\
    outbound (trace w')
    = outbound (trace w)
        ++ [SendMessage (chat_id m) access_denied_text "Markdown"] /\
    sounds (trace w') = sounds (trace w) ++ error_pattern).
  { unfold handleUnauthorizedUser, errorBeep. fields.
    rewrite <- !app_assoc, !outbound_app, !sounds_app, Ho, Hs.
    split; [repeat split|]. split; reflexivity. }
  assert (Hcb :
    let w' := emit (AnswerCallbackQuery (query_id m) "Unauthorized")
                (set_trace (trace w ++ tr) w) in
    same_core w w' /\
    outbound (trace w')
    = outbound (trace w) ++ [AnswerCallbackQuery (query_id m) "Unauthorized"]).
  { fields. rewrite !outbound_app, Ho, app_nil_r.
    split; [repeat split | reflexivity]. }
  cbv zeta in Hmsg, Hcb.
  destruct (String.eqb_spec (msg_type m) "message") as [E1|N1].
  - split; [apply Hmsg|]. split.
    + intros _. destruct Hmsg as (H1 & H2 & H3). repeat split; assumption.
    + intros E2. rewrite E2 in E1. discriminate E1.
  - destruct (String.eqb_spec (msg_type m) "callback_query") as [E2|N2].
    + split; [apply Hcb|]. split; [intros E; contradiction|].
      intros _. apply Hcb.
    + split.
      * repeat split.
      * split; intros E; contradiction.
Qed.

(** ** Authorization registry *)

(** *** [strtok] against the specification's tokens *)

Lemma spec_tokens_comma s : spec_tokens (String comma s) = spec_tokens s.
Proof. reflexivity. Qed.

Lemma skip_delims_tokens s : spec_tokens (skip_delims s) = spec_tokens s.
Proof.
  induction s as [|c s IH]; [reflexivity|]. cbn [skip_delims].
  destruct (Ascii.eqb_spec c comma) as [->|Hc]; [|reflexivity].
  rewrite IH. symmetry. apply spec_tokens_comma.
Qed.

Lemma skip_delims_head s c r : skip_delims s = String c r -> c <> comma.
Proof.
  induction s as [|c' s IH]; [discriminate|]. cbn [skip_delims].
  destruct (Ascii.eqb_spec c' comma) as [->|Hc]; [exact IH|].
  intros H. injection H as -> _. exact Hc.
Qed.

Lemma split_token_fields s :
  exists fs, comma_fields s = fst (split_token s) :: fs /\
             List.filter (fun f => negb (is_empty f)) fs
             = spec_tokens (snd (split_token s)).
Proof.
  induction s as [|c s (fs & Hf & Hr)].
  - exists []. split; reflexivity.
  - cbn [split_token comma_fields].
    destruct (Ascii.eqb c comma).
    + exists (comma_fields s). split; reflexivity.
    + rewrite Hf. destruct (split_token s) as [tok rest]. cbn [fst snd] in *.
      exists fs. split; [reflexivity | exact Hr].
Qed.

Lemma strtok_None s : strtok s = None -> spec_tokens s = [].
Proof.
  unfold strtok. intros H. rewrite <- skip_delims_tokens.
  destruct (skip_delims s); [reflexivity | discriminate H].
Qed.

Lemma strtok_Some s tok rest :
  strtok s = Some (tok, rest) -> spec_tokens s = tok :: spec_tokens rest.
Proof.
  unfold strtok. intros H. rewrite <- skip_delims_tokens.
  destruct (skip_delims s) as [|c r] eqn:Hs; [discriminate H|].
  apply skip_delims_head in Hs.
  assert (Hsp : split_token (String c r) = (tok, rest)) by congruence.
  clear H. rename Hsp into H.
  destruct (split_token_fields (String c r)) as (fs & Hf & Hr).
  rewrite H in Hf, Hr. cbn [fst snd] in Hf, Hr.
  unfold spec_tokens at 1. rewrite Hf. cbn [List.filter].
  assert (Hne : is_empty tok = false).
  { cbn [split_token] in H. destruct (Ascii.eqb_spec c comma); [contradiction|].
    destruct (split_token r). injection H as <- _. reflexivity. }
  rewrite Hne. cbn [negb]. rewrite Hr. reflexivity.
Qed.

Lemma strncpy_fits n s : (String.length s <= n)%nat -> strncpy n s = s.
Proof.
  revert n. induction s as [|c s IH]; intros n H.
  - destruct n; reflexivity.
  - destruct n as [|n]; [cbn in H; lia|]. cbn. f_equal. apply IH. cbn in H. lia.
Qed.

Lemma atol_not_number s : starts_number s = false -> atol s = 0.
Proof.
  unfold starts_number, atol.
  destruct (skip_spaces s) as [|c r]; [reflexivity|].
  assert (Hd : forall x y, isdigit x = false -> read_digits 0 (String x y) = 0).
  { intros x y Hx. cbn [read_digits]. rewrite Hx. reflexivity. }
  assert (Hr : match r with String d _ => isdigit d | EmptyString => false end
               = false -> read_digits 0 r = 0).
  { destruct r; [reflexivity | apply Hd]. }
  destruct (Ascii.eqb c "-"); cbn [orb].
  - intros H. rewrite (Hr H). reflexivity.
  - destruct (Ascii.eqb c "+").
    + intros H. rewrite (Hr H). reflexivity.
    + intros H. rewrite (Hd c r H). reflexivity.
Qed.

(** *** The loading loop *)

Lemma parse_tokens_spec room : forall s w,
  (numAuthorizedUsers w + room <= length (authorizedUsers w))%nat ->
  let w' := parse_tokens room (strtok s) w in
  let ids := take room (spec_ids s) in
  numAuthorizedUsers w' = (numAuthorizedUsers w + length ids)%nat /\
  take (numAuthorizedUsers w') (authorizedUsers w')
  = take (numAuthorizedUsers w) (authorizedUsers w) ++ ids /\
  length (authorizedUsers w') = length (authorizedUsers w) /\
  exists tr, trace w' = trace w ++ tr /\ quiet tr.
Proof.
  induction room as [|room IH]; intros s w Hroom; cbn zeta.
  - cbn [parse_tokens take length]. rewrite Nat.add_0_r, app_nil_r.
    destruct (strtok s) as [[? ?]|]; repeat split; try reflexivity;
      exists []; rewrite app_nil_r; (split; [reflexivity | split; reflexivity]).
  - destruct (strtok s) as [[tok rest]|] eqn:Htok.
    + cbn [parse_tokens]. cbv zeta.
      match goal with |- context [parse_tokens room (strtok rest) ?x] =>
        set (w1 := x) end.
      assert (Hn1 : numAuthorizedUsers w1 = S (numAuthorizedUsers w))
        by reflexivity.
      assert (Ha1 : authorizedUsers w1
                    = <[numAuthorizedUsers w := atol tok]> (authorizedUsers w))
        by reflexivity.
      assert (Ht1 : exists tr, trace w1 = trace w ++ tr /\ quiet tr).
      { eexists. subst w1. fields. rewrite <- app_assoc.
        split; [reflexivity | split; reflexivity]. }
      destruct (IH rest w1) as (Hn & Ha & Hl & tr2 & Htr2 & Hq2).
      { rewrite Hn1, Ha1, length_insert. lia. }
      cbv zeta in Hn, Ha. rewrite Hn, Hl, Hn1, Ha1, length_insert.
      unfold spec_ids in *. rewrite (strtok_Some _ _ _ Htok).
      cbn [fmap list_fmap take length].
      split; [lia|]. split; [|split; [reflexivity|]].
      * rewrite Hn, Hn1 in Ha. rewrite Ha1 in Ha.
        replace (numAuthorizedUsers w + S (length (take room (atol <$> spec_tokens rest))))%nat
          with (S (numAuthorizedUsers w) + length (take room (atol <$> spec_tokens rest)))%nat
          by lia.
        rewrite Ha.
        rewrite (take_S_r _ _ (atol tok)).
        -- rewrite take_insert_ge by lia. rewrite <- app_assoc. reflexivity.
        -- apply list_lookup_insert_eq. lia.
      * destruct Ht1 as (tr1 & Htr1 & Hq1). exists (tr1 ++ tr2).
        rewrite Htr2, Htr1, app_assoc. split; [reflexivity|].
        apply quiet_app; assumption.
    + cbn [parse_tokens]. unfold spec_ids. rewrite (strtok_None _ Htok).
      cbn [fmap list_fmap take length]. rewrite Nat.add_0_r, app_nil_r.
      repeat split. exists []. rewrite app_nil_r.
      split; [reflexivity | split; reflexivity].
Qed.

Lemma parseAuthorizedUsers_spec w :
  length (authorizedUsers w) = MAX_USERS ->
  let w' := parseAuthorizedUsers w in
  let copy := strncpy (MAX_USERS_LEN - 1) (userConfig_authorizedUsers w) in
  let ids := take MAX_USERS (spec_ids copy) in
  numAuthorizedUsers w' = length ids /\
  take (numAuthorizedUsers w') (authorizedUsers w') = ids /\
  length (authorizedUsers w') = MAX_USERS /\
  exists tr, trace w' = trace w ++ tr /\ quiet tr.
Proof.
  intros Hlen. cbn zeta. unfold parseAuthorizedUsers. cbv zeta.
  set (w0 := set_numAuthorizedUsers 0%nat w).
  set (copy := strncpy (MAX_USERS_LEN - 1) (userConfig_authorizedUsers w0)).
  set (room := (MAX_USERS - numAuthorizedUsers w0)%nat).
  destruct (parse_tokens_spec room copy w0) as (Hn & Ha & Hl & tr & Htr & Hq).
  { change (length (authorizedUsers w0)) with (length (authorizedUsers w)).
    rewrite Hlen. subst room. unfold MAX_USERS. cbn. lia. }
  cbv zeta in Hn, Ha. revert Hn Ha Hl Htr.
  generalize (parse_tokens room (strtok copy) w0). intros wp.
  change room with MAX_USERS.
  change (numAuthorizedUsers w0) with 0%nat.
  change (authorizedUsers w0) with (authorizedUsers w).
  change (trace w0) with (trace w).
  change (strncpy (MAX_USERS_LEN - 1) (userConfig_authorizedUsers w)) with copy.
  clearbody copy. clear room w0.
  fields. rewrite !Nat.add_0_l. intros Hn Ha Hl Htr.
  rewrite Hn in Ha |- *. rewrite Hl, Htr.
  split; [reflexivity|]. split; [exact Ha|]. split; [exact Hlen|].
  exists (tr ++ [SerialPrint "Total authorized users: ";
                 SerialPrintln
                   (String_of
                      (Z.of_nat (length (take MAX_USERS (spec_ids copy)))))]).
  rewrite <- !app_assoc. split; [reflexivity|].
  apply quiet_app; [exact Hq | apply quiet_serial].
Qed.

(** *** The membership scan *)

Lemma scan_users_fst todo : forall i id w,
  (i + todo <= length (authorizedUsers w))%nat ->
  fst (scan_users todo i id w) = true
  <-> In id (take todo (drop i (authorizedUsers w))).
Proof.
  induction todo as [|todo IH]; intros i id w Hlen.
  - cbn. split; [discriminate | contradiction].
  - cbn [scan_users]. cbv zeta. fields.
    assert (Hi : authorizedUsers w !! i = Some (authorizedUsers w !!! i)).
    { apply list_lookup_lookup_total_lt. lia. }
    rewrite (drop_S _ _ _ Hi). cbn [take In].
    destruct (Z.eqb_spec (authorizedUsers w !!! i) id) as [He|Hne].
    + cbn [fst]. split; [intros _; left; exact He | reflexivity].
    + match goal with |- context [scan_users todo (S i) id ?x] =>
        specialize (IH (S i) id x) end.
      fields_in IH. rewrite IH by lia.
      split; [intros H; right; exact H | intros [H|H]; [contradiction | exact H]].
Qed.

Lemma isAuthorizedUser_iff id w :
  (numAuthorizedUsers w <= length (authorizedUsers w))%nat ->
  fst (isAuthorizedUser id w) = true
  <-> In id (take (numAuthorizedUsers w) (authorizedUsers w)).
Proof.
  intros H. unfold isAuthorizedUser. cbv zeta. fields.
  match goal with |- context [scan_users ?n 0 id ?x] =>
    pose proof (scan_users_fst n 0 id x) as Hs end.
  fields_in Hs. rewrite drop_0 in Hs. apply Hs. lia.
Qed.

Lemma isAuthorizedUser_after_load (w : World) (raw : string) (id : Z) :
  length (authorizedUsers w) = MAX_USERS ->
  (String.length raw <= MAX_USERS_LEN - 1)%nat ->
  (length (spec_tokens raw) <= MAX_USERS)%nat ->
  fst (isAuthorizedUser id
         (parseAuthorizedUsers (set_userConfig_authorizedUsers raw w))) = true
  <-> In id (spec_ids raw).
Proof.
  intros Harr Hfit Hten.
  destruct (parseAuthorizedUsers_spec (set_userConfig_authorizedUsers raw w) Harr)
    as (Hn & Ha & Hl & _).
  fields_in Hn. fields_in Ha.
  rewrite (strncpy_fits _ _ Hfit) in Hn, Ha.
  assert (Hall : take MAX_USERS (spec_ids raw) = spec_ids raw).
  { apply take_ge. unfold spec_ids. rewrite length_fmap. exact Hten. }
  rewrite Hall in Hn, Ha.
  rewrite isAuthorizedUser_iff.
  - rewrite Ha. reflexivity.
  - rewrite Hl, Hn. unfold spec_ids. rewrite length_fmap. exact Hten.
Qed.



(** C7. Loading takes the first 127 characters of the raw string (all
    of it when it fits the configuration field), converts its non-empty
    comma-separated tokens in order with [atol] and stores the first
    ten of the results, whatever the registry held before; a token that
    does not start with a number converts to 0 like any other value;
    the count never exceeds ten, and the only output is on the serial
    line. *)
Theorem parseAuthorizedUsers_keeps_first_ten (w : World) (raw : string) :
  length (authorizedUsers w) = MAX_USERS ->
  let w' := parseAuthorizedUsers (set_userConfig_authorizedUsers raw w) in
  let copy := strncpy (MAX_USERS_LEN - 1) raw in
  ((String.length raw <= MAX_USERS_LEN - 1)%nat -> copy = raw) /\
  (numAuthorizedUsers w' = Nat.min MAX_USERS (length (spec_tokens copy))) /\
  (numAuthorizedUsers w' <= MAX_USERS)%nat /\
  take (numAuthorizedUsers w') (authorizedUsers w')
  = take MAX_USERS (atol <$> spec_tokens copy) /\
  length (authorizedUsers w') = MAX_USERS /\
  (forall tok, starts_number tok = false -> atol tok = 0) /\
  (exists tr, trace w' = trace w ++ tr /\ quiet tr).
Proof.
  intros Harr. cbn zeta.
  destruct (parseAuthorizedUsers_spec (set_userConfig_authorizedUsers raw w) Harr)
    as (Hn & Ha & Hl & Htr).
  fields_in Hn. fields_in Ha. fields_in Htr. unfold spec_ids in *.
  rewrite length_take, length_fmap in Hn.
  split; [apply strncpy_fits|].
  split; [exact Hn|].
  split; [rewrite Hn; apply Nat.le_min_l|].
  split; [exact Ha|]. split; [exact Hl|].
  split; [exact atol_not_number | exact Htr].
Qed.

(** ** Rendering the log *)

Lemma append_cons_nonempty (s : string) c t : s +:+ String c t <> EmptyString.
Proof. destruct s; discriminate. Qed.

Lemma getShortLogLine_empty idx w :
  timestamp (operationLog w !!! idx) = 0 -> getShortLogLine idx w = EmptyString.
Proof. unfold getShortLogLine. cbv zeta. intros ->. reflexivity. Qed.

Lemma getShortLogLine_nonempty idx w :
  timestamp (operationLog w !!! idx) <> 0 -> getShortLogLine idx w <> EmptyString.
Proof.
  unfold getShortLogLine. cbv zeta. intros H.
  apply Z.eqb_neq in H. rewrite H. apply append_cons_nonempty.
Qed.

(** Five slots, written out. *)
Lemma five_slots (log : list LogEntry) :
  length log = LOG_SIZE -> exists a b c d e, log = [a; b; c; d; e].
Proof.
  intros H. do 5 (destruct log as [|? log]; [discriminate H|]).
  destruct log; [|discriminate H]. eexists _, _, _, _, _. reflexivity.
Qed.

Lemma count_valid_five a b c d e :
  count_valid LOG_SIZE [a; b; c; d; e]
  = (Nat.b2n (0 <? timestamp a)%Z + Nat.b2n (0 <? timestamp b)%Z
     + Nat.b2n (0 <? timestamp c)%Z + Nat.b2n (0 <? timestamp d)%Z
     + Nat.b2n (0 <? timestamp e)%Z)%nat.
Proof.
  cbn [count_valid LOG_SIZE lookup_total list_lookup_total].
  destruct (0 <? timestamp a), (0 <? timestamp b), (0 <? timestamp c),
    (0 <? timestamp d), (0 <? timestamp e); reflexivity.
Qed.

Lemma append_log w c :
  length (operationLog w) = LOG_SIZE ->
  operationLog (append w c) = entry_of c :: take 4 (operationLog w).
Proof.
  intros H. unfold append. rewrite logOperation_log by exact H. reflexivity.
Qed.

Lemma append_length w c :
  length (operationLog w) = LOG_SIZE ->
  length (operationLog (append w c)) = LOG_SIZE.
Proof.
  intros H. rewrite append_log by exact H. cbn. rewrite length_take, H.
  reflexivity.
Qed.

(** The log three calls leave behind: their entries in the leading
    slots, latest first, and two empty slots. *)
Lemma three_appends_shape (w : World) (c0 c1 c2 : AppendCall) :
  operationLog (appends [c0; c1; c2] w)
  = [entry_of c2; entry_of c1; entry_of c0; empty_entry; empty_entry].
Proof.
  unfold appends. cbn [foldl].
  assert (H0 : length (operationLog (initializeLog w)) = LOG_SIZE)
    by reflexivity.
  pose proof (append_length _ c0 H0) as H1.
  pose proof (append_length _ c1 H1) as H2.
  rewrite (append_log _ c2 H2), (append_log _ c1 H1), (append_log _ c0 H0).
  reflexivity.
Qed.

(** Calls made at nonzero clock values leave no gap. *)
Lemma appends_valid_prefix (cs : list AppendCall) (w : World) :
  Forall (fun c => 0 < call_time c) cs ->
  valid_prefix (operationLog (appends cs w)).
Proof.
  induction cs as [|c cs IH] using rev_ind; intros Hall.
  - intros i Hi H. destruct i as [|[|[|[|i]]]]; cbn in H; try lia.
    unfold LOG_SIZE in Hi. lia.
  - apply Forall_app in Hall as [Hcs Hc].
    apply Forall_cons in Hc as [Hc _]. specialize (IH Hcs).
    unfold appends in *. rewrite foldl_app. cbn [foldl].
    pose proof (appends_length cs w) as Hlen. unfold appends in Hlen.
    rewrite (append_log _ c Hlen).
    destruct (five_slots _ Hlen) as (a & b & d & e & f & Hlog).
    rewrite Hlog in IH |- *. cbn [take].
    intros i Hi H. unfold LOG_SIZE in Hi.
    destruct i as [|i]; [exact Hc|].
    assert (Hi' : (S i < LOG_SIZE)%nat) by (unfold LOG_SIZE; lia).
    pose proof (IH i Hi') as Hstep.
    destruct i as [|[|[|i]]]; cbn in H, Hstep |- *; try lia;
      apply Hstep; exact H.
Qed.

Lemma renderers_zero_valid (w : World) :
  length (operationLog w) = LOG_SIZE ->
  Forall (fun e => 0 <= timestamp e) (operationLog w) ->
  count_valid LOG_SIZE (operationLog w) = 0%nat ->
  getFormattedLog w = log_header +:+ "No operations recorded." /\
  forall idx, (idx < LOG_SIZE)%nat -> getShortLogLine idx w = EmptyString.
Proof.
  intros Hlen Hpos Hzero. split.
  - unfold getFormattedLog. cbv zeta. rewrite Hzero. reflexivity.
  - intros idx Hidx. apply getShortLogLine_empty.
    destruct (five_slots _ Hlen) as (a & b & c & d & e & Hlog).
    rewrite Hlog in Hzero, Hpos |- *. rewrite count_valid_five in Hzero.
    repeat match goal with H : Forall _ (_ :: _) |- _ =>
      apply Forall_cons in H; destruct H as [? H] end.
    cbn beta in *.
    do 5 (destruct idx as [|idx];
          [cbn [lookup_total list_lookup_total];
           repeat match type of Hzero with context [0 <? ?t] =>
             destruct (Z.ltb_spec 0 t) end; try discriminate Hzero; lia|]).
    unfold LOG_SIZE in Hidx. lia.
Qed.

Lemma renderers_three_leading (w : World) (e0 e1 e2 z3 z4 : LogEntry) :
  operationLog w = [e0; e1; e2; z3; z4] ->
  0 < timestamp e0 -> 0 < timestamp e1 -> 0 < timestamp e2 ->
  timestamp z3 = 0 -> timestamp z4 = 0 ->
  getFormattedLog w
  = ((log_header +:+ log_block 0 w) +:+ log_block 1 w) +:+ log_block 2 w /\
  forall idx, (idx < LOG_SIZE)%nat ->
    (getShortLogLine idx w <> EmptyString <-> (idx < 3)%nat).
Proof.
  intros Hlog H0 H1 H2 H3 H4.
  assert (Hc : count_valid LOG_SIZE (operationLog w) = 3%nat).
  { rewrite Hlog, count_valid_five, H3, H4.
    apply Z.ltb_lt in H0, H1, H2. rewrite H0, H1, H2. reflexivity. }
  split.
  - unfold getFormattedLog. cbv zeta. rewrite Hc. reflexivity.
  - intros idx Hidx.
    do 3 (destruct idx as [|idx];
          [split; [intros _; lia | intros _];
           apply getShortLogLine_nonempty; rewrite Hlog;
           cbn [lookup_total list_lookup_total]; lia|]).
    do 2 (destruct idx as [|idx];
          [split; [intros Hne; exfalso; apply Hne | intros; lia];
           apply getShortLogLine_empty; rewrite Hlog;
           cbn [lookup_total list_lookup_total]; assumption|]).
    unfold LOG_SIZE in Hidx. lia.
Qed.

(** On a log without gaps (as calls of [logOperation] at nonzero clock
    values leave it): with no valid entry the detailed rendering is the
    header followed by the no-operations sentence and every short line
    is empty; with exactly three valid entries the detailed rendering is
    the header followed by the blocks of slots 0, 1 and 2 and nothing
    else, and the short line of a slot is non-empty exactly for slots
    0, 1 and 2. *)
Lemma renderers_on_gap_free_log (w : World) :
  length (operationLog w) = LOG_SIZE ->
  Forall (fun e => 0 <= timestamp e) (operationLog w) ->
  valid_prefix (operationLog w) ->
  (count_valid LOG_SIZE (operationLog w) = 0%nat ->
     getFormattedLog w = log_header +:+ "No operations recorded." /\
     forall idx, (idx < LOG_SIZE)%nat -> getShortLogLine idx w = EmptyString) /\
  (count_valid LOG_SIZE (operationLog w) = 3%nat ->
     getFormattedLog w
     = ((log_header +:+ log_block 0 w) +:+ log_block 1 w) +:+ log_block 2 w /\
     forall idx, (idx < LOG_SIZE)%nat ->
       (getShortLogLine idx w <> EmptyString <-> (idx < 3)%nat)).
Proof.
  intros Hlen Hpos Hgap. split.
  - apply renderers_zero_valid; assumption.
  - intros Hthree.
    destruct (five_slots _ Hlen) as (a & b & c & d & e & Hlog).
    rewrite Hlog in Hthree, Hpos, Hgap. rewrite count_valid_five in Hthree.
    pose proof (Hgap 0%nat) as G0. pose proof (Hgap 1%nat) as G1.
    pose proof (Hgap 2%nat) as G2. pose proof (Hgap 3%nat) as G3.
    unfold LOG_SIZE in G0, G1, G2, G3.
    cbn [lookup_total list_lookup_total] in G0, G1, G2, G3.
    repeat match goal with H : Forall _ (_ :: _) |- _ =>
      apply Forall_cons in H; destruct H as [? H] end.
    cbn beta in *.
    destruct (Z.ltb_spec 0 (timestamp a)), (Z.ltb_spec 0 (timestamp b)),
      (Z.ltb_spec 0 (timestamp c)), (Z.ltb_spec 0 (timestamp d)),
      (Z.ltb_spec 0 (timestamp e)); cbn in Hthree; try discriminate Hthree;
      try lia.
    apply (renderers_three_leading w a b c d e Hlog); lia.
Qed.

Lemma four_appends_shape (w : World) (c0 c1 c2 c3 : AppendCall) :
  operationLog (appends [c0; c1; c2; c3] w)
  = [entry_of c3; entry_of c2; entry_of c1; entry_of c0; empty_entry].
Proof.
  unfold appends. cbn [foldl].
  assert (H0 : length (operationLog (initializeLog w)) = LOG_SIZE)
    by reflexivity.
  pose proof (append_length _ c0 H0) as H1.
  pose proof (append_length _ c1 H1) as H2.
  pose proof (append_length _ c2 H2) as H3.
  rewrite (append_log _ c3 H3), (append_log _ c2 H2), (append_log _ c1 H1),
    (append_log _ c0 H0).
  reflexivity.
Qed.

(** The renderers read the log and the clock and nothing else. *)
Lemma log_blocks_ext (w w' : World) todo : forall i acc,
  operationLog w' = operationLog w -> clock w' = clock w ->
  log_blocks todo i w' acc = log_blocks todo i w acc.
Proof.
  induction todo as [|todo IH]; intros i acc Hl Hc; [reflexivity|].
  cbn [log_blocks]. rewrite (IH _ _ Hl Hc). f_equal. f_equal.
  unfold log_block, millis. rewrite Hl, Hc. reflexivity.
Qed.

Lemma getFormattedLog_ext (w w' : World) :
  operationLog w' = operationLog w -> clock w' = clock w ->
  getFormattedLog w' = getFormattedLog w.
Proof.
  intros Hl Hc. unfold getFormattedLog. cbv zeta. rewrite Hl.
  destruct (Nat.eqb _ 0); [reflexivity|]. apply log_blocks_ext; assumption.
Qed.

Lemma getShortLogLine_ext (w w' : World) idx :
  operationLog w' = operationLog w -> clock w' = clock w ->
  getShortLogLine idx w' = getShortLogLine idx w.
Proof.
  intros Hl Hc. unfold getShortLogLine, millis. rewrite Hl, Hc. reflexivity.
Qed.

Lemma at_time_log t w : operationLog (at_time t w) = operationLog w.
Proof. reflexivity. Qed.

Lemma at_time_reads t w : clock (at_time t w) = t.
Proof. reflexivity. Qed.

(** C8, after an operation logged while [millis()] reads 0. Four
    operations are logged: one 5000 ms before the 32-bit clock wraps,
    one exactly at the clock value 0, two later; the log is rendered at
    9000 ms. The entry written at 0 has the timestamp that marks an
    empty slot, so the log holds exactly three valid entries, in slots
    0, 1 and 3. The detailed rendering shows slots 0, 1 and 2: it
    includes the slot whose timestamp is 0 and leaves out the valid
    entry of slot 3. The short lines are non-empty for slots 0, 1 and 3
    and empty for slot 2. *)
Theorem renderers_show_gap_after_clock_zero (w : World) :
  let w' := at_time 9000 (appends wrap_calls w) in
  timestamp <$> operationLog w' = [5000; 3000; 0; 4294962296; 0] /\
  count_valid LOG_SIZE (operationLog w') = 3%nat /\
  getFormattedLog w'
  = log_header
      +:+ ("• 🚪 DOOR OPENED" +:+ nl +:+ "  👤 Alice" +:+ nl
           +:+ "  ⏰ 4 seconds ago" +:+ nl +:+ nl)
      +:+ ("• 🚪 DOOR OPENED" +:+ nl +:+ "  👤 Button" +:+ nl
           +:+ "  ⏰ 6 seconds ago" +:+ nl +:+ nl)
      +:+ ("• 💡 LIGHT ON" +:+ nl +:+ "  👤 Bob" +:+ nl
           +:+ "  ⏰ 9 seconds ago" +:+ nl +:+ nl) /\
  [getShortLogLine 0 w'; getShortLogLine 1 w'; getShortLogLine 2 w';
   getShortLogLine 3 w'; getShortLogLine 4 w']
  = ["Alice Door 4s "; "Button Door 6s "; EmptyString; "Carol Door 14s ";
     EmptyString].
Proof.
  cbv zeta.
  set (w0 := at_time 9000 (appends wrap_calls fresh_world)).
  assert (Hl : operationLog (at_time 9000 (appends wrap_calls w))
               = operationLog w0).
  { subst w0. unfold wrap_calls. rewrite !at_time_log.
    rewrite !four_appends_shape. reflexivity. }
  assert (Hc : clock (at_time 9000 (appends wrap_calls w)) = clock w0)
    by (subst w0; rewrite !at_time_reads; reflexivity).
  rewrite (getFormattedLog_ext _ _ Hl Hc).
  rewrite !(getShortLogLine_ext _ _ _ Hl Hc). rewrite Hl.
  clear Hl Hc. subst w0.
  split; [vm_compute; reflexivity|]. split; [vm_compute; reflexivity|].
  split; vm_compute; reflexivity.
Qed.

Lemma log_block_same (w : World) (log' : list LogEntry) (i : nat) :
  same_rendering (operationLog w !!! i) (log' !!! i) ->
  log_block i (set_operationLog log' w) = log_block i w.
Proof.
  intros (Ht & Hu & Ho). unfold log_block. cbv zeta. fields.
  rewrite Ht, Hu, Ho. reflexivity.
Qed.

Lemma log_blocks_same (w : World) (log' : list LogEntry) todo : forall i acc,
  (forall j, (i <= j < i + todo)%nat ->
     same_rendering (operationLog w !!! j) (log' !!! j)) ->
  log_blocks todo i (set_operationLog log' w) acc = log_blocks todo i w acc.
Proof.
  induction todo as [|todo IH]; intros i acc H; [reflexivity|].
  cbn [log_blocks]. rewrite log_block_same by (apply H; lia).
  apply IH. intros j Hj. apply H. lia.
Qed.

Lemma count_valid_same (log log' : list LogEntry) n :
  (forall j, (j < n)%nat -> timestamp (log !!! j) = timestamp (log' !!! j)) ->
  count_valid n log' = count_valid n log.
Proof.
  induction n as [|n IH]; intros H; [reflexivity|].
  cbn [count_valid]. rewrite IH by (intros j Hj; apply H; lia).
  rewrite (H n) by lia. reflexivity.
Qed.

Lemma log_block_spec (i : nat) (w : World) :
  log_block i w = spec_block (millis w) (operationLog w !!! i).
Proof.
  unfold log_block, spec_block, spec_label. cbv zeta.
  destruct (String.eqb (operation (operationLog w !!! i)) "LIGHT_ON");
    reflexivity.
Qed.

Lemma log_blocks_spec (w : World) todo : forall i acc,
  log_blocks todo i w acc
  = foldl (fun acc j => acc +:+ spec_block (millis w) (operationLog w !!! j))
      acc (seq i todo).
Proof.
  induction todo as [|todo IH]; intros i acc; [reflexivity|].
  cbn [log_blocks seq foldl]. rewrite IH, log_block_spec. reflexivity.
Qed.

(** C10. The detailed log is the header followed by one block per
    rendered slot, and the block of an entry whose operation is not
    [LIGHT_ON] is the door emoji and the label DOOR OPENED, the user
    name and the elapsed time: nothing in it depends on the operation
    kind or on the chat id. So two logs that agree slot by slot on time
    and user name and on which slots are [LIGHT_ON] have the same
    detailed rendering; in particular a [DOOR_BUTTON] entry and an
    [OPEN_DOOR] entry of the same time and name. *)
Theorem detailed_log_merges_door_kinds (w : World) :
  (getFormattedLog w
   = let n := count_valid LOG_SIZE (operationLog w) in
     if Nat.eqb n 0 then log_header +:+ "No operations recorded."
     else foldl (fun acc j =>
                   acc +:+ spec_block (millis w) (operationLog w !!! j))
            log_header (seq 0 n)) /\
  (forall now t id op name, op <> "LIGHT_ON" ->
     spec_block now (mkLogEntry t id op name)
     = ("• 🚪 DOOR OPENED" +:+ nl)
         +:+ ("  👤 " +:+ name +:+ nl)
         +:+ ("  ⏰ " +:+ formatTimeAgo (usub now t) +:+ nl +:+ nl)) /\
  (forall log',
     (forall j, (j < LOG_SIZE)%nat ->
        same_rendering (operationLog w !!! j) (log' !!! j)) ->
     getFormattedLog (set_operationLog log' w) = getFormattedLog w) /\
  (forall t id id' name,
     same_rendering (mkLogEntry t id "DOOR_BUTTON" name)
                    (mkLogEntry t id' "OPEN_DOOR" name)).
Proof.
  split; [|split; [|split]].
  - unfold getFormattedLog. cbv zeta.
    destruct (Nat.eqb _ 0); [reflexivity|]. apply log_blocks_spec.
  - intros now t id op name Hop. unfold spec_block, spec_label.
    cbn [operation userName timestamp].
    apply String.eqb_neq in Hop. rewrite Hop. reflexivity.
  - intros log' Hsame. unfold getFormattedLog. cbv zeta. fields.
    rewrite (count_valid_same (operationLog w) log')
      by (intros j Hj; apply (Hsame j Hj)).
    destruct (Nat.eqb _ 0); [reflexivity|].
    apply log_blocks_same. intros j Hj. apply Hsame.
    pose proof (count_valid_le LOG_SIZE (operationLog w)). lia.
  - intros t id id' name. repeat split.
Qed.

(** ** Worked instances *)

Lemma debounce_two_edges_witness :
  edge_passes (at_time 5000 fresh_world) = true /\
  fst (edges [5000; 5050] fresh_world) = 1%nat /\
  fst (edges [5000; 5500] fresh_world) = 2%nat.
Proof.
  assert (H : edge_passes (at_time 5000 fresh_world) = true) by reflexivity.
  split; [exact H|]. split.
  - destruct (debounce_two_edges fresh_world 5000 50 H) as [Hnear _].
    destruct Hnear as [_ Hone]; [unfold interruptDebounceDelay; lia|].
    exact Hone.
  - destruct (debounce_two_edges fresh_world 5000 500 H) as [_ Hfar].
    destruct Hfar as (_ & _ & Htwo);
      [unfold interruptDebounceDelay, ULONG_MOD; lia|].
    exact Htwo.
Defined.

Lemma button_press_opens_and_logs_witness :
  let w2 := checkButtonOpenDoor (at_time 5003 (buttonISR (at_time 5000 fresh_world))) in
  edge_passes (at_time 5000 fresh_world) = true /\
  doorRelay w2 = true /\
  operationLog w2 !! 0%nat = Some (mkLogEntry 5003 0 "DOOR_BUTTON" "Button") /\
  outbound (trace w2) = [].
Proof.
  cbv zeta.
  assert (H : edge_passes (at_time 5000 fresh_world) = true) by reflexivity.
  split; [exact H|].
  destruct (button_press_opens_and_logs fresh_world 5000 5003 eq_refl H)
    as (_ & Hrelay & _ & Hlog & _ & Hout).
  split; [exact Hrelay|]. split; [rewrite Hlog; reflexivity | exact Hout].
Defined.


Lemma parseAuthorizedUsers_keeps_first_ten_witness :
  let raw := "1,2,3,4,5,6,7,8,9,10,11,12" in
  let w' := parseAuthorizedUsers (set_userConfig_authorizedUsers raw fresh_world) in
  numAuthorizedUsers w' = 10%nat /\
  take (numAuthorizedUsers w') (authorizedUsers w') = [1; 2; 3; 4; 5; 6; 7; 8; 9; 10].
Proof.
  cbv zeta.
  destruct (parseAuthorizedUsers_keeps_first_ten fresh_world
              "1,2,3,4,5,6,7,8,9,10,11,12" eq_refl)
    as (_ & Hn & _ & Ha & _).
  split; [rewrite Hn | rewrite Ha]; vm_compute; reflexivity.
Defined.

Lemma detailed_log_merges_door_kinds_witness :
  getFormattedLog three_ops_world
  = log_header
      +:+ ("• 🚪 DOOR OPENED" +:+ nl +:+ "  👤 Button" +:+ nl
           +:+ "  ⏰ 6 seconds ago" +:+ nl +:+ nl)
      +:+ ("• 💡 LIGHT ON" +:+ nl +:+ "  👤 Bob" +:+ nl
           +:+ "  ⏰ 7 seconds ago" +:+ nl +:+ nl)
      +:+ ("• 🚪 DOOR OPENED" +:+ nl +:+ "  👤 Alice" +:+ nl
           +:+ "  ⏰ 8 seconds ago" +:+ nl +:+ nl).
Proof.
  destruct (detailed_log_merges_door_kinds three_ops_world) as (H & _).
  rewrite H. vm_compute. reflexivity.
Defined.

(** * Further properties of the sketch *)

(** ** More on the operation log *)

Lemma appends_snoc (cs : list AppendCall) (c : AppendCall) (w : World) :
  appends (cs ++ [c]) w = append (appends cs w) c.
Proof. unfold appends. rewrite foldl_app. reflexivity. Qed.

(** X1. The log after any sequence of calls is the last five entries,
    latest first, padded with empty entries. *)
Theorem log_is_last_five_latest_first (cs : list AppendCall) (w : World) :
  operationLog (appends cs w)
  = take LOG_SIZE (reverse (entry_of <$> cs) ++ replicate LOG_SIZE empty_entry).
Proof.
  induction cs as [|c cs IH] using rev_ind; [reflexivity|].
  rewrite appends_snoc, (append_log _ c (appends_length cs w)), IH.
  rewrite fmap_snoc, reverse_snoc, take_take. reflexivity.
Qed.

(** ** Projections through the display refresh, the log and the beeps *)

Lemma updateDisplay_clock w : clock (updateDisplay w) = clock w.
Proof.
  destruct (updateDisplay_cases w) as [-> | (c & ls & ->)]; reflexivity.
Qed.

Lemma updateDisplay_doorRelay w : doorRelay (updateDisplay w) = doorRelay w.
Proof.
  destruct (updateDisplay_cases w) as [-> | (c & ls & ->)]; reflexivity.
Qed.

Lemma updateDisplay_lightRelay w : lightRelay (updateDisplay w) = lightRelay w.
Proof.
  destruct (updateDisplay_cases w) as [-> | (c & ls & ->)]; reflexivity.
Qed.

Lemma updateDisplay_doorOpenTime w : doorOpenTime (updateDisplay w) = doorOpenTime w.
Proof.
  destruct (updateDisplay_cases w) as [-> | (c & ls & ->)]; reflexivity.
Qed.

Lemma updateDisplay_lightOpenTime w : lightOpenTime (updateDisplay w) = lightOpenTime w.
Proof.
  destruct (updateDisplay_cases w) as [-> | (c & ls & ->)]; reflexivity.
Qed.

Lemma updateDisplay_buttonInterruptFlag w : buttonInterruptFlag (updateDisplay w) = buttonInterruptFlag w.
Proof.
  destruct (updateDisplay_cases w) as [-> | (c & ls & ->)]; reflexivity.
Qed.

Lemma updateDisplay_lastInterruptTime w : lastInterruptTime (updateDisplay w) = lastInterruptTime w.
Proof.
  destruct (updateDisplay_cases w) as [-> | (c & ls & ->)]; reflexivity.
Qed.

Lemma updateDisplay_userConfig_authorizedUsers w : userConfig_authorizedUsers (updateDisplay w) = userConfig_authorizedUsers w.
Proof.
  destruct (updateDisplay_cases w) as [-> | (c & ls & ->)]; reflexivity.
Qed.

Lemma updateDisplay_authorizedUsers w : authorizedUsers (updateDisplay w) = authorizedUsers w.
Proof.
  destruct (updateDisplay_cases w) as [-> | (c & ls & ->)]; reflexivity.
Qed.

Lemma updateDisplay_numAuthorizedUsers w : numAuthorizedUsers (updateDisplay w) = numAuthorizedUsers w.
Proof.
  destruct (updateDisplay_cases w) as [-> | (c & ls & ->)]; reflexivity.
Qed.

Lemma updateDisplay_operationLog w : operationLog (updateDisplay w) = operationLog w.
Proof.
  destruct (updateDisplay_cases w) as [-> | (c & ls & ->)]; reflexivity.
Qed.

Lemma updateDisplay_wifiOk w : wifiOk (updateDisplay w) = wifiOk w.
Proof.
  destruct (updateDisplay_cases w) as [-> | (c & ls & ->)]; reflexivity.
Qed.

Lemma updateDisplay_telegramOk w : telegramOk (updateDisplay w) = telegramOk w.
Proof.
  destruct (updateDisplay_cases w) as [-> | (c & ls & ->)]; reflexivity.
Qed.

Lemma updateDisplay_radio w : radio (updateDisplay w) = radio w.
Proof.
  destruct (updateDisplay_cases w) as [-> | (c & ls & ->)]; reflexivity.
Qed.

Lemma logOperation_clock id op name w :
  clock (logOperation id op name w) = clock w.
Proof. unfold logOperation. rewrite updateDisplay_clock. reflexivity. Qed.

Lemma logOperation_doorRelay id op name w :
  doorRelay (logOperation id op name w) = doorRelay w.
Proof. unfold logOperation. rewrite updateDisplay_doorRelay. reflexivity. Qed.

Lemma logOperation_lightRelay id op name w :
  lightRelay (logOperation id op name w) = lightRelay w.
Proof. unfold logOperation. rewrite updateDisplay_lightRelay. reflexivity. Qed.

Lemma logOperation_doorOpenTime id op name w :
  doorOpenTime (logOperation id op name w) = doorOpenTime w.
Proof. unfold logOperation. rewrite updateDisplay_doorOpenTime. reflexivity. Qed.

Lemma logOperation_lightOpenTime id op name w :
  lightOpenTime (logOperation id op name w) = lightOpenTime w.
Proof. unfold logOperation. rewrite updateDisplay_lightOpenTime. reflexivity. Qed.

Lemma logOperation_buttonInterruptFlag id op name w :
  buttonInterruptFlag (logOperation id op name w) = buttonInterruptFlag w.
Proof. unfold logOperation. rewrite updateDisplay_buttonInterruptFlag. reflexivity. Qed.

Lemma logOperation_lastInterruptTime id op name w :
  lastInterruptTime (logOperation id op name w) = lastInterruptTime w.
Proof. unfold logOperation. rewrite updateDisplay_lastInterruptTime. reflexivity. Qed.

Lemma logOperation_userConfig_authorizedUsers id op name w :
  userConfig_authorizedUsers (logOperation id op name w) = userConfig_authorizedUsers w.
Proof. unfold logOperation. rewrite updateDisplay_userConfig_authorizedUsers. reflexivity. Qed.

Lemma logOperation_authorizedUsers id op name w :
  authorizedUsers (logOperation id op name w) = authorizedUsers w.
Proof. unfold logOperation. rewrite updateDisplay_authorizedUsers. reflexivity. Qed.

Lemma logOperation_numAuthorizedUsers id op name w :
  numAuthorizedUsers (logOperation id op name w) = numAuthorizedUsers w.
Proof. unfold logOperation. rewrite updateDisplay_numAuthorizedUsers. reflexivity. Qed.

Lemma logOperation_wifiOk id op name w :
  wifiOk (logOperation id op name w) = wifiOk w.
Proof. unfold logOperation. rewrite updateDisplay_wifiOk. reflexivity. Qed.

Lemma logOperation_telegramOk id op name w :
  telegramOk (logOperation id op name w) = telegramOk w.
Proof. unfold logOperation. rewrite updateDisplay_telegramOk. reflexivity. Qed.

Lemma logOperation_radio id op name w :
  radio (logOperation id op name w) = radio w.
Proof. unfold logOperation. rewrite updateDisplay_radio. reflexivity. Qed.

Lemma logOperation_outbound id op name w :
  outbound (trace (logOperation id op name w)) = outbound (trace w).
Proof. unfold logOperation. rewrite updateDisplay_outbound. reflexivity. Qed.

Lemma updateDisplay_sounds w :
  sounds (trace (updateDisplay w)) = sounds (trace w).
Proof.
  destruct (updateDisplay_cases w) as [-> | (c & ls & ->)]; [reflexivity|].
  fields. rewrite sounds_app. apply app_nil_r.
Qed.

Lemma logOperation_sounds id op name w :
  sounds (trace (logOperation id op name w)) = sounds (trace w).
Proof. unfold logOperation. rewrite updateDisplay_sounds. reflexivity. Qed.

Lemma outbound_snoc tr o :
  outbound (tr ++ [o]) = if is_remote o then outbound tr ++ [o] else outbound tr.
Proof.
  rewrite outbound_app. unfold outbound at 2. cbn [List.filter].
  destruct (is_remote o); [reflexivity | apply app_nil_r].
Qed.

Lemma sounds_snoc tr o :
  sounds (tr ++ [o]) = if is_sound o then sounds tr ++ [o] else sounds tr.
Proof.
  rewrite sounds_app. unfold sounds at 2. cbn [List.filter].
  destruct (is_sound o); [reflexivity | apply app_nil_r].
Qed.

Lemma uadd_uadd a x y : uadd (uadd a x) y = uadd a (x + y).
Proof.
  unfold uadd, wrap. rewrite Zplus_mod_idemp_l. f_equal. lia.
Qed.

Create Rewrite HintDb world.

#[local] Hint Rewrite updateDisplay_clock updateDisplay_doorRelay updateDisplay_lightRelay updateDisplay_doorOpenTime updateDisplay_lightOpenTime updateDisplay_buttonInterruptFlag updateDisplay_lastInterruptTime updateDisplay_userConfig_authorizedUsers updateDisplay_authorizedUsers updateDisplay_numAuthorizedUsers updateDisplay_operationLog updateDisplay_wifiOk updateDisplay_telegramOk updateDisplay_radio : world.

#[local] Hint Rewrite logOperation_clock logOperation_doorRelay logOperation_lightRelay logOperation_doorOpenTime logOperation_lightOpenTime logOperation_buttonInterruptFlag logOperation_lastInterruptTime logOperation_userConfig_authorizedUsers logOperation_authorizedUsers logOperation_numAuthorizedUsers logOperation_wifiOk logOperation_telegramOk logOperation_radio : world.

#[local] Hint Rewrite updateDisplay_outbound logOperation_outbound
  updateDisplay_sounds logOperation_sounds outbound_snoc sounds_snoc uadd_uadd
  : world.

Lemma confirmationBeep_doorRelay w : doorRelay (confirmationBeep w) = doorRelay w.
Proof. reflexivity. Qed.

Lemma confirmationBeep_lightRelay w : lightRelay (confirmationBeep w) = lightRelay w.
Proof. reflexivity. Qed.

Lemma confirmationBeep_doorOpenTime w : doorOpenTime (confirmationBeep w) = doorOpenTime w.
Proof. reflexivity. Qed.

Lemma confirmationBeep_lightOpenTime w : lightOpenTime (confirmationBeep w) = lightOpenTime w.
Proof. reflexivity. Qed.

Lemma confirmationBeep_buttonInterruptFlag w : buttonInterruptFlag (confirmationBeep w) = buttonInterruptFlag w.
Proof. reflexivity. Qed.

Lemma confirmationBeep_lastInterruptTime w : lastInterruptTime (confirmationBeep w) = lastInterruptTime w.
Proof. reflexivity. Qed.

Lemma confirmationBeep_userConfig_authorizedUsers w : userConfig_authorizedUsers (confirmationBeep w) = userConfig_authorizedUsers w.
Proof. reflexivity. Qed.

Lemma confirmationBeep_authorizedUsers w : authorizedUsers (confirmationBeep w) = authorizedUsers w.
Proof. reflexivity. Qed.

Lemma confirmationBeep_numAuthorizedUsers w : numAuthorizedUsers (confirmationBeep w) = numAuthorizedUsers w.
Proof. reflexivity. Qed.

Lemma confirmationBeep_operationLog w : operationLog (confirmationBeep w) = operationLog w.
Proof. reflexivity. Qed.

Lemma confirmationBeep_wifiOk w : wifiOk (confirmationBeep w) = wifiOk w.
Proof. reflexivity. Qed.

Lemma confirmationBeep_telegramOk w : telegramOk (confirmationBeep w) = telegramOk w.
Proof. reflexivity. Qed.

Lemma confirmationBeep_radio w : radio (confirmationBeep w) = radio w.
Proof. reflexivity. Qed.

Lemma errorBeep_doorRelay w : doorRelay (errorBeep w) = doorRelay w.
Proof. reflexivity. Qed.

Lemma errorBeep_lightRelay w : lightRelay (errorBeep w) = lightRelay w.
Proof. reflexivity. Qed.

Lemma errorBeep_doorOpenTime w : doorOpenTime (errorBeep w) = doorOpenTime w.
Proof. reflexivity. Qed.

Lemma errorBeep_lightOpenTime w : lightOpenTime (errorBeep w) = lightOpenTime w.
Proof. reflexivity. Qed.

Lemma errorBeep_buttonInterruptFlag w : buttonInterruptFlag (errorBeep w) = buttonInterruptFlag w.
Proof. reflexivity. Qed.

Lemma errorBeep_lastInterruptTime w : lastInterruptTime (errorBeep w) = lastInterruptTime w.
Proof. reflexivity. Qed.

Lemma errorBeep_userConfig_authorizedUsers w : userConfig_authorizedUsers (errorBeep w) = userConfig_authorizedUsers w.
Proof. reflexivity. Qed.

Lemma errorBeep_authorizedUsers w : authorizedUsers (errorBeep w) = authorizedUsers w.
Proof. reflexivity. Qed.

Lemma errorBeep_numAuthorizedUsers w : numAuthorizedUsers (errorBeep w) = numAuthorizedUsers w.
Proof. reflexivity. Qed.

Lemma errorBeep_operationLog w : operationLog (errorBeep w) = operationLog w.
Proof. reflexivity. Qed.

Lemma errorBeep_wifiOk w : wifiOk (errorBeep w) = wifiOk w.
Proof. reflexivity. Qed.

Lemma errorBeep_telegramOk w : telegramOk (errorBeep w) = telegramOk w.
Proof. reflexivity. Qed.

Lemma errorBeep_radio w : radio (errorBeep w) = radio w.
Proof. reflexivity. Qed.

(** Adds up the literal delays under [uadd]. *)
Ltac sum_delays :=
  repeat match goal with
    | |- context [uadd ?a (?x + ?y)] =>
        let v := eval vm_compute in (x + y) in
        progress change (x + y) with v
    end.

Lemma emit_clock o w : clock (emit o w) = clock w.
Proof. reflexivity. Qed.

Lemma emit_doorRelay o w : doorRelay (emit o w) = doorRelay w.
Proof. reflexivity. Qed.

Lemma emit_lightRelay o w : lightRelay (emit o w) = lightRelay w.
Proof. reflexivity. Qed.

Lemma emit_doorOpenTime o w : doorOpenTime (emit o w) = doorOpenTime w.
Proof. reflexivity. Qed.

Lemma emit_lightOpenTime o w : lightOpenTime (emit o w) = lightOpenTime w.
Proof. reflexivity. Qed.

Lemma emit_buttonInterruptFlag o w : buttonInterruptFlag (emit o w) = buttonInterruptFlag w.
Proof. reflexivity. Qed.

Lemma emit_lastInterruptTime o w : lastInterruptTime (emit o w) = lastInterruptTime w.
Proof. reflexivity. Qed.

Lemma emit_userConfig_authorizedUsers o w : userConfig_authorizedUsers (emit o w) = userConfig_authorizedUsers w.
Proof. reflexivity. Qed.

Lemma emit_authorizedUsers o w : authorizedUsers (emit o w) = authorizedUsers w.
Proof. reflexivity. Qed.

Lemma emit_numAuthorizedUsers o w : numAuthorizedUsers (emit o w) = numAuthorizedUsers w.
Proof. reflexivity. Qed.

Lemma emit_operationLog o w : operationLog (emit o w) = operationLog w.
Proof. reflexivity. Qed.

Lemma emit_wifiOk o w : wifiOk (emit o w) = wifiOk w.
Proof. reflexivity. Qed.

Lemma emit_telegramOk o w : telegramOk (emit o w) = telegramOk w.
Proof. reflexivity. Qed.

Lemma emit_radio o w : radio (emit o w) = radio w.
Proof. reflexivity. Qed.

Lemma delay_clock ms w : clock (delay ms w) = uadd (clock w) ms.
Proof. reflexivity. Qed.

Lemma delay_doorRelay ms w : doorRelay (delay ms w) = doorRelay w.
Proof. reflexivity. Qed.

Lemma delay_lightRelay ms w : lightRelay (delay ms w) = lightRelay w.
Proof. reflexivity. Qed.

Lemma delay_doorOpenTime ms w : doorOpenTime (delay ms w) = doorOpenTime w.
Proof. reflexivity. Qed.

Lemma delay_lightOpenTime ms w : lightOpenTime (delay ms w) = lightOpenTime w.
Proof. reflexivity. Qed.

Lemma delay_buttonInterruptFlag ms w : buttonInterruptFlag (delay ms w) = buttonInterruptFlag w.
Proof. reflexivity. Qed.

Lemma delay_lastInterruptTime ms w : lastInterruptTime (delay ms w) = lastInterruptTime w.
Proof. reflexivity. Qed.

Lemma delay_userConfig_authorizedUsers ms w : userConfig_authorizedUsers (delay ms w) = userConfig_authorizedUsers w.
Proof. reflexivity. Qed.

Lemma delay_authorizedUsers ms w : authorizedUsers (delay ms w) = authorizedUsers w.
Proof. reflexivity. Qed.

Lemma delay_numAuthorizedUsers ms w : numAuthorizedUsers (delay ms w) = numAuthorizedUsers w.
Proof. reflexivity. Qed.

Lemma delay_operationLog ms w : operationLog (delay ms w) = operationLog w.
Proof. reflexivity. Qed.

Lemma delay_wifiOk ms w : wifiOk (delay ms w) = wifiOk w.
Proof. reflexivity. Qed.

Lemma delay_telegramOk ms w : telegramOk (delay ms w) = telegramOk w.
Proof. reflexivity. Qed.

Lemma delay_radio ms w : radio (delay ms w) = radio w.
Proof. reflexivity. Qed.

Lemma openDoor_clock w : clock (openDoor w) = clock w.
Proof. reflexivity. Qed.

Lemma openDoor_doorRelay w : doorRelay (openDoor w) = true.
Proof. reflexivity. Qed.

Lemma openDoor_lightRelay w : lightRelay (openDoor w) = lightRelay w.
Proof. reflexivity. Qed.

Lemma openDoor_doorOpenTime w : doorOpenTime (openDoor w) = clock w.
Proof. reflexivity. Qed.

Lemma openDoor_lightOpenTime w : lightOpenTime (openDoor w) = lightOpenTime w.
Proof. reflexivity. Qed.

Lemma openDoor_buttonInterruptFlag w : buttonInterruptFlag (openDoor w) = buttonInterruptFlag w.
Proof. reflexivity. Qed.

Lemma openDoor_lastInterruptTime w : lastInterruptTime (openDoor w) = lastInterruptTime w.
Proof. reflexivity. Qed.

Lemma openDoor_userConfig_authorizedUsers w : userConfig_authorizedUsers (openDoor w) = userConfig_authorizedUsers w.
Proof. reflexivity. Qed.

Lemma openDoor_authorizedUsers w : authorizedUsers (openDoor w) = authorizedUsers w.
Proof. reflexivity. Qed.

Lemma openDoor_numAuthorizedUsers w : numAuthorizedUsers (openDoor w) = numAuthorizedUsers w.
Proof. reflexivity. Qed.

Lemma openDoor_operationLog w : operationLog (openDoor w) = operationLog w.
Proof. reflexivity. Qed.

Lemma openDoor_wifiOk w : wifiOk (openDoor w) = wifiOk w.
Proof. reflexivity. Qed.

Lemma openDoor_telegramOk w : telegramOk (openDoor w) = telegramOk w.
Proof. reflexivity. Qed.

Lemma openDoor_radio w : radio (openDoor w) = radio w.
Proof. reflexivity. Qed.

Lemma lightOn_clock w : clock (lightOn w) = clock w.
Proof. reflexivity. Qed.

Lemma lightOn_doorRelay w : doorRelay (lightOn w) = doorRelay w.
Proof. reflexivity. Qed.

Lemma lightOn_lightRelay w : lightRelay (lightOn w) = true.
Proof. reflexivity. Qed.

Lemma lightOn_doorOpenTime w : doorOpenTime (lightOn w) = doorOpenTime w.
Proof. reflexivity. Qed.

Lemma lightOn_lightOpenTime w : lightOpenTime (lightOn w) = clock w.
Proof. reflexivity. Qed.

Lemma lightOn_buttonInterruptFlag w : buttonInterruptFlag (lightOn w) = buttonInterruptFlag w.
Proof. reflexivity. Qed.

Lemma lightOn_lastInterruptTime w : lastInterruptTime (lightOn w) = lastInterruptTime w.
Proof. reflexivity. Qed.

Lemma lightOn_userConfig_authorizedUsers w : userConfig_authorizedUsers (lightOn w) = userConfig_authorizedUsers w.
Proof. reflexivity. Qed.

Lemma lightOn_authorizedUsers w : authorizedUsers (lightOn w) = authorizedUsers w.
Proof. reflexivity. Qed.

Lemma lightOn_numAuthorizedUsers w : numAuthorizedUsers (lightOn w) = numAuthorizedUsers w.
Proof. reflexivity. Qed.

Lemma lightOn_operationLog w : operationLog (lightOn w) = operationLog w.
Proof. reflexivity. Qed.

Lemma lightOn_wifiOk w : wifiOk (lightOn w) = wifiOk w.
Proof. reflexivity. Qed.

Lemma lightOn_telegramOk w : telegramOk (lightOn w) = telegramOk w.
Proof. reflexivity. Qed.

Lemma lightOn_radio w : radio (lightOn w) = radio w.
Proof. reflexivity. Qed.

Lemma trace_emit o w : trace (emit o w) = trace w ++ [o].
Proof. reflexivity. Qed.

Lemma trace_delay ms w : trace (delay ms w) = trace w.
Proof. reflexivity. Qed.

Lemma openDoor_outbound w : outbound (trace (openDoor w)) = outbound (trace w).
Proof. unfold openDoor. cbv zeta. rewrite trace_emit, outbound_snoc. reflexivity. Qed.

Lemma lightOn_outbound w : outbound (trace (lightOn w)) = outbound (trace w).
Proof. unfold lightOn. cbv zeta. rewrite trace_emit, outbound_snoc. reflexivity. Qed.

#[local] Hint Rewrite emit_clock emit_doorRelay emit_lightRelay emit_doorOpenTime emit_lightOpenTime emit_buttonInterruptFlag emit_lastInterruptTime emit_userConfig_authorizedUsers emit_authorizedUsers emit_numAuthorizedUsers emit_operationLog emit_wifiOk emit_telegramOk emit_radio : world.

#[local] Hint Rewrite delay_clock delay_doorRelay delay_lightRelay delay_doorOpenTime delay_lightOpenTime delay_buttonInterruptFlag delay_lastInterruptTime delay_userConfig_authorizedUsers delay_authorizedUsers delay_numAuthorizedUsers delay_operationLog delay_wifiOk delay_telegramOk delay_radio : world.

#[local] Hint Rewrite openDoor_clock openDoor_doorRelay openDoor_lightRelay openDoor_doorOpenTime openDoor_lightOpenTime openDoor_buttonInterruptFlag openDoor_lastInterruptTime openDoor_userConfig_authorizedUsers openDoor_authorizedUsers openDoor_numAuthorizedUsers openDoor_operationLog openDoor_wifiOk openDoor_telegramOk openDoor_radio : world.

#[local] Hint Rewrite lightOn_clock lightOn_doorRelay lightOn_lightRelay lightOn_doorOpenTime lightOn_lightOpenTime lightOn_buttonInterruptFlag lightOn_lastInterruptTime lightOn_userConfig_authorizedUsers lightOn_authorizedUsers lightOn_numAuthorizedUsers lightOn_operationLog lightOn_wifiOk lightOn_telegramOk lightOn_radio : world.

#[local] Hint Rewrite trace_emit trace_delay openDoor_outbound lightOn_outbound
  : world.

Lemma play_note_clock w n : clock (play_note w n) = uadd (clock w) 250.
Proof. unfold play_note. rewrite delay_clock, emit_clock. reflexivity. Qed.

Lemma confirmationBeep_clock w : clock (confirmationBeep w) = uadd (clock w) 1250.
Proof.
  unfold confirmationBeep. cbv zeta. rewrite emit_clock.
  cbn [foldl zip zip_with]. rewrite !play_note_clock, !uadd_uadd.
  sum_delays. reflexivity.
Qed.

Lemma errorBeep_clock w : clock (errorBeep w) = uadd (clock w) 280.
Proof.
  unfold errorBeep. cbv zeta.
  rewrite ?emit_clock, ?delay_clock, ?emit_clock, ?delay_clock, ?emit_clock,
    ?delay_clock, ?emit_clock.
  rewrite !uadd_uadd. sum_delays. reflexivity.
Qed.

Lemma errorBeep_outbound w : outbound (trace (errorBeep w)) = outbound (trace w).
Proof.
  unfold errorBeep. cbv zeta. fields. rewrite !outbound_snoc. reflexivity.
Qed.

Lemma errorBeep_sounds w :
  sounds (trace (errorBeep w)) = sounds (trace w) ++ error_pattern.
Proof.
  unfold errorBeep. cbv zeta. fields. rewrite !sounds_snoc.
  cbn [is_sound]. rewrite <- !app_assoc. reflexivity.
Qed.

#[local] Hint Rewrite confirmationBeep_doorRelay confirmationBeep_lightRelay confirmationBeep_doorOpenTime confirmationBeep_lightOpenTime confirmationBeep_buttonInterruptFlag confirmationBeep_lastInterruptTime confirmationBeep_userConfig_authorizedUsers confirmationBeep_authorizedUsers confirmationBeep_numAuthorizedUsers confirmationBeep_operationLog confirmationBeep_wifiOk confirmationBeep_telegramOk confirmationBeep_radio : world.

#[local] Hint Rewrite errorBeep_doorRelay errorBeep_lightRelay errorBeep_doorOpenTime errorBeep_lightOpenTime errorBeep_buttonInterruptFlag errorBeep_lastInterruptTime errorBeep_userConfig_authorizedUsers errorBeep_authorizedUsers errorBeep_numAuthorizedUsers errorBeep_operationLog errorBeep_wifiOk errorBeep_telegramOk errorBeep_radio : world.

#[local] Hint Rewrite confirmationBeep_clock errorBeep_clock
  confirmationBeep_outbound errorBeep_outbound errorBeep_sounds : world.

(** Pushes projections through the handlers' statements. *)
Ltac push_step := rewrite_strat bottomup (hints world).

Ltac push :=
  repeat (progress (try push_step; cbn [is_remote is_sound]; sum_delays)).

(** ** Authorized commands *)

Lemma quiet_outbound tr1 tr2 : quiet tr2 -> outbound (tr1 ++ tr2) = outbound tr1.
Proof. intros [H _]. rewrite outbound_app, H. apply app_nil_r. Qed.

Lemma quiet_sounds tr1 tr2 : quiet tr2 -> sounds (tr1 ++ tr2) = sounds tr1.
Proof. intros [_ H]. rewrite sounds_app, H. apply app_nil_r. Qed.

(** The gate passes an authorized text message on to [processCommand];
    the check itself only wrote to the serial line. *)
Lemma handleMessage_authorized_text w m :
  msg_type m = "message" ->
  fst (isAuthorizedUser (toInt (chat_id m)) w) = true ->
  exists tr, quiet tr /\
    handleMessage w m
    = processCommand (chat_id m) (text m) (from_name m) (toInt (chat_id m))
        (set_trace (trace w ++ tr) w).
Proof.
  intros Hty Hok. unfold handleMessage. rewrite Hty. cbn [String.eqb Ascii.eqb Bool.eqb].
  destruct (isAuthorizedUser_trace (toInt (chat_id m)) w) as (tr & Hsnd & Hq).
  destruct (isAuthorizedUser (toInt (chat_id m)) w) as [ok w1].
  cbn [fst snd] in Hok, Hsnd. subst ok w1. cbn [negb].
  exists tr. split; [exact Hq | reflexivity].
Qed.

Lemma handleMessage_authorized_callback w m :
  msg_type m = "callback_query" ->
  fst (isAuthorizedUser (toInt (chat_id m)) w) = true ->
  exists tr, quiet tr /\
    handleMessage w m
    = processCallback (chat_id m) (text m) (from_name m) (toInt (chat_id m))
        (query_id m) (set_trace (trace w ++ tr) w).
Proof.
  intros Hty Hok. unfold handleMessage. rewrite Hty. cbn [String.eqb Ascii.eqb Bool.eqb].
  destruct (isAuthorizedUser_trace (toInt (chat_id m)) w) as (tr & Hsnd & Hq).
  destruct (isAuthorizedUser (toInt (chat_id m)) w) as [ok w1].
  cbn [fst snd] in Hok, Hsnd. subst ok w1. cbn [negb].
  exists tr. split; [exact Hq | reflexivity].
Qed.

(** The menu is one message with an inline keyboard, the same for
    every chat and state. *)
Lemma sendMainMenu_emit :
  exists menu kb, forall chat w,
    sendMainMenu chat w
    = emit (SendMessageWithInlineKeyboard chat menu "Markdown" kb) w.
Proof. eexists _, _. intros chat w. reflexivity. Qed.

Ltac hide_texts :=
  repeat match goal with
    | |- context [SendMessage _ ?t _] =>
        lazymatch t with
        | String.append _ _ => let x := fresh "txt" in generalize t; intros x
        end
    | |- context [SerialPrintln ?t] =>
        lazymatch t with
        | String.append _ _ => let x := fresh "line" in generalize t; intros x
        end
    end.

Lemma handleOpenDoor_effect chat name id w :
  length (operationLog w) = LOG_SIZE ->
  let w' := handleOpenDoor chat name id w in
  doorRelay w' = true /\ doorOpenTime w' = clock w /\
  lightRelay w' = lightRelay w /\ lightOpenTime w' = lightOpenTime w /\
  operationLog w'
  = mkLogEntry (clock w) id "OPEN_DOOR" name :: take 4 (operationLog w) /\
  clock w' = uadd (clock w) 3250 /\
  exists txt menu kb,
    outbound (trace w')
    = outbound (trace w)
        ++ [SendMessage chat txt "Markdown";
            SendMessageWithInlineKeyboard chat menu "Markdown" kb].
Proof.
  intros Hlen. cbn zeta. destruct sendMainMenu_emit as (menu & kb & Hmenu).
  unfold handleOpenDoor. cbv zeta. rewrite Hmenu. hide_texts.
  push. rewrite logOperation_log by exact Hlen. push.
  rewrite <- app_assoc. repeat split. eexists _, _, _. reflexivity.
Qed.

Lemma handleTurnOnLight_effect chat name id w :
  length (operationLog w) = LOG_SIZE ->
  let w' := handleTurnOnLight chat name id w in
  lightRelay w' = true /\ lightOpenTime w' = clock w /\
  doorRelay w' = doorRelay w /\ doorOpenTime w' = doorOpenTime w /\
  operationLog w'
  = mkLogEntry (clock w) id "LIGHT_ON" name :: take 4 (operationLog w) /\
  clock w' = uadd (clock w) 3250 /\
  exists txt menu kb,
    outbound (trace w')
    = outbound (trace w)
        ++ [SendMessage chat txt "Markdown";
            SendMessageWithInlineKeyboard chat menu "Markdown" kb].
Proof.
  intros Hlen. cbn zeta. destruct sendMainMenu_emit as (menu & kb & Hmenu).
  unfold handleTurnOnLight. cbv zeta. rewrite Hmenu. hide_texts.
  push. rewrite logOperation_log by exact Hlen. push.
  rewrite <- app_assoc. repeat split. eexists _, _, _. reflexivity.
Qed.

Lemma handleOpenDoorCallback_effect chat name id query w :
  length (operationLog w) = LOG_SIZE ->
  let w' := handleOpenDoorCallback chat name id query w in
  doorRelay w' = true /\ doorOpenTime w' = clock w /\
  lightRelay w' = lightRelay w /\ lightOpenTime w' = lightOpenTime w /\
  operationLog w'
  = mkLogEntry (clock w) id "OPEN_DOOR" name :: take 4 (operationLog w) /\
  clock w' = uadd (clock w) 1250 /\
  exists ack txt menu kb,
    outbound (trace w')
    = outbound (trace w)
        ++ [AnswerCallbackQuery query ack; SendMessage chat txt "Markdown";
            SendMessageWithInlineKeyboard chat menu "Markdown" kb].
Proof.
  intros Hlen. cbn zeta. destruct sendMainMenu_emit as (menu & kb & Hmenu).
  unfold handleOpenDoorCallback. cbv zeta. rewrite Hmenu. hide_texts.
  push. rewrite logOperation_log by exact Hlen. push.
  rewrite <- !app_assoc. repeat split. eexists _, _, _, _. reflexivity.
Qed.

Lemma handleLightOnCallback_effect chat name id query w :
  length (operationLog w) = LOG_SIZE ->
  let w' := handleLightOnCallback chat name id query w in
  lightRelay w' = true /\ lightOpenTime w' = clock w /\
  doorRelay w' = doorRelay w /\ doorOpenTime w' = doorOpenTime w /\
  operationLog w'
  = mkLogEntry (clock w) id "LIGHT_ON" name :: take 4 (operationLog w) /\
  clock w' = uadd (clock w) 2250 /\
  exists ack txt menu kb,
    outbound (trace w')
    = outbound (trace w)
        ++ [AnswerCallbackQuery query ack; SendMessage chat txt "Markdown";
            SendMessageWithInlineKeyboard chat menu "Markdown" kb].
Proof.
  intros Hlen. cbn zeta. destruct sendMainMenu_emit as (menu & kb & Hmenu).
  unfold handleLightOnCallback. cbv zeta. rewrite Hmenu. hide_texts.
  push. rewrite logOperation_log by exact Hlen. push.
  rewrite <- !app_assoc. repeat split. eexists _, _, _, _. reflexivity.
Qed.

Lemma processCommand_open chat name id w :
  processCommand chat "/open" name id w = handleOpenDoor chat name id w.
Proof. reflexivity. Qed.

Lemma processCommand_light chat name id w :
  processCommand chat "/light" name id w = handleTurnOnLight chat name id w.
Proof. reflexivity. Qed.

Lemma processCallback_open chat name id query w :
  processCallback chat "OPEN_DOOR" name id query w
  = handleOpenDoorCallback chat name id query w.
Proof. reflexivity. Qed.

Lemma processCallback_light chat name id query w :
  processCallback chat "LIGHT_ON" name id query w
  = handleLightOnCallback chat name id query w.
Proof. reflexivity. Qed.

Lemma set_trace_log tr w : operationLog (set_trace tr w) = operationLog w.
Proof. reflexivity. Qed.

(** X2. An authorized [/open] or [/light] text message: the relay of the
    named actuator is energised with the current clock as timestamp, the
    other actuator is left alone, the log gains one entry at its head
    with the sender's id, as [toInt] reads it, and name, and the chat
    receives the confirmation followed by the menu. *)
Theorem authorized_text_actions (w : World) (m : Message) :
  length (operationLog w) = LOG_SIZE ->
  msg_type m = "message" ->
  fst (isAuthorizedUser (toInt (chat_id m)) w) = true ->
  let w' := handleNewMessages [m] w in
  let sent :=
    exists txt menu kb,
      outbound (trace w')
      = outbound (trace w)
          ++ [SendMessage (chat_id m) txt "Markdown";
              SendMessageWithInlineKeyboard (chat_id m) menu "Markdown" kb] in
  (text m = "/open" ->
     doorRelay w' = true /\ doorOpenTime w' = clock w /\
     lightRelay w' = lightRelay w /\ lightOpenTime w' = lightOpenTime w /\
     operationLog w'
     = mkLogEntry (clock w) (toInt (chat_id m)) "OPEN_DOOR" (from_name m)
         :: take 4 (operationLog w) /\
     sent) /\
  (text m = "/light" ->
     lightRelay w' = true /\ lightOpenTime w' = clock w /\
     doorRelay w' = doorRelay w /\ doorOpenTime w' = doorOpenTime w /\
     operationLog w'
     = mkLogEntry (clock w) (toInt (chat_id m)) "LIGHT_ON" (from_name m)
         :: take 4 (operationLog w) /\
     sent).
Proof.
  intros Hlen Hty Hok. cbn zeta.
  change (handleNewMessages [m] w) with (handleMessage w m).
  destruct (handleMessage_authorized_text w m Hty Hok) as (tr & Hq & ->).
  set (w0 := set_trace (trace w ++ tr) w).
  assert (Hlen0 : length (operationLog w0) = LOG_SIZE) by exact Hlen.
  assert (Hout0 : outbound (trace w0) = outbound (trace w))
    by (apply quiet_outbound; exact Hq).
  split; intros ->.
  - rewrite processCommand_open.
    destruct (handleOpenDoor_effect (chat_id m) (from_name m)
                (toInt (chat_id m)) w0 Hlen0)
      as (H1 & H2 & H3 & H4 & H5 & _ & H7).
    rewrite Hout0 in H7. repeat split; assumption.
  - rewrite processCommand_light.
    destruct (handleTurnOnLight_effect (chat_id m) (from_name m)
                (toInt (chat_id m)) w0 Hlen0)
      as (H1 & H2 & H3 & H4 & H5 & _ & H7).
    rewrite Hout0 in H7. repeat split; assumption.
Qed.

(** X3. An authorized [OPEN_DOOR] or [LIGHT_ON] callback does the same, and
    the callback query is acknowledged before the confirmation is
    sent. *)
Theorem authorized_callback_actions (w : World) (m : Message) :
  length (operationLog w) = LOG_SIZE ->
  msg_type m = "callback_query" ->
  fst (isAuthorizedUser (toInt (chat_id m)) w) = true ->
  let w' := handleNewMessages [m] w in
  let sent :=
    exists ack txt menu kb,
      outbound (trace w')
      = outbound (trace w)
          ++ [AnswerCallbackQuery (query_id m) ack;
              SendMessage (chat_id m) txt "Markdown";
              SendMessageWithInlineKeyboard (chat_id m) menu "Markdown" kb] in
  (text m = "OPEN_DOOR" ->
     doorRelay w' = true /\ doorOpenTime w' = clock w /\
     lightRelay w' = lightRelay w /\ lightOpenTime w' = lightOpenTime w /\
     operationLog w'
     = mkLogEntry (clock w) (toInt (chat_id m)) "OPEN_DOOR" (from_name m)
         :: take 4 (operationLog w) /\
     sent) /\
  (text m = "LIGHT_ON" ->
     lightRelay w' = true /\ lightOpenTime w' = clock w /\
     doorRelay w' = doorRelay w /\ doorOpenTime w' = doorOpenTime w /\
     operationLog w'
     = mkLogEntry (clock w) (toInt (chat_id m)) "LIGHT_ON" (from_name m)
         :: take 4 (operationLog w) /\
     sent).
Proof.
  intros Hlen Hty Hok. cbn zeta.
  change (handleNewMessages [m] w) with (handleMessage w m).
  destruct (handleMessage_authorized_callback w m Hty Hok) as (tr & Hq & ->).
  set (w0 := set_trace (trace w ++ tr) w).
  assert (Hlen0 : length (operationLog w0) = LOG_SIZE) by exact Hlen.
  assert (Hout0 : outbound (trace w0) = outbound (trace w))
    by (apply quiet_outbound; exact Hq).
  split; intros ->.
  - rewrite processCallback_open.
    destruct (handleOpenDoorCallback_effect (chat_id m) (from_name m)
                (toInt (chat_id m)) (query_id m) w0 Hlen0)
      as (H1 & H2 & H3 & H4 & H5 & _ & H7).
    rewrite Hout0 in H7. repeat split; assumption.
  - rewrite processCallback_light.
    destruct (handleLightOnCallback_effect (chat_id m) (from_name m)
                (toInt (chat_id m)) (query_id m) w0 Hlen0)
      as (H1 & H2 & H3 & H4 & H5 & _ & H7).
    rewrite Hout0 in H7. repeat split; assumption.
Qed.

(** ** Commands that only report *)

Ltac core_by_push := unfold same_core; push; repeat split.

Lemma sendMainMenu_core chat w : same_core w (sendMainMenu chat w).
Proof.
  destruct sendMainMenu_emit as (menu & kb & ->). core_by_push.
Qed.

Lemma message_then_menu chat txt ms w :
  reports_to chat w
    (sendMainMenu chat (delay ms (emit (SendMessage chat txt "Markdown") w))).
Proof.
  destruct sendMainMenu_emit as (menu & kb & ->). split.
  - core_by_push.
  - exists [SendMessage chat txt "Markdown";
            SendMessageWithInlineKeyboard chat menu "Markdown" kb].
    push. rewrite <- app_assoc.
    split; [reflexivity|]. split; [discriminate|].
    repeat constructor.
Qed.

Lemma processCommand_reports chat text name id w :
  text <> "/open" -> text <> "/light" ->
  reports_to chat w (processCommand chat text name id w).
Proof.
  intros Ho Hl. apply String.eqb_neq in Ho, Hl. unfold processCommand.
  rewrite Ho, Hl.
  destruct (String.eqb text "/start");
    [unfold sendWelcomeMessage; cbv zeta; apply message_then_menu|].
  destruct (String.eqb text "/status");
    [unfold handleStateSystem; cbv zeta; apply message_then_menu|].
  destruct (String.eqb text "/log");
    [unfold handleShowLog; cbv zeta; apply message_then_menu|].
  destruct (String.eqb text "/help");
    [unfold sendHelpMessage; cbv zeta; apply message_then_menu|].
  destruct (String.eqb text "/menu").
  - destruct sendMainMenu_emit as (menu & kb & ->). split; [core_by_push|].
    exists [SendMessageWithInlineKeyboard chat menu "Markdown" kb]. push.
    split; [reflexivity|]. split; [discriminate | repeat constructor].
  - unfold handleUnknownCommand. cbv zeta. hide_texts. split; [core_by_push|].
    exists [SendMessage chat txt "Markdown"]. push.
    split; [reflexivity|]. split; [discriminate | repeat constructor].
Qed.

Lemma same_core_quiet_trace w tr : same_core w (set_trace (trace w ++ tr) w).
Proof. repeat split. Qed.

Lemma trace_set_trace tr w : trace (set_trace tr w) = tr.
Proof. reflexivity. Qed.

#[local] Hint Rewrite trace_set_trace : world.

Lemma reports_to_after_check chat w tr w' :
  quiet tr -> reports_to chat (set_trace (trace w ++ tr) w) w' ->
  reports_to chat w w'.
Proof.
  intros Hq [Hc (msgs & Hout & Hne & Hall)]. split.
  - unfold same_core in *. fields_in Hc. exact Hc.
  - exists msgs. fields_in Hout. rewrite (quiet_outbound _ _ Hq) in Hout.
    split; [exact Hout | split; assumption].
Qed.

(** X4. Every authorized text message other than [/open] and [/light] is
    answered in its chat with at least one message and leaves the
    relays, their timestamps, the log, the registry and the button state
    as they were; a text outside the command list gets exactly one
    message and no menu. *)
Theorem reporting_commands_leave_state (w : World) (m : Message) :
  msg_type m = "message" ->
  fst (isAuthorizedUser (toInt (chat_id m)) w) = true ->
  text m <> "/open" -> text m <> "/light" ->
  let w' := handleNewMessages [m] w in
  reports_to (chat_id m) w w' /\
  (text m <> "/start" -> text m <> "/status" -> text m <> "/log" ->
   text m <> "/help" -> text m <> "/menu" ->
   exists txt,
     outbound (trace w')
     = outbound (trace w) ++ [SendMessage (chat_id m) txt "Markdown"]).
Proof.
  intros Hty Hok Ho Hl. cbn zeta.
  change (handleNewMessages [m] w) with (handleMessage w m).
  destruct (handleMessage_authorized_text w m Hty Hok) as (tr & Hq & ->).
  split.
  - apply (reports_to_after_check _ _ tr); [exact Hq|].
    apply processCommand_reports; assumption.
  - intros H1 H2 H3 H4 H5. unfold processCommand.
    apply String.eqb_neq in Ho, Hl, H1, H2, H3, H4, H5.
    rewrite Ho, Hl, H1, H2, H3, H4, H5.
    unfold handleUnknownCommand. cbv zeta. hide_texts. exists txt. push.
    rewrite (quiet_outbound _ _ Hq). reflexivity.
Qed.

(** ** Callbacks *)

Lemma ack_message_menu query chat ack txt ms w :
  let w' := sendMainMenu chat
              (delay ms (emit (SendMessage chat txt "Markdown")
                           (emit (AnswerCallbackQuery query ack) w))) in
  acknowledged query chat w w' /\ same_core w w'.
Proof.
  cbn zeta. destruct sendMainMenu_emit as (menu & kb & ->). split.
  - exists ack, [SendMessage chat txt "Markdown";
                 SendMessageWithInlineKeyboard chat menu "Markdown" kb].
    push. rewrite <- !app_assoc. split; [reflexivity | repeat constructor].
  - core_by_push.
Qed.

Lemma processCallback_reports chat data name id query w :
  data <> "OPEN_DOOR" -> data <> "LIGHT_ON" ->
  let w' := processCallback chat data name id query w in
  acknowledged query chat w w' /\ same_core w w'.
Proof.
  intros Ho Hl. apply String.eqb_neq in Ho, Hl. cbn zeta.
  unfold processCallback. rewrite Ho, Hl.
  destruct (String.eqb data "STATE_SYSTEM");
    [unfold handleStateSystemCallback; cbv zeta; apply ack_message_menu|].
  destruct (String.eqb data "SHOW_LOG");
    [unfold handleShowLogCallback; cbv zeta; apply ack_message_menu|].
  destruct (String.eqb data "HELP");
    [unfold handleHelpCallback, sendHelpMessage; cbv zeta;
     apply ack_message_menu|].
  split.
  - exists "❌ Unrecognized command", []. push.
    split; [reflexivity | constructor].
  - core_by_push.
Qed.

(** X5. Every authorized callback is acknowledged before anything is sent
    to the chat; a token other than [OPEN_DOOR] and [LIGHT_ON] leaves
    the relays, the log, the registry and the button state as they
    were, and a token outside the list gets the acknowledgement only. *)
Theorem callbacks_acknowledged_first (w : World) (m : Message) :
  length (operationLog w) = LOG_SIZE ->
  msg_type m = "callback_query" ->
  fst (isAuthorizedUser (toInt (chat_id m)) w) = true ->
  let w' := handleNewMessages [m] w in
  acknowledged (query_id m) (chat_id m) w w' /\
  (text m <> "OPEN_DOOR" -> text m <> "LIGHT_ON" -> same_core w w') /\
  (text m <> "OPEN_DOOR" -> text m <> "LIGHT_ON" ->
   text m <> "STATE_SYSTEM" -> text m <> "SHOW_LOG" -> text m <> "HELP" ->
   outbound (trace w')
   = outbound (trace w)
       ++ [AnswerCallbackQuery (query_id m) "❌ Unrecognized command"]).
Proof.
  intros Hlen Hty Hok. cbn zeta.
  change (handleNewMessages [m] w) with (handleMessage w m).
  destruct (handleMessage_authorized_callback w m Hty Hok) as (tr & Hq & ->).
  set (w0 := set_trace (trace w ++ tr) w).
  assert (Hlen0 : length (operationLog w0) = LOG_SIZE) by exact Hlen.
  assert (Hout0 : outbound (trace w0) = outbound (trace w))
    by (apply quiet_outbound; exact Hq).
  assert (Hcore0 : forall w', same_core w0 w' -> same_core w w').
  { intros w' Hc. unfold same_core in *. subst w0. fields_in Hc. exact Hc. }
  split; [|split].
  - unfold acknowledged. rewrite <- Hout0.
    destruct (String.string_dec (text m) "OPEN_DOOR") as [->|Ho].
    { rewrite processCallback_open.
      destruct (handleOpenDoorCallback_effect (chat_id m) (from_name m)
                  (toInt (chat_id m)) (query_id m) w0 Hlen0)
        as (_ & _ & _ & _ & _ & _ & ack & txt & menu & kb & ->).
      exists ack, [SendMessage (chat_id m) txt "Markdown";
                   SendMessageWithInlineKeyboard (chat_id m) menu "Markdown" kb].
      split; [reflexivity | repeat constructor]. }
    destruct (String.string_dec (text m) "LIGHT_ON") as [->|Hl].
    { rewrite processCallback_light.
      destruct (handleLightOnCallback_effect (chat_id m) (from_name m)
                  (toInt (chat_id m)) (query_id m) w0 Hlen0)
        as (_ & _ & _ & _ & _ & _ & ack & txt & menu & kb & ->).
      exists ack, [SendMessage (chat_id m) txt "Markdown";
                   SendMessageWithInlineKeyboard (chat_id m) menu "Markdown" kb].
      split; [reflexivity | repeat constructor]. }
    apply (processCallback_reports (chat_id m) (text m) (from_name m)
             (toInt (chat_id m)) (query_id m) w0 Ho Hl).
  - intros Ho Hl. apply Hcore0.
    apply (processCallback_reports (chat_id m) (text m) (from_name m)
             (toInt (chat_id m)) (query_id m) w0 Ho Hl).
  - intros Ho Hl H1 H2 H3. unfold processCallback.
    apply String.eqb_neq in Ho, Hl, H1, H2, H3.
    rewrite Ho, Hl, H1, H2, H3. push. rewrite Hout0. reflexivity.
Qed.

(** ** Batches of unauthorized events *)

Lemma scan_users_fst_ext todo : forall i id w w',
  authorizedUsers w' = authorizedUsers w ->
  fst (scan_users todo i id w') = fst (scan_users todo i id w).
Proof.
  induction todo as [|todo IH]; intros i id w w' Ha; [reflexivity|].
  cbn [scan_users]. cbv zeta. fields. rewrite Ha.
  destruct (authorizedUsers w !!! i =? id); [reflexivity|].
  apply IH. fields. exact Ha.
Qed.

Lemma isAuthorizedUser_fst_ext id w w' :
  same_core w w' ->
  fst (isAuthorizedUser id w') = fst (isAuthorizedUser id w).
Proof.
  intros (_&_&_&_&_&Ha&Hn&_). unfold isAuthorizedUser. cbv zeta. fields.
  rewrite Hn. apply scan_users_fst_ext. fields. exact Ha.
Qed.

Lemma same_core_step w0 w w' : same_core w0 w -> same_core w w' -> same_core w0 w'.
Proof.
  unfold same_core. intros H1 H2.
  destruct H1 as (?&?&?&?&?&?&?&?&?), H2 as (?&?&?&?&?&?&?&?&?).
  repeat split; congruence.
Qed.

Lemma handleMessage_unauthorized w m :
  fst (isAuthorizedUser (toInt (chat_id m)) w) = false ->
  same_core w (handleMessage w m) /\
  outbound (trace (handleMessage w m)) = outbound (trace w) ++ denial m /\
  sounds (trace (handleMessage w m)) = sounds (trace w) ++ denial_sound m.
Proof.
  intros Hno. unfold handleMessage, denial, denial_sound.
  destruct (isAuthorizedUser_trace (toInt (chat_id m)) w) as (tr & Hsnd & Hq).
  destruct (isAuthorizedUser (toInt (chat_id m)) w) as [ok w1].
  cbn [fst snd] in Hno, Hsnd. subst ok w1. cbn [negb].
  destruct (String.eqb (msg_type m) "message").
  - unfold handleUnauthorizedUser. cbv zeta. hide_texts.
    split; [core_by_push|]. push.
    rewrite (quiet_outbound _ _ Hq), (quiet_sounds _ _ Hq).
    split; reflexivity.
  - destruct (String.eqb (msg_type m) "callback_query").
    + split; [core_by_push|]. push.
      rewrite (quiet_outbound _ _ Hq), (quiet_sounds _ _ Hq), app_nil_r.
      split; reflexivity.
    + rewrite !app_nil_r. repeat split.
Qed.

Lemma unauthorized_batch_from (ms : list Message) : forall w0 w,
  same_core w0 w ->
  Forall (fun m => fst (isAuthorizedUser (toInt (chat_id m)) w0) = false) ms ->
  same_core w0 (handleNewMessages ms w) /\
  outbound (trace (handleNewMessages ms w))
  = outbound (trace w) ++ concat (denial <$> ms) /\
  sounds (trace (handleNewMessages ms w))
  = sounds (trace w) ++ concat (denial_sound <$> ms).
Proof.
  induction ms as [|m ms IH]; intros w0 w Hc Hall.
  - cbn. rewrite !app_nil_r. repeat split; apply Hc.
  - apply Forall_cons in Hall as [Hm Hall].
    rewrite <- (isAuthorizedUser_fst_ext _ _ _ Hc) in Hm.
    destruct (handleMessage_unauthorized w m Hm) as (Hc1 & Ho1 & Hs1).
    destruct (IH w0 (handleMessage w m) (same_core_step _ _ _ Hc Hc1) Hall)
      as (Hc2 & Ho2 & Hs2).
    change (handleNewMessages (m :: ms) w)
      with (handleNewMessages ms (handleMessage w m)).
    rewrite Ho2, Hs2, Ho1, Hs1. cbn [fmap list_fmap concat].
    rewrite <- !app_assoc. repeat split; apply Hc2.
Qed.

(** ** How long a handler keeps a relay energised *)

Lemma handleTimeouts_light_releases w :
  0 < lightOpenTime w ->
  LIGHT_TIMEOUT < usub (millis w) (lightOpenTime w) ->
  lightRelay (handleTimeouts w) = false /\ lightOpenTime (handleTimeouts w) = 0.
Proof.
  intros H0 H1.
  assert (Hc : (0 <? lightOpenTime w)
               && (LIGHT_TIMEOUT <? usub (millis w) (lightOpenTime w)) = true).
  { apply andb_true_iff. split; apply Z.ltb_lt; assumption. }
  unfold handleTimeouts, millis in *.
  destruct ((0 <? doorOpenTime w) && _); cbv beta zeta iota; fields;
    rewrite Hc; split; reflexivity.
Qed.

Lemma openDoorFromButton_effect w :
  length (operationLog w) = LOG_SIZE ->
  let w' := openDoorFromButton w in
  doorRelay w' = true /\ doorOpenTime w' = clock w /\
  clock w' = uadd (clock w) 1250.
Proof.
  intros Hlen. cbn zeta. unfold openDoorFromButton. cbv zeta. push.
  fields. repeat split.
Qed.

(** Elapsed time and sweep after a handler that energised the door at
    a nonzero clock value and returned [d] ms later. *)
Lemma door_after_handler w w' d :
  0 < clock w < ULONG_MOD -> DOOR_TIMEOUT < d < ULONG_MOD ->
  doorRelay w' = true -> doorOpenTime w' = clock w ->
  clock w' = uadd (clock w) d ->
  doorRelay w' = true /\ usub (millis w') (doorOpenTime w') = d /\
  doorRelay (handleTimeouts w') = false.
Proof.
  intros Ht Hd Hr Ho Hc.
  assert (He : usub (millis w') (doorOpenTime w') = d).
  { unfold millis. rewrite Hc, Ho. apply usub_uadd.
    unfold DOOR_TIMEOUT in Hd. lia. }
  split; [exact Hr|]. split; [exact He|].
  apply handleTimeouts_door_releases; [rewrite Ho; lia | rewrite He; lia].
Qed.

Lemma light_after_handler w w' d :
  0 < clock w < ULONG_MOD -> LIGHT_TIMEOUT < d < ULONG_MOD ->
  lightRelay w' = true -> lightOpenTime w' = clock w ->
  clock w' = uadd (clock w) d ->
  lightRelay w' = true /\ usub (millis w') (lightOpenTime w') = d /\
  lightRelay (handleTimeouts w') = false.
Proof.
  intros Ht Hd Hr Ho Hc.
  assert (He : usub (millis w') (lightOpenTime w') = d).
  { unfold millis. rewrite Hc, Ho. apply usub_uadd.
    unfold LIGHT_TIMEOUT in Hd. lia. }
  split; [exact Hr|]. split; [exact He|].
  apply handleTimeouts_light_releases; [rewrite Ho; lia | rewrite He; lia].
Qed.

(** X8. The handlers return only after their beeps and pauses: the relay
    is still energised then, 3250 ms after activation for a text
    command, 1250 ms for the door callback and the push button and
    2250 ms for the light callback, each more than the 1000 ms timeout,
    and the first sweep after the handler releases it. *)
Theorem handlers_outlast_the_timeout (w : World) (chat name query : string)
    (id : Z) :
  length (operationLog w) = LOG_SIZE ->
  0 < clock w < ULONG_MOD ->
  let held_door (w' : World) (d : Z) :=
    doorRelay w' = true /\ usub (millis w') (doorOpenTime w') = d /\
    doorRelay (handleTimeouts w') = false in
  let held_light (w' : World) (d : Z) :=
    lightRelay w' = true /\ usub (millis w') (lightOpenTime w') = d /\
    lightRelay (handleTimeouts w') = false in
  held_door (handleOpenDoor chat name id w) 3250 /\
  held_door (handleOpenDoorCallback chat name id query w) 1250 /\
  held_door (openDoorFromButton w) 1250 /\
  held_light (handleTurnOnLight chat name id w) 3250 /\
  held_light (handleLightOnCallback chat name id query w) 2250.
Proof.
  intros Hlen Ht. cbn zeta.
  destruct (handleOpenDoor_effect chat name id w Hlen)
    as (A1 & A2 & _ & _ & _ & A3 & _).
  destruct (handleOpenDoorCallback_effect chat name id query w Hlen)
    as (B1 & B2 & _ & _ & _ & B3 & _).
  destruct (openDoorFromButton_effect w Hlen) as (C1 & C2 & C3).
  destruct (handleTurnOnLight_effect chat name id w Hlen)
    as (D1 & D2 & _ & _ & _ & D3 & _).
  destruct (handleLightOnCallback_effect chat name id query w Hlen)
    as (E1 & E2 & _ & _ & _ & E3 & _).
  assert (Hd : forall d, 1000 < d < 4000 -> DOOR_TIMEOUT < d < ULONG_MOD)
    by (unfold DOOR_TIMEOUT, ULONG_MOD; lia).
  assert (Hl : forall d, 1000 < d < 4000 -> LIGHT_TIMEOUT < d < ULONG_MOD)
    by (unfold LIGHT_TIMEOUT, ULONG_MOD; lia).
  split; [apply (door_after_handler w _ 3250 Ht (Hd 3250 ltac:(lia)) A1 A2 A3)|].
  split; [apply (door_after_handler w _ 1250 Ht (Hd 1250 ltac:(lia)) B1 B2 B3)|].
  split; [apply (door_after_handler w _ 1250 Ht (Hd 1250 ltac:(lia)) C1 C2 C3)|].
  split; [apply (light_after_handler w _ 3250 Ht (Hl 3250 ltac:(lia)) D1 D2 D3)|].
  apply (light_after_handler w _ 2250 Ht (Hl 2250 ltac:(lia)) E1 E2 E3).
Qed.

(** ** The sweep *)

Lemma handleTimeouts_light_keeps w :
  lightOpenTime w = 0 \/ usub (millis w) (lightOpenTime w) <= LIGHT_TIMEOUT ->
  lightRelay (handleTimeouts w) = lightRelay w /\
  lightOpenTime (handleTimeouts w) = lightOpenTime w.
Proof.
  intros H.
  assert (Hc : (0 <? lightOpenTime w)
               && (LIGHT_TIMEOUT <? usub (clock w) (lightOpenTime w)) = false).
  { apply andb_false_iff. destruct H as [H|H].
    - left. rewrite H. reflexivity.
    - right. apply Z.ltb_ge. exact H. }
  unfold handleTimeouts, millis.
  destruct ((0 <? doorOpenTime w) && _); cbv beta zeta iota; fields;
    rewrite Hc; split; reflexivity.
Qed.

Lemma handleTimeouts_door_alone w :
  doorOpenTime w = 0 \/ usub (millis w) (doorOpenTime w) <= DOOR_TIMEOUT ->
  doorRelay (handleTimeouts w) = doorRelay w /\
  doorOpenTime (handleTimeouts w) = doorOpenTime w.
Proof.
  intros [H|H].
  - destruct (handleTimeouts_door_unset w H) as [H1 H2].
    split; [exact H1 | rewrite H2, H; reflexivity].
  - apply handleTimeouts_door_keeps. exact H.
Qed.

Lemma handleTimeouts_cases w :
  let cd := (0 <? doorOpenTime w)
            && (DOOR_TIMEOUT <? usub (clock w) (doorOpenTime w)) in
  let cl := (0 <? lightOpenTime w)
            && (LIGHT_TIMEOUT <? usub (clock w) (lightOpenTime w)) in
  let w1 := if cd
            then emit (SerialPrintln "🚪 Automatically closed door")
                   (set_doorOpenTime 0 (set_doorRelay false w))
            else w in
  handleTimeouts w
  = if cl
    then emit (SerialPrintln "💡 Light off automatically")
           (set_lightOpenTime 0 (set_lightRelay false w1))
    else w1.
Proof.
  cbv zeta. unfold handleTimeouts, millis.
  destruct ((0 <? doorOpenTime w) && _); reflexivity.
Qed.

(** X9. The sweep only releases. It never energises a relay; it leaves a
    relay and its timestamp alone unless that relay's own timestamp is
    set and more than 1000 ms old, whatever the other relay does; and
    a second sweep at the same clock value changes nothing. *)
Theorem sweep_only_releases (w : World) :
  (doorRelay (handleTimeouts w) = true -> doorRelay w = true) /\
  (lightRelay (handleTimeouts w) = true -> lightRelay w = true) /\
  (doorOpenTime w = 0 \/ usub (millis w) (doorOpenTime w) <= DOOR_TIMEOUT ->
   doorRelay (handleTimeouts w) = doorRelay w /\
   doorOpenTime (handleTimeouts w) = doorOpenTime w) /\
  (lightOpenTime w = 0 \/ usub (millis w) (lightOpenTime w) <= LIGHT_TIMEOUT ->
   lightRelay (handleTimeouts w) = lightRelay w /\
   lightOpenTime (handleTimeouts w) = lightOpenTime w) /\
  handleTimeouts (handleTimeouts w) = handleTimeouts w.
Proof.
  split; [|split; [|split; [|split]]].
  - rewrite handleTimeouts_cases. cbv zeta.
    destruct ((0 <? lightOpenTime w) && _), ((0 <? doorOpenTime w) && _);
      fields; intros H; first [exact H | discriminate H].
  - rewrite handleTimeouts_cases. cbv zeta.
    destruct ((0 <? lightOpenTime w) && _), ((0 <? doorOpenTime w) && _);
      fields; intros H; first [exact H | discriminate H].
  - apply handleTimeouts_door_alone.
  - apply handleTimeouts_light_keeps.
  - rewrite (handleTimeouts_cases (handleTimeouts w)). cbv zeta.
    rewrite (handleTimeouts_cases w). cbv zeta.
    destruct ((0 <? lightOpenTime w) && _) eqn:El,
      ((0 <? doorOpenTime w) && _) eqn:Ed; fields;
      rewrite ?El, ?Ed; reflexivity.
Qed.

(** ** The display cache *)

Lemma updateDisplay_unfold w :
  updateDisplay w
  = if String.eqb (displayContent_of w) (lastDisplayContent w) then w
    else emit (DisplayShow ["D1 Mini Door Opener"; getShortLogLine 0 w;
                            getShortLogLine 1 w; getShortLogLine 2 w;
                            getShortLogLine 3 w; getConnStatusLine w])
           (set_lastDisplayContent (displayContent_of w) w).
Proof. reflexivity. Qed.

Lemma displayContent_of_ext w w' :
  operationLog w' = operationLog w -> clock w' = clock w ->
  wifiOk w' = wifiOk w -> telegramOk w' = telegramOk w ->
  displayContent_of w' = displayContent_of w.
Proof.
  intros Hl Hc Hw Ht.
  unfold displayContent_of, getShortLogLine, getConnStatusLine, millis.
  rewrite Hl, Hc, Hw, Ht. reflexivity.
Qed.

Lemma app_singleton_neq {A} (l : list A) (x : A) : l ++ [x] <> l.
Proof.
  intros H. apply (f_equal length) in H. rewrite length_app in H. cbn in H. lia.
Qed.

(** X10. [updateDisplay] always leaves the cache equal to the six lines it
    computes, renders at most once, renders exactly when the lines
    differ from the cache, and a second call right after does
    nothing. *)
Theorem updateDisplay_renders_on_change_only (w : World) :
  lastDisplayContent (updateDisplay w) = displayContent_of w /\
  (lastDisplayContent w = displayContent_of w -> updateDisplay w = w) /\
  (lastDisplayContent w <> displayContent_of w ->
   exists lines, trace (updateDisplay w) = trace w ++ [DisplayShow lines]) /\
  (trace (updateDisplay w) = trace w
   <-> lastDisplayContent w = displayContent_of w) /\
  updateDisplay (updateDisplay w) = updateDisplay w.
Proof.
  assert (Hlast : lastDisplayContent (updateDisplay w) = displayContent_of w).
  { rewrite updateDisplay_unfold.
    destruct (String.eqb_spec (displayContent_of w) (lastDisplayContent w))
      as [E|N]; [symmetry; exact E | reflexivity]. }
  assert (Hsame : forall v, lastDisplayContent v = displayContent_of v ->
                            updateDisplay v = v).
  { intros v E. rewrite updateDisplay_unfold, E, String.eqb_refl. reflexivity. }
  assert (Hdiff : lastDisplayContent w <> displayContent_of w ->
            exists lines, trace (updateDisplay w) = trace w ++ [DisplayShow lines]).
  { intros N. rewrite updateDisplay_unfold.
    destruct (String.eqb_spec (displayContent_of w) (lastDisplayContent w))
      as [E|_]; [symmetry in E; contradiction|].
    eexists. reflexivity. }
  split; [exact Hlast|]. split; [apply Hsame|]. split; [exact Hdiff|]. split.
  - split.
    + intros Ht.
      destruct (String.string_dec (lastDisplayContent w) (displayContent_of w))
        as [E|N]; [exact E|].
      destruct (Hdiff N) as (lines & Hl). rewrite Hl in Ht.
      destruct (app_singleton_neq _ _ Ht).
    + intros E. rewrite (Hsame w E). reflexivity.
  - apply Hsame. rewrite Hlast. symmetry.
    apply displayContent_of_ext.
    + apply updateDisplay_operationLog.
    + apply updateDisplay_clock.
    + apply updateDisplay_wifiOk.
    + apply updateDisplay_telegramOk.
Qed.

(** ** More on the push button *)

Lemma buttonISR_frame w :
  operationLog (buttonISR w) = operationLog w /\
  clock (buttonISR w) = clock w /\
  (buttonInterruptFlag (buttonISR w)
   = buttonInterruptFlag w || edge_passes w).
Proof.
  unfold buttonISR. cbv zeta. destruct (edge_passes w); fields.
  - rewrite orb_true_r. repeat split.
  - rewrite orb_false_r. repeat split.
Qed.

Lemma edges_frame (ts : list Z) : forall w,
  operationLog (snd (edges ts w)) = operationLog w /\
  ((0 < fst (edges ts w))%nat -> buttonInterruptFlag (snd (edges ts w)) = true) /\
  (buttonInterruptFlag w = true -> buttonInterruptFlag (snd (edges ts w)) = true).
Proof.
  induction ts as [|t ts IH]; intros w.
  - cbn. split; [reflexivity|]. split; [lia | tauto].
  - cbn [edges]. cbv zeta.
    destruct (IH (buttonISR (at_time t w))) as (Hl & Hpos & Hkeep).
    destruct (buttonISR_frame (at_time t w)) as (Bl & _ & Bf).
    destruct (edges ts (buttonISR (at_time t w))) as [n w2].
    cbn [fst snd] in *. split; [rewrite Hl, Bl; reflexivity|]. split.
    + destruct (edge_passes (at_time t w)).
      * intros _. apply Hkeep. rewrite Bf. apply orb_true_r.
      * exact Hpos.
    + intros Hf. apply Hkeep. rewrite Bf. fields. rewrite Hf. reflexivity.
Qed.

Lemma openDoorFromButton_log w :
  length (operationLog w) = LOG_SIZE ->
  operationLog (openDoorFromButton w)
  = mkLogEntry (clock w) 0 "DOOR_BUTTON" "Button" :: take 4 (operationLog w) /\
  buttonInterruptFlag (openDoorFromButton w) = false.
Proof.
  intros Hlen. unfold openDoorFromButton. cbv zeta. push.
  rewrite logOperation_log by exact Hlen. push. fields. split; reflexivity.
Qed.

(** X11. After an accepted edge the window counts from that edge, not from
    the bounces: edges up to and including 100 ms later are ignored, and
    an edge more than 100 ms after the accepted one is accepted however
    close it is to the last bounce. Right after start, while the clock
    reads 100 or less, every edge is ignored. *)
Theorem debounce_window_counts_from_accepted_edge (w : World) (t1 d1 d2 : Z) :
  edge_passes (at_time t1 w) = true ->
  0 <= d1 <= interruptDebounceDelay ->
  interruptDebounceDelay < d2 < ULONG_MOD ->
  fst (edges [t1; uadd t1 d1; uadd t1 d2] w) = 2%nat /\
  lastInterruptTime (snd (edges [t1; uadd t1 d1; uadd t1 d2] w)) = uadd t1 d2 /\
  (forall t0 users r t, 0 <= t <= interruptDebounceDelay ->
     buttonISR (at_time t (initial_world t0 users r))
     = at_time t (initial_world t0 users r)).
Proof.
  intros Hfirst Hd1 Hd2. unfold interruptDebounceDelay in Hd1, Hd2.
  set (w1 := buttonISR (at_time t1 w)).
  assert (Hw1 : w1 = set_lastInterruptTime t1
                       (set_buttonInterruptFlag true (at_time t1 w))).
  { subst w1. unfold buttonISR. rewrite Hfirst. reflexivity. }
  assert (Hrej : edge_passes (at_time (uadd t1 d1) w1) = false).
  { rewrite Hw1. unfold edge_passes. fields. rewrite usub_uadd.
    - apply Z.ltb_ge. unfold interruptDebounceDelay. lia.
    - unfold ULONG_MOD. lia. }
  assert (Hw2 : buttonISR (at_time (uadd t1 d1) w1) = at_time (uadd t1 d1) w1).
  { unfold buttonISR. rewrite Hrej. reflexivity. }
  assert (Hacc : edge_passes (at_time (uadd t1 d2) (at_time (uadd t1 d1) w1))
                 = true).
  { rewrite Hw1. unfold edge_passes. fields. rewrite usub_uadd.
    - apply Z.ltb_lt. unfold interruptDebounceDelay. lia.
    - lia. }
  split; [|split].
  - cbn [edges]. cbv zeta. fold w1. rewrite Hw2.
    cbn [fst snd]. rewrite Hfirst, Hrej, Hacc. reflexivity.
  - cbn [edges]. cbv zeta. fold w1. rewrite Hw2.
    cbn [fst snd]. unfold buttonISR at 1. rewrite Hacc. reflexivity.
  - intros t0 users r t Ht. unfold buttonISR, edge_passes, initial_world.
    fields. unfold usub, wrap. rewrite Z.sub_0_r.
    assert (Hsmall : t mod ULONG_MOD = t).
    { apply Z.mod_small. unfold interruptDebounceDelay, ULONG_MOD in *. lia. }
    rewrite Hsmall.
    assert (Hno : (interruptDebounceDelay <? t) = false)
      by (apply Z.ltb_ge; lia).
    rewrite Hno. reflexivity.
Qed.

(** X12. The flag is one bit: however many edges were accepted since the
    last poll, [checkButtonOpenDoor] opens the door once: it energises
    the door relay with the clock as its timestamp, writes one log entry
    and lowers the flag; a second poll with no new edge does nothing. *)
Theorem several_edges_open_once (w : World) (ts : list Z) :
  length (operationLog w) = LOG_SIZE ->
  (0 < fst (edges ts w))%nat ->
  let w1 := snd (edges ts w) in
  let w2 := checkButtonOpenDoor w1 in
  doorRelay w2 = true /\
  doorOpenTime w2 = clock w1 /\
  operationLog w2
  = mkLogEntry (clock w1) 0 "DOOR_BUTTON" "Button" :: take 4 (operationLog w) /\
  buttonInterruptFlag w2 = false /\
  checkButtonOpenDoor w2 = w2.
Proof.
  intros Hlen Hpos. cbn zeta.
  destruct (edges_frame ts w) as (Hl & Hflag & _).
  specialize (Hflag Hpos). set (w1 := snd (edges ts w)) in *.
  assert (Hlen1 : length (operationLog (set_buttonInterruptFlag false w1))
                  = LOG_SIZE) by (fields; rewrite Hl; exact Hlen).
  destruct (openDoorFromButton_log _ Hlen1) as (Hlog & Hlow).
  destruct (openDoorFromButton_effect _ Hlen1) as (Hon & Hstamp & _).
  fields_in Hlog. fields_in Hstamp. rewrite Hl in Hlog.
  assert (Hpoll : checkButtonOpenDoor w1
                  = openDoorFromButton (set_buttonInterruptFlag false w1)).
  { unfold checkButtonOpenDoor. rewrite Hflag. reflexivity. }
  rewrite Hpoll. split; [exact Hon|]. split; [exact Hstamp|].
  split; [exact Hlog|]. split; [exact Hlow|].
  unfold checkButtonOpenDoor. rewrite Hlow. reflexivity.
Qed.

(** ** Decimal chat ids through [atol] *)

Lemma pretty_N_char_digit (d : N) :
  (d < 10)%N ->
  isdigit (pretty_N_char d) = true /\
  digit_value (pretty_N_char d) = Z.of_N d /\
  isspace (pretty_N_char d) = false /\
  Ascii.eqb (pretty_N_char d) "-" = false /\
  Ascii.eqb (pretty_N_char d) "+" = false /\
  Ascii.eqb (pretty_N_char d) comma = false.
Proof.
  intros Hd.
  assert (Hc : (d = 0 \/ d = 1 \/ d = 2 \/ d = 3 \/ d = 4 \/ d = 5 \/ d = 6
                \/ d = 7 \/ d = 8 \/ d = 9)%N) by lia.
  repeat destruct Hc as [->|Hc]; try subst d; vm_compute; repeat split.
Qed.

Lemma read_digits_pretty_N_go (x : N) : forall s,
  exists k, 0 <= k /\
    forall acc, read_digits acc (pretty_N_go x s)
                = read_digits (acc * 10 ^ k + Z.of_N x) s.
Proof.
  induction (N.lt_wf_0 x) as [x _ IH]. intros s.
  assert (Hx : (x = 0 \/ 0 < x)%N) by lia. destruct Hx as [->|Hx].
  - exists 0. split; [lia|]. intros acc. rewrite pretty_N_go_0.
    f_equal. rewrite Z.pow_0_r. change (Z.of_N 0) with 0. lia.
  - rewrite pretty_N_go_step by exact Hx.
    assert (Hlt : (x `div` 10 < x)%N) by (apply N.div_lt; lia).
    destruct (IH _ Hlt (String (pretty_N_char (x `mod` 10)) s))
      as (k & Hk & Hread).
    assert (Hm : (x `mod` 10 < 10)%N) by (apply N.mod_lt; lia).
    destruct (pretty_N_char_digit _ Hm) as (Hdig & Hval & _).
    exists (k + 1). split; [lia|]. intros acc. rewrite Hread.
    cbn [read_digits]. rewrite Hdig, Hval. f_equal.
    rewrite Z.pow_add_r, Z.pow_1_r by lia.
    rewrite N2Z.inj_mod, N2Z.inj_div. change (Z.of_N 10) with 10.
    pose proof (Z.div_mod (Z.of_N x) 10 ltac:(lia)) as Hdm.
    replace (acc * (10 ^ k * 10)) with (acc * 10 ^ k * 10) by ring.
    generalize dependent (acc * 10 ^ k). intros q. lia.
Qed.

Lemma pretty_N_go_head (x : N) : forall s,
  (0 < x)%N ->
  exists c r, pretty_N_go x s = String c r /\
    isdigit c = true /\ isspace c = false /\
    Ascii.eqb c "-" = false /\ Ascii.eqb c "+" = false.
Proof.
  induction (N.lt_wf_0 x) as [x _ IH]. intros s Hx.
  rewrite pretty_N_go_step by exact Hx.
  destruct (N.eq_0_gt_0_cases (x `div` 10)) as [Hq|Hq].
  - rewrite Hq, pretty_N_go_0.
    assert (Hm : (x `mod` 10 < 10)%N) by (apply N.mod_lt; lia).
    destruct (pretty_N_char_digit _ Hm) as (Hdig & _ & Hsp & Hmi & Hpl & _).
    eexists _, _. split; [reflexivity|]. repeat split; assumption.
  - apply IH; [apply N.div_lt; lia | exact Hq].
Qed.

Lemma atol_pretty_pos (p : positive) :
  atol (pretty_N_go (N.pos p) EmptyString) = clamp_long (Z.pos p).
Proof.
  destruct (pretty_N_go_head (N.pos p) EmptyString ltac:(lia))
    as (c & r & Hs & Hdig & Hsp & Hmi & Hpl).
  destruct (read_digits_pretty_N_go (N.pos p) EmptyString) as (k & _ & Hread).
  specialize (Hread 0). rewrite Hs in Hread.
  unfold atol. rewrite Hs. cbn [skip_spaces]. rewrite Hsp, Hmi, Hpl, Hread.
  reflexivity.
Qed.

Lemma String_of_pos (p : positive) :
  String_of (Z.pos p) = pretty_N_go (N.pos p) EmptyString.
Proof. reflexivity. Qed.

Lemma String_of_neg (p : positive) :
  String_of (Z.neg p) = String "-" (pretty_N_go (N.pos p) EmptyString).
Proof. reflexivity. Qed.

Lemma atol_String_of (z : Z) : atol (String_of z) = clamp_long z.
Proof.
  destruct z as [|p|p].
  - reflexivity.
  - rewrite String_of_pos. apply atol_pretty_pos.
  - rewrite String_of_neg.
    destruct (read_digits_pretty_N_go (N.pos p) EmptyString) as (k & _ & Hread).
    specialize (Hread 0).
    unfold atol. cbn [skip_spaces].
    change (isspace "-") with false. cbv iota.
    change (Ascii.eqb "-" "-") with true. cbv iota.
    rewrite Hread. reflexivity.
Qed.

Lemma clamp_long_id (z : Z) : in_long z -> clamp_long z = z.
Proof.
  unfold in_long, clamp_long. intros [Hlo Hhi].
  destruct (z <? LONG_MIN) eqn:E1; [apply Z.ltb_lt in E1; lia|].
  destruct (LONG_MAX <? z) eqn:E2; [apply Z.ltb_lt in E2; lia|].
  reflexivity.
Qed.

Lemma comma_free_pretty_N_go (x : N) : forall s,
  comma_free s = true -> comma_free (pretty_N_go x s) = true.
Proof.
  induction (N.lt_wf_0 x) as [x _ IH]. intros s Hs.
  assert (Hx : (x = 0 \/ 0 < x)%N) by lia. destruct Hx as [->|Hx].
  - rewrite pretty_N_go_0. exact Hs.
  - rewrite pretty_N_go_step by exact Hx.
    apply IH; [apply N.div_lt; lia|].
    assert (Hm : (x `mod` 10 < 10)%N) by (apply N.mod_lt; lia).
    destruct (pretty_N_char_digit _ Hm) as (_ & _ & _ & _ & _ & Hco).
    cbn [comma_free]. rewrite Hco, Hs. reflexivity.
Qed.

Lemma String_of_token (z : Z) :
  comma_free (String_of z) = true /\ is_empty (String_of z) = false.
Proof.
  destruct z as [|p|p].
  - split; reflexivity.
  - rewrite String_of_pos. split.
    + apply comma_free_pretty_N_go. reflexivity.
    + destruct (pretty_N_go_head (N.pos p) EmptyString ltac:(lia))
        as (c & r & Hs & _). rewrite Hs. reflexivity.
  - rewrite String_of_neg. split; [|reflexivity].
    cbn [comma_free]. change (Ascii.eqb "-" comma) with false.
    cbn [negb andb]. apply comma_free_pretty_N_go. reflexivity.
Qed.

Lemma comma_fields_nonnil (s : string) : comma_fields s <> [].
Proof.
  destruct s as [|c s]; cbn [comma_fields]; [discriminate|].
  destruct (Ascii.eqb c comma); [discriminate|].
  destruct (comma_fields s); discriminate.
Qed.

Lemma comma_fields_free (s : string) :
  comma_free s = true -> comma_fields s = [s].
Proof.
  induction s as [|c s IH]; [reflexivity|].
  cbn [comma_free comma_fields]. intros H.
  apply andb_prop in H as [Hc Hs]. apply negb_true_iff in Hc.
  rewrite Hc, (IH Hs). reflexivity.
Qed.

Lemma comma_fields_app (s t : string) :
  comma_free s = true ->
  comma_fields (s +:+ "," +:+ t) = s :: comma_fields t.
Proof.
  induction s as [|c s IH].
  - intros _. reflexivity.
  - cbn [comma_free]. intros H.
    apply andb_prop in H as [Hc Hs]. apply negb_true_iff in Hc.
    change (String c s +:+ "," +:+ t) with (String c (s +:+ "," +:+ t)).
    cbn [comma_fields]. rewrite Hc, (IH Hs). reflexivity.
Qed.

Lemma spec_tokens_join_ids (ids : list Z) :
  spec_tokens (join_ids ids) = String_of <$> ids.
Proof.
  induction ids as [|z rest IH]; [reflexivity|].
  destruct (String_of_token z) as (Hfree & Hne).
  destruct rest as [|z' rest'].
  - cbn [join_ids]. unfold spec_tokens.
    rewrite (comma_fields_free _ Hfree). cbn [List.filter].
    rewrite Hne. reflexivity.
  - change (join_ids (z :: z' :: rest'))
      with (String_of z +:+ "," +:+ join_ids (z' :: rest')).
    unfold spec_tokens in *. rewrite (comma_fields_app _ _ Hfree).
    cbn [List.filter]. rewrite Hne. cbn [negb]. rewrite IH. reflexivity.
Qed.

Lemma spec_ids_join_ids (ids : list Z) :
  spec_ids (join_ids ids) = clamp_long <$> ids.
Proof.
  unfold spec_ids. rewrite spec_tokens_join_ids.
  induction ids as [|z rest IH]; [reflexivity|].
  cbn [fmap list_fmap]. rewrite atol_String_of. f_equal. exact IH.
Qed.

Lemma clamp_long_in_range (ids : list Z) :
  Forall in_long ids -> clamp_long <$> ids = ids.
Proof.
  induction 1 as [|z rest Hz _ IH]; [reflexivity|].
  cbn [fmap list_fmap]. rewrite (clamp_long_id z Hz). f_equal. exact IH.
Qed.

Lemma join_ids_loaded (w : World) (ids : list Z) (id : Z) :
  length (authorizedUsers w) = MAX_USERS ->
  (length ids <= MAX_USERS)%nat ->
  (String.length (join_ids ids) <= MAX_USERS_LEN - 1)%nat ->
  let w' :=
    parseAuthorizedUsers (set_userConfig_authorizedUsers (join_ids ids) w) in
  take (numAuthorizedUsers w') (authorizedUsers w') = clamp_long <$> ids /\
  (fst (isAuthorizedUser (toInt (String_of id)) w') = true
   <-> In (clamp_long id) (clamp_long <$> ids)).
Proof.
  intros Hlen Hn Hfit. cbv zeta.
  assert (Htok : (length (spec_tokens (join_ids ids)) <= MAX_USERS)%nat).
  { rewrite spec_tokens_join_ids, length_fmap. exact Hn. }
  split.
  - pose proof (parseAuthorizedUsers_spec
                  (set_userConfig_authorizedUsers (join_ids ids) w)) as Hspec.
    cbv zeta in Hspec.
    assert (Hlen' : length (authorizedUsers
                (set_userConfig_authorizedUsers (join_ids ids) w)) = MAX_USERS)
      by exact Hlen.
    destruct (Hspec Hlen') as (_ & Htake & _).
    rewrite Htake.
    change (userConfig_authorizedUsers
              (set_userConfig_authorizedUsers (join_ids ids) w))
      with (join_ids ids).
    rewrite (strncpy_fits _ _ Hfit), spec_ids_join_ids.
    apply take_ge. rewrite length_fmap. exact Hn.
  - unfold toInt. rewrite atol_String_of, <- spec_ids_join_ids.
    apply isAuthorizedUser_after_load; assumption.
Qed.

(** X13. A registry typed as decimal chat ids separated by commas (at most
    ten, in the range of [long], fitting the field) is loaded as exactly
    those ids in that order, and a chat is authorized exactly when its id
    is one of them. *)
Theorem decimal_ids_round_trip (w : World) (ids : list Z) (id : Z) :
  length (authorizedUsers w) = MAX_USERS ->
  (length ids <= MAX_USERS)%nat ->
  (String.length (join_ids ids) <= MAX_USERS_LEN - 1)%nat ->
  Forall in_long ids ->
  in_long id ->
  let w' :=
    parseAuthorizedUsers (set_userConfig_authorizedUsers (join_ids ids) w) in
  numAuthorizedUsers w' = length ids /\
  take (numAuthorizedUsers w') (authorizedUsers w') = ids /\
  toInt (String_of id) = id /\
  (fst (isAuthorizedUser (toInt (String_of id)) w') = true <-> In id ids).
Proof.
  intros Hlen Hn Hfit Hids Hid. cbv zeta.
  destruct (join_ids_loaded w ids id Hlen Hn Hfit) as (Htake & Hauth).
  rewrite (clamp_long_in_range ids Hids) in Htake, Hauth.
  rewrite (clamp_long_id id Hid) in Hauth.
  split; [|split; [exact Htake | split; [|exact Hauth]]].
  - apply (f_equal length) in Htake. rewrite length_take in Htake.
    pose proof (parseAuthorizedUsers_spec
                  (set_userConfig_authorizedUsers (join_ids ids) w) Hlen)
      as (Hnum & _ & Hl & _).
    rewrite length_take in Hnum. rewrite Hl in Htake.
    unfold MAX_USERS in *. lia.
  - unfold toInt. rewrite atol_String_of. apply clamp_long_id. exact Hid.
Qed.

(** X14. Chat ids beyond the 32-bit [long] are not told apart: both the
    registry entry and the sender's id saturate in [atol], so one
    registered id at or above [LONG_MAX] authorizes every chat whose id
    is at or above it, and likewise at or below [LONG_MIN]. *)
Theorem ids_beyond_long_are_confused (w : World) (ids : list Z) (z id : Z) :
  length (authorizedUsers w) = MAX_USERS ->
  (length ids <= MAX_USERS)%nat ->
  (String.length (join_ids ids) <= MAX_USERS_LEN - 1)%nat ->
  In z ids ->
  (LONG_MAX <= z /\ LONG_MAX <= id) \/ (z <= LONG_MIN /\ id <= LONG_MIN) ->
  fst (isAuthorizedUser (toInt (String_of id))
         (parseAuthorizedUsers
            (set_userConfig_authorizedUsers (join_ids ids) w))) = true.
Proof.
  intros Hlen Hn Hfit Hin Hout.
  apply (join_ids_loaded w ids id Hlen Hn Hfit).
  assert (Hsame : clamp_long id = clamp_long z).
  { unfold clamp_long, LONG_MAX, LONG_MIN in *.
    destruct Hout as [[Hz Hi]|[Hz Hi]];
      repeat match goal with
        | |- context [?a <? ?b] =>
            let E := fresh "E" in
            destruct (a <? b) eqn:E;
            [apply Z.ltb_lt in E | apply Z.ltb_ge in E]
        end; lia. }
  rewrite Hsame. apply in_map. exact Hin.
Qed.

(** ** The gate, by the sender's id *)

(** A sender whose id is in the range of [long] and is not in the
    registry fails the check. *)
Lemma outsider_fails_check (w : World) (id : Z) :
  (numAuthorizedUsers w <= length (authorizedUsers w))%nat ->
  in_long id ->
  ~ In id (authorized_set w) ->
  fst (isAuthorizedUser (toInt (String_of id)) w) = false.
Proof.
  intros Hn Hid Hout. unfold toInt.
  rewrite atol_String_of, (clamp_long_id id Hid).
  destruct (fst (isAuthorizedUser id w)) eqn:E; [|reflexivity].
  exfalso. apply Hout. apply (isAuthorizedUser_iff id w Hn). exact E.
Qed.

(** C1, as amended. An event whose sender's id is in the range of the
    board's 32-bit [long] and is not in the registry is not routed: the
    relays, their timestamps, the log, the registry and the button state
    are as before. A text message is answered with the access-denied
    message to its chat together with the error pattern on the buzzer;
    a callback query is answered with the callback acknowledgement
    [Unauthorized] and nothing else goes out through the bot. *)
Theorem unauthorized_event_not_routed (w : World) (m : Message) (id : Z) :
  (numAuthorizedUsers w <= length (authorizedUsers w))%nat ->
  chat_id m = String_of id ->
  in_long id ->
  ~ In id (authorized_set w) ->
  let w' := handleNewMessages [m] w in
  same_core w w' /\
  (msg_type m = "message" -> denied_with_feedback w m) /\
  (msg_type m = "callback_query" ->
     outbound (trace w')
     = outbound (trace w) ++ [AnswerCallbackQuery (query_id m) "Unauthorized"]).
Proof.
  intros Hn Hchat Hid Hout. apply failed_check_not_routed.
  rewrite Hchat. apply outsider_fails_check; assumption.
Qed.

(** X6. A whole batch of events from senders whose ids are in the range
    of [long] and not in the registry changes nothing in the relays, the
    log, the registry or the button state; each text message is answered
    with the access-denied message and the error pattern on the buzzer,
    each callback query with the acknowledgement [Unauthorized] and no
    sound, in the order of the batch. *)
Theorem unauthorized_batch_not_routed (ms : list Message) (w : World) :
  (numAuthorizedUsers w <= length (authorizedUsers w))%nat ->
  Forall (outsider w) ms ->
  let w' := handleNewMessages ms w in
  same_core w w' /\
  outbound (trace w') = outbound (trace w) ++ concat (denial <$> ms) /\
  sounds (trace w') = sounds (trace w) ++ concat (denial_sound <$> ms).
Proof.
  intros Hn Hall. apply unauthorized_batch_from; [apply same_core_refl|].
  eapply Forall_impl; [exact Hall|].
  intros m (id & Hchat & Hid & Hout). cbn beta. rewrite Hchat.
  apply outsider_fails_check; assumption.
Qed.

(** ** Elapsed-time texts *)

(** X15. Both elapsed-time texts show the same count of the same unit: the
    largest of seconds, minutes, hours, days of which the interval holds
    at least one, rounded down, so the count is below the next unit (and
    below 50 days for a 32-bit interval) and at least one above seconds. *)
Theorem time_ago_texts_agree (ago : Z) :
  0 <= ago < ULONG_MOD ->
  exists u n,
    formatTimeAgo ago = String_of n +:+ long_suffix u /\
    formatTimeAgoShort ago = String_of n +:+ short_suffix u /\
    n * unit_ms u <= ago < (n + 1) * unit_ms u /\
    0 <= n < unit_bound u /\
    (u <> Seconds -> 1 <= n).
Proof.
  intros [Hlo Hhi]. unfold ULONG_MOD in Hhi.
  unfold formatTimeAgo, formatTimeAgoShort. cbv zeta.
  assert (Hs : ago / 1000 / 60 = ago / 60000)
    by (rewrite Z.div_div by lia; reflexivity).
  assert (Hm : ago / 1000 / 60 / 60 = ago / 3600000)
    by (rewrite !Z.div_div by lia; reflexivity).
  assert (Hh : ago / 1000 / 60 / 60 / 24 = ago / 86400000)
    by (rewrite !Z.div_div by lia; reflexivity).
  rewrite Hh, Hm, Hs.
  pose proof (Z.div_mod ago 1000 ltac:(lia)) as D1.
  pose proof (Z.mod_pos_bound ago 1000 ltac:(lia)) as B1.
  pose proof (Z.div_mod ago 60000 ltac:(lia)) as D2.
  pose proof (Z.mod_pos_bound ago 60000 ltac:(lia)) as B2.
  pose proof (Z.div_mod ago 3600000 ltac:(lia)) as D3.
  pose proof (Z.mod_pos_bound ago 3600000 ltac:(lia)) as B3.
  pose proof (Z.div_mod ago 86400000 ltac:(lia)) as D4.
  pose proof (Z.mod_pos_bound ago 86400000 ltac:(lia)) as B4.
  destruct (ago / 1000 <? 60) eqn:E1;
    [apply Z.ltb_lt in E1 | apply Z.ltb_ge in E1].
  { exists Seconds, (ago / 1000). cbn [long_suffix short_suffix unit_ms unit_bound].
    repeat split; try reflexivity; try lia. congruence. }
  destruct (ago / 60000 <? 60) eqn:E2;
    [apply Z.ltb_lt in E2 | apply Z.ltb_ge in E2].
  { exists Minutes, (ago / 60000).
    cbn [long_suffix short_suffix unit_ms unit_bound].
    repeat split; try reflexivity; try lia. }
  destruct (ago / 3600000 <? 24) eqn:E3;
    [apply Z.ltb_lt in E3 | apply Z.ltb_ge in E3].
  { exists Hours, (ago / 3600000).
    cbn [long_suffix short_suffix unit_ms unit_bound].
    repeat split; try reflexivity; try lia. }
  exists Days, (ago / 86400000).
  cbn [long_suffix short_suffix unit_ms unit_bound].
  repeat split; try reflexivity; try lia.
Qed.

Lemma string_append_assoc (a b c : string) :
  (a +:+ b) +:+ c = a +:+ b +:+ c.
Proof.
  induction a as [|x a IH]; [reflexivity|].
  change ((String x a +:+ b) +:+ c) with (String x ((a +:+ b) +:+ c)).
  rewrite IH. reflexivity.
Qed.

(** X16. The uptime text lists days, hours, minutes and seconds in that
    order, leaving out a zero component except the seconds, which always
    close the text; the components are in range and add up to the uptime
    in whole seconds. *)
Theorem uptime_components_add_up (ms : Z) :
  0 <= ms ->
  exists d h m s,
    formatUptime ms
    = uptime_part d "d " +:+ uptime_part h "h " +:+ uptime_part m "m "
        +:+ String_of s +:+ "s" /\
    ms / 1000 = ((d * 24 + h) * 60 + m) * 60 + s /\
    0 <= d /\ 0 <= h < 24 /\ 0 <= m < 60 /\ 0 <= s < 60.
Proof.
  intros Hms.
  exists (ms / 1000 / 60 / 60 / 24), (ms / 1000 / 60 / 60 mod 24),
         (ms / 1000 / 60 mod 60), (ms / 1000 mod 60).
  set (sec := ms / 1000).
  assert (Hsec : 0 <= sec) by (apply Z.div_pos; lia).
  pose proof (Z.div_mod sec 60 ltac:(lia)) as D1.
  pose proof (Z.mod_pos_bound sec 60 ltac:(lia)) as B1.
  assert (Hmin : 0 <= sec / 60) by (apply Z.div_pos; lia).
  pose proof (Z.div_mod (sec / 60) 60 ltac:(lia)) as D2.
  pose proof (Z.mod_pos_bound (sec / 60) 60 ltac:(lia)) as B2.
  assert (Hhr : 0 <= sec / 60 / 60) by (apply Z.div_pos; lia).
  pose proof (Z.div_mod (sec / 60 / 60) 24 ltac:(lia)) as D3.
  pose proof (Z.mod_pos_bound (sec / 60 / 60) 24 ltac:(lia)) as B3.
  assert (Hday : 0 <= sec / 60 / 60 / 24) by (apply Z.div_pos; lia).
  split; [|repeat split; lia].
  unfold formatUptime, uptime_part. cbv zeta. fold sec.
  destruct (0 <? sec / 60 / 60 / 24);
    destruct (0 <? sec / 60 / 60 mod 24);
    destruct (0 <? sec / 60 mod 60);
    change (EmptyString +:+ ?x) with x;
    rewrite ?string_append_assoc;
    change (EmptyString +:+ ?x) with x; reflexivity.
Qed.

(** ** The configuration portal *)

Ltac portal :=
  cbn [userConfig EEPROM passwordOk portal_clock sent restarted
       set_userConfig set_EEPROM set_passwordOk set_portal_clock set_sent
       set_restarted server_send portal_delay ESP_restart saveConfig
       resetEEPROM ssid password botToken configPassword
       config_authorizedUsers configured set_configPassword].

Lemma accepted_server_send (o : HttpOut) (p : Portal) :
  accepted (server_send o p) = accepted p ++ (if is_ok o then [o] else []).
Proof.
  unfold accepted, server_send. portal. rewrite List.filter_app.
  cbn [List.filter]. destruct (is_ok o); reflexivity.
Qed.

Lemma strncpy_length (n : nat) : forall s,
  (String.length (strncpy n s) <= n)%nat.
Proof.
  induction n as [|n IH]; intros [|c s]; cbn [strncpy String.length]; try lia.
  specialize (IH s). lia.
Qed.

Lemma strncpy_idem (n : nat) (s : string) :
  strncpy n (strncpy n s) = strncpy n s.
Proof. apply strncpy_fits, strncpy_length. Qed.

(** What a request that does not present the password leaves as it was. *)
Lemma handleClient_closed (p : Portal) (r : PortalRequest) :
  passwordOk p = false ->
  presents (configPassword (userConfig p)) r = false ->
  is_reset r = false ->
  userConfig (handleClient p r) = userConfig p /\
  EEPROM (handleClient p r) = EEPROM p /\
  passwordOk (handleClient p r) = false /\
  restarted (handleClient p r) = restarted p /\
  accepted (handleClient p r) = accepted p.
Proof.
  intros Hpw Hr Hreset. unfold handleClient.
  destruct (restarted p) eqn:Hrst; [rewrite Hrst; repeat split; assumption|].
  destruct r as [a|a|a| |]; cbn [presents is_reset] in Hr, Hreset.
  - unfold handleLogin. rewrite Hr, andb_false_r.
    rewrite accepted_server_send. portal. rewrite app_nil_r.
    repeat split; assumption.
  - unfold handleSave. rewrite Hpw. cbn [negb].
    rewrite accepted_server_send. portal. rewrite app_nil_r.
    repeat split; assumption.
  - unfold handleChangePasswordPost.
    destruct (negb (hasArg "oldpw" a) || negb (hasArg "newpw" a)
              || negb (hasArg "newpw2" a)).
    + rewrite accepted_server_send. portal. rewrite app_nil_r.
      repeat split; assumption.
    + cbv zeta. rewrite Hr. cbn [negb].
      rewrite accepted_server_send. portal. rewrite app_nil_r.
      repeat split; assumption.
  - discriminate Hreset.
  - unfold handleNotFound. rewrite !accepted_server_send. portal.
    rewrite !app_nil_r. repeat split; assumption.
Qed.

(** X18. Without the configuration password nothing is changed through the
    login, save and change-password forms: over any sequence of such
    requests (and requests for other addresses) in which none presents
    the current password, the record in memory, the EEPROM and the
    logged-out state stay as they were, the board does not restart and no
    request is answered with status 200. *)
Theorem portal_closed_without_password
    (p : Portal) (rs : list PortalRequest) :
  passwordOk p = false ->
  Forall (fun r => presents (configPassword (userConfig p)) r = false /\
                   is_reset r = false) rs ->
  userConfig (serve rs p) = userConfig p /\
  EEPROM (serve rs p) = EEPROM p /\
  passwordOk (serve rs p) = false /\
  restarted (serve rs p) = restarted p /\
  accepted (serve rs p) = accepted p.
Proof.
  intros Hpw Hrs. revert p Hpw Hrs. unfold serve.
  induction rs as [|r rs IH]; intros p Hpw Hrs.
  - repeat split; assumption.
  - apply Forall_cons in Hrs as [[Hr Hreset] Hrs]. cbn [foldl].
    destruct (handleClient_closed p r Hpw Hr Hreset)
      as (Hc & He & Hp & Hrst & Hacc).
    rewrite <- Hc in Hrs.
    destruct (IH (handleClient p r) Hp Hrs) as (Hc' & He' & Hp' & Hrst' & Hacc').
    rewrite Hc', He', Hp', Hrst', Hacc'. repeat split; assumption.
Qed.

(** X19. The factory reset is not behind the login: from any state of the
    portal the reset request clears the EEPROM and restarts the board,
    and the next start works with the default record, whose password
    [admin] opens the portal. *)
Theorem factory_reset_needs_no_login (p : Portal) :
  restarted p = false ->
  let p1 := handleClient p PostResetEEPROM in
  let p2 := loadConfig (power_on (EEPROM p1)) in
  EEPROM p1 = zero_config /\
  restarted p1 = true /\
  accepted p1 = accepted p ++ [Send 200 "text/html"
                 "<h1>EEPROM Reset!</h1><p>Restarting up...</p>."] /\
  userConfig p2 = default_config /\
  passwordOk p2 = false /\
  passwordOk (handleClient p2 (PostLogin [("cfgpass", "admin")])) = true.
Proof.
  intros Hrst. cbv zeta.
  assert (H1 : handleClient p PostResetEEPROM = handleResetEEPROM p)
    by (unfold handleClient; rewrite Hrst; reflexivity).
  rewrite H1. unfold handleResetEEPROM. cbv zeta.
  split; [reflexivity|]. split; [reflexivity|]. split.
  { unfold accepted. portal. rewrite List.filter_app. reflexivity. }
  split; [reflexivity|]. split; reflexivity.
Qed.

Lemma loadConfig_userConfig (p : Portal) :
  userConfig (loadConfig p)
  = let c := EEPROM p in
    let c :=
      if negb (configured c) then zero_config
      else mkConfig (strncpy (MAX_SSID_LEN - 1) (ssid c))
                    (strncpy (MAX_PASS_LEN - 1) (password c))
                    (strncpy (MAX_TOKEN_LEN - 1) (botToken c))
                    (strncpy (MAX_PASSCFG_LEN - 1) (configPassword c))
                    (strncpy (MAX_USERS_LEN - 1) (config_authorizedUsers c))
                    (configured c) in
    match configPassword c with
    | EmptyString => set_configPassword "admin" c
    | String _ _ => c
    end.
Proof. reflexivity. Qed.

Lemma loadConfig_unconfigured (p : Portal) :
  configured (EEPROM p) = false ->
  userConfig (loadConfig p) = default_config.
Proof.
  intros Hc. rewrite loadConfig_userConfig. cbv zeta.
  rewrite Hc. reflexivity.
Qed.

Lemma loadConfig_configured (p : Portal) :
  configured (EEPROM p) = true ->
  let c := EEPROM p in
  userConfig (loadConfig p)
  = mkConfig (strncpy (MAX_SSID_LEN - 1) (ssid c))
             (strncpy (MAX_PASS_LEN - 1) (password c))
             (strncpy (MAX_TOKEN_LEN - 1) (botToken c))
             (match strncpy (MAX_PASSCFG_LEN - 1) (configPassword c) with
              | EmptyString => "admin"
              | String x r => String x r
              end)
             (strncpy (MAX_USERS_LEN - 1) (config_authorizedUsers c))
             true.
Proof.
  intros Hc. cbv zeta. rewrite loadConfig_userConfig. cbv zeta.
  rewrite Hc. cbn [negb]. cbv iota.
  cbn [configPassword].
  destruct (strncpy (MAX_PASSCFG_LEN - 1) (configPassword (EEPROM p)));
    reflexivity.
Qed.

(** X17. For an EEPROM that holds a record with a proper flag (all that
    [saveConfig] and [resetEEPROM] write), [loadConfig] leaves a record
    whose texts fit their arrays and whose password is not empty; with
    the flag unset it is the default record (everything empty, password
    [admin]), whatever the texts in the EEPROM are, and a record that
    was saved with the flag, texts that fit and a password is read back
    as it was saved. The EEPROM itself is not written. *)
Theorem loadConfig_result (p : Portal) :
  let c := userConfig (loadConfig p) in
  fits_arrays c /\
  configPassword c <> EmptyString /\
  (configured (EEPROM p) = false -> c = default_config) /\
  (configured (EEPROM p) = true -> fits_arrays (EEPROM p) ->
   configPassword (EEPROM p) <> EmptyString -> c = EEPROM p) /\
  configured c = configured (EEPROM p) /\
  EEPROM (loadConfig p) = EEPROM p.
Proof.
  cbv zeta.
  destruct (configured (EEPROM p)) eqn:Hc.
  - rewrite (loadConfig_configured p Hc). cbv zeta.
    unfold fits_arrays. cbn [ssid password botToken configPassword
                             config_authorizedUsers configured].
    split; [|split; [|split; [|split; [|split]]]].
    + pose proof (strncpy_length (MAX_PASSCFG_LEN - 1)
                    (configPassword (EEPROM p))) as Hpw.
      repeat split; try apply strncpy_length.
      destruct (strncpy (MAX_PASSCFG_LEN - 1) (configPassword (EEPROM p)));
        [cbn; lia | exact Hpw].
    + destruct (strncpy (MAX_PASSCFG_LEN - 1) (configPassword (EEPROM p)));
        discriminate.
    + intros Hn. discriminate Hn.
    + intros _ (F1 & F2 & F3 & F4 & F5) Hne.
      rewrite !strncpy_fits by assumption.
      destruct (EEPROM p) as [s1 s2 s3 s4 s5 f]. cbn in *. subst f.
      destruct s4; [contradiction|reflexivity].
    + reflexivity.
    + reflexivity.
  - rewrite (loadConfig_unconfigured p Hc).
    split; [|split; [|split; [|split; [|split]]]].
    + unfold fits_arrays. cbn. lia.
    + discriminate.
    + reflexivity.
    + intros Hn. discriminate Hn.
    + reflexivity.
    + reflexivity.
Qed.

Lemma handleSave_config (p : Portal) (a : Args) :
  passwordOk p = true ->
  hasArg "ssid" a && hasArg "pass" a && hasArg "token" a && hasArg "users" a
  = true ->
  let c := mkConfig (strncpy (MAX_SSID_LEN - 1) (arg "ssid" a))
                    (strncpy (MAX_PASS_LEN - 1) (arg "pass" a))
                    (strncpy (MAX_TOKEN_LEN - 1) (arg "token" a))
                    (configPassword (userConfig p))
                    (strncpy (MAX_USERS_LEN - 1) (arg "users" a))
                    true in
  EEPROM (handleSave a p) = c /\
  userConfig (handleSave a p) = c /\
  restarted (handleSave a p) = true /\
  portal_clock (handleSave a p) = uadd (portal_clock p) 2000 /\
  accepted (handleSave a p)
  = accepted p ++ [Send 200 "text/html"
      "<h1>Configuration Saved!</h1><p>Il dispositivo si riavvia...</p>"].
Proof.
  intros Hok Hargs. cbv zeta. unfold handleSave. rewrite Hok, Hargs.
  cbn [negb]. cbv zeta. portal.
  repeat split. unfold accepted. portal. rewrite List.filter_app. reflexivity.
Qed.

(** X20. A save by a logged-in client with all four fields stores them, cut
    to the size of their arrays, with the flag set and the password
    kept, and restarts the board; the next start reads back exactly that
    record. *)
Theorem save_then_restart_round_trip (p : Portal) (a : Args) :
  restarted p = false ->
  passwordOk p = true ->
  hasArg "ssid" a && hasArg "pass" a && hasArg "token" a && hasArg "users" a
  = true ->
  configPassword (userConfig p) <> EmptyString ->
  (String.length (configPassword (userConfig p)) <= MAX_PASSCFG_LEN - 1)%nat ->
  let p1 := handleClient p (PostSave a) in
  let c := userConfig (loadConfig (power_on (EEPROM p1))) in
  restarted p1 = true /\
  EEPROM p1 = c /\
  ssid c = strncpy (MAX_SSID_LEN - 1) (arg "ssid" a) /\
  password c = strncpy (MAX_PASS_LEN - 1) (arg "pass" a) /\
  botToken c = strncpy (MAX_TOKEN_LEN - 1) (arg "token" a) /\
  config_authorizedUsers c = strncpy (MAX_USERS_LEN - 1) (arg "users" a) /\
  configPassword c = configPassword (userConfig p) /\
  configured c = true.
Proof.
  intros Hrst Hok Hargs Hne Hfit. cbv zeta.
  assert (H1 : handleClient p (PostSave a) = handleSave a p)
    by (unfold handleClient; rewrite Hrst; reflexivity).
  rewrite H1.
  destruct (handleSave_config p a Hok Hargs) as (He & _ & Hr & _).
  rewrite He, Hr.
  rewrite loadConfig_configured by reflexivity. cbv zeta.
  cbn [power_on EEPROM ssid password botToken configPassword
       config_authorizedUsers configured].
  rewrite !strncpy_idem, (strncpy_fits _ _ Hfit).
  destruct (configPassword (userConfig p)) as [|x r]; [contradiction|].
  repeat split.
Qed.

Lemma handleLogin_passwordOk (p : Portal) (pw : string) :
  passwordOk (handleLogin [("cfgpass", pw)] p)
  = passwordOk p || String.eqb pw (configPassword (userConfig p)).
Proof.
  unfold handleLogin. cbn [hasArg arg].
  change (String.eqb "cfgpass" "cfgpass") with true. cbv iota.
  cbn [andb].
  destruct (String.eqb pw (configPassword (userConfig p))); portal.
  - rewrite orb_true_r. reflexivity.
  - rewrite orb_false_r. reflexivity.
Qed.

(** X21. The password change asks for the current password and not for a
    login, and does not log the client in. The new password is kept cut
    to 31 characters, so afterwards a login succeeds exactly with that
    cut text. After a restart it remains the password only on a
    configured board and when it is not empty; otherwise the password is
    [admin] again. *)
Theorem change_password_effect (p : Portal) (a : Args) :
  restarted p = false ->
  hasArg "oldpw" a && hasArg "newpw" a && hasArg "newpw2" a = true ->
  arg "oldpw" a = configPassword (userConfig p) ->
  arg "newpw" a = arg "newpw2" a ->
  let kept := strncpy (MAX_PASSCFG_LEN - 1) (arg "newpw" a) in
  let p1 := handleClient p (PostChangePassword a) in
  configPassword (userConfig p1) = kept /\
  passwordOk p1 = passwordOk p /\
  restarted p1 = false /\
  (forall pw, passwordOk p = false ->
     (passwordOk (handleLogin [("cfgpass", pw)] p1) = true <-> pw = kept)) /\
  configPassword (userConfig (loadConfig (power_on (EEPROM p1))))
  = (if configured (userConfig p) && negb (is_empty kept)
     then kept else "admin").
Proof.
  intros Hrst Hargs Hold Hnew. cbv zeta.
  assert (H1 : handleClient p (PostChangePassword a)
               = handleChangePasswordPost a p)
    by (unfold handleClient; rewrite Hrst; reflexivity).
  rewrite H1. clear H1.
  apply andb_prop in Hargs as [Hargs H3]. apply andb_prop in Hargs as [H1 H2].
  set (kept := strncpy (MAX_PASSCFG_LEN - 1) (arg "newpw" a)).
  assert (Hp1 : handleChangePasswordPost a p
    = server_send
        (Send 200 "text/html"
           ("<h1>Password updated!</h1>"
            +:+ "<a href=" +:+ dq +:+ "/" +:+ dq +:+ " class=" +:+ dq
            +:+ "button-link" +:+ dq +:+ ">Back to configuration</a>"))
        (saveConfig
           (set_userConfig (set_configPassword kept (userConfig p)) p))).
  { unfold handleChangePasswordPost. rewrite H1, H2, H3. cbn [negb orb].
    cbv zeta. rewrite Hold, String.eqb_refl. cbn [negb].
    rewrite <- Hnew, String.eqb_refl. cbn [negb]. reflexivity. }
  rewrite Hp1. generalize (Send 200 "text/html"
           ("<h1>Password updated!</h1>"
            +:+ "<a href=" +:+ dq +:+ "/" +:+ dq +:+ " class=" +:+ dq
            +:+ "button-link" +:+ dq +:+ ">Back to configuration</a>")).
  intros o. portal.
  split; [reflexivity|]. split; [reflexivity|]. split; [exact Hrst|]. split.
  - intros pw Hout. rewrite handleLogin_passwordOk. portal. rewrite Hout.
    cbn [orb]. apply String.eqb_eq.
  - rewrite loadConfig_userConfig. cbv zeta. cbn [power_on EEPROM].
    change (configured (set_configPassword kept (userConfig p)))
      with (configured (userConfig p)).
    change (configPassword (set_configPassword kept (userConfig p)))
      with kept.
    assert (Hk : strncpy (MAX_PASSCFG_LEN - 1) kept = kept)
      by (unfold kept; apply strncpy_idem).
    rewrite Hk. clearbody kept.
    destruct (configured (userConfig p)); cbn [negb andb].
    + cbn [configPassword]. destruct kept; reflexivity.
    + reflexivity.
Qed.

(** X22. From the form to the gate: chat ids saved through the portal as
    decimal numbers separated by commas are, after the restart, exactly
    the ids the dispatcher authorizes. *)
Theorem saved_ids_are_the_authorized_ids
    (p : Portal) (a : Args) (w : World) (ids : list Z) (id : Z) :
  restarted p = false ->
  passwordOk p = true ->
  hasArg "ssid" a && hasArg "pass" a && hasArg "token" a && hasArg "users" a
  = true ->
  arg "users" a = join_ids ids ->
  (length ids <= MAX_USERS)%nat ->
  (String.length (join_ids ids) <= MAX_USERS_LEN - 1)%nat ->
  Forall in_long ids ->
  in_long id ->
  length (authorizedUsers w) = MAX_USERS ->
  let w' := registry_at_boot (EEPROM (handleClient p (PostSave a))) w in
  take (numAuthorizedUsers w') (authorizedUsers w') = ids /\
  (fst (isAuthorizedUser (toInt (String_of id)) w') = true <-> In id ids).
Proof.
  intros Hrst Hok Hargs Husers Hn Hfit Hids Hid Hlen. cbv zeta.
  assert (H1 : handleClient p (PostSave a) = handleSave a p)
    by (unfold handleClient; rewrite Hrst; reflexivity).
  rewrite H1.
  destruct (handleSave_config p a Hok Hargs) as (He & _).
  unfold registry_at_boot. rewrite He.
  rewrite loadConfig_configured by reflexivity. cbv zeta.
  cbn [power_on EEPROM config_authorizedUsers].
  rewrite strncpy_idem, Husers, (strncpy_fits _ _ Hfit).
  destruct (join_ids_loaded w ids id Hlen Hn Hfit) as (Htake & Hauth).
  rewrite (clamp_long_in_range ids Hids) in Htake, Hauth.
  rewrite (clamp_long_id id Hid) in Hauth.
  split; assumption.
Qed.

(** ** What the dispatcher never touches *)

Lemma installation_kept_refl w : installation_kept w w.
Proof. repeat split; auto. Qed.

Lemma installation_kept_trans w0 w1 w2 :
  installation_kept w0 w1 -> installation_kept w1 w2 ->
  installation_kept w0 w2.
Proof.
  intros (A1 & A2 & A3 & A4 & A5 & A6 & A7 & A8)
         (B1 & B2 & B3 & B4 & B5 & B6 & B7 & B8).
  unfold installation_kept.
  rewrite B1, B2, B3, B4, B5, B6. repeat split; auto.
Qed.

Lemma installation_kept_trace w tr : installation_kept w (set_trace tr w).
Proof. repeat split; auto. Qed.

Ltac kept_by_push :=
  unfold installation_kept; push;
  rewrite ?logOperation_length by (push; assumption);
  repeat split; auto.

Lemma processCommand_kept chat text name id w :
  length (operationLog w) = LOG_SIZE ->
  installation_kept w (processCommand chat text name id w).
Proof.
  intros Hlen. unfold processCommand.
  destruct sendMainMenu_emit as (menu & kb & Hmenu).
  destruct (String.eqb text "/start");
    [unfold sendWelcomeMessage; cbv zeta; rewrite Hmenu; hide_texts;
     kept_by_push|].
  destruct (String.eqb text "/open");
    [unfold handleOpenDoor; cbv zeta; rewrite Hmenu; hide_texts;
     kept_by_push|].
  destruct (String.eqb text "/light");
    [unfold handleTurnOnLight; cbv zeta; rewrite Hmenu; hide_texts;
     kept_by_push|].
  destruct (String.eqb text "/status");
    [unfold handleStateSystem; cbv zeta; rewrite Hmenu; hide_texts;
     kept_by_push|].
  destruct (String.eqb text "/log");
    [unfold handleShowLog; cbv zeta; rewrite Hmenu; hide_texts;
     kept_by_push|].
  destruct (String.eqb text "/help");
    [unfold sendHelpMessage; cbv zeta; rewrite Hmenu; hide_texts;
     kept_by_push|].
  destruct (String.eqb text "/menu"); [rewrite Hmenu; kept_by_push|].
  unfold handleUnknownCommand. cbv zeta. hide_texts. kept_by_push.
Qed.

Lemma processCallback_kept chat data name id query w :
  length (operationLog w) = LOG_SIZE ->
  installation_kept w (processCallback chat data name id query w).
Proof.
  intros Hlen. unfold processCallback.
  destruct sendMainMenu_emit as (menu & kb & Hmenu).
  destruct (String.eqb data "OPEN_DOOR");
    [unfold handleOpenDoorCallback; cbv zeta; rewrite Hmenu; hide_texts;
     kept_by_push|].
  destruct (String.eqb data "LIGHT_ON");
    [unfold handleLightOnCallback; cbv zeta; rewrite Hmenu; hide_texts;
     kept_by_push|].
  destruct (String.eqb data "STATE_SYSTEM");
    [unfold handleStateSystemCallback; cbv zeta; rewrite Hmenu; hide_texts;
     kept_by_push|].
  destruct (String.eqb data "SHOW_LOG");
    [unfold handleShowLogCallback; cbv zeta; rewrite Hmenu; hide_texts;
     kept_by_push|].
  destruct (String.eqb data "HELP");
    [unfold handleHelpCallback, sendHelpMessage; cbv zeta; rewrite Hmenu;
     hide_texts; kept_by_push|].
  kept_by_push.
Qed.

Lemma handleMessage_kept w m :
  length (operationLog w) = LOG_SIZE ->
  installation_kept w (handleMessage w m).
Proof.
  intros Hlen. unfold handleMessage.
  destruct (isAuthorizedUser_trace (toInt (chat_id m)) w) as (tr & Hsnd & Hq).
  destruct (isAuthorizedUser (toInt (chat_id m)) w) as [ok w1].
  cbn [snd] in Hsnd. subst w1.
  destruct (String.eqb (msg_type m) "message").
  - destruct ok; cbn [negb].
    + eapply installation_kept_trans; [apply installation_kept_trace|].
      apply processCommand_kept. exact Hlen.
    + unfold handleUnauthorizedUser. cbv zeta. hide_texts. kept_by_push.
  - destruct (String.eqb (msg_type m) "callback_query").
    + destruct ok; cbn [negb].
      * eapply installation_kept_trans; [apply installation_kept_trace|].
        apply processCallback_kept. exact Hlen.
      * kept_by_push.
    + apply installation_kept_refl.
Qed.

Lemma handleNewMessages_kept ms : forall w,
  length (operationLog w) = LOG_SIZE ->
  installation_kept w (handleNewMessages ms w).
Proof.
  unfold handleNewMessages.
  induction ms as [|m ms IH]; intros w Hlen; [apply installation_kept_refl|].
  cbn [foldl].
  pose proof (handleMessage_kept w m Hlen) as Hk.
  eapply installation_kept_trans; [exact Hk|]. apply IH.
  destruct Hk as (_ & _ & _ & _ & _ & Hl & _). rewrite Hl. exact Hlen.
Qed.

(** X7. Nothing that arrives from the bot, from an authorized chat or not,
    changes the registry of authorized users, the state of the push
    button or the length of the log, and no handler switches a relay
    off: that is left to [handleTimeouts]. *)
Theorem telegram_events_keep_installation (ms : list Message) (w : World) :
  length (operationLog w) = LOG_SIZE ->
  installation_kept w (handleNewMessages ms w) /\
  (forall id, fst (isAuthorizedUser id (handleNewMessages ms w))
              = fst (isAuthorizedUser id w)).
Proof.
  intros Hlen. pose proof (handleNewMessages_kept ms w Hlen) as Hk.
  split; [exact Hk|]. intros id.
  destruct Hk as (_ & Hu & Hn & _).
  unfold isAuthorizedUser. cbv zeta.
  change (numAuthorizedUsers
            (emit (SerialPrintln (String_of id))
               (emit (SerialPrint "Authorization check for chat_id: ")
                  (handleNewMessages ms w))))
    with (numAuthorizedUsers (handleNewMessages ms w)).
  change (numAuthorizedUsers
            (emit (SerialPrintln (String_of id))
               (emit (SerialPrint "Authorization check for chat_id: ") w)))
    with (numAuthorizedUsers w).
  rewrite Hn. apply scan_users_fst_ext. fields. exact Hu.
Qed.

(** ** The main loop *)

(** Projections through the setters the loop adds. *)

Lemma set_telegramOk_clock v w : clock (set_telegramOk v w) = clock w.
Proof. reflexivity. Qed.

Lemma set_telegramOk_doorRelay v w : doorRelay (set_telegramOk v w) = doorRelay w.
Proof. reflexivity. Qed.

Lemma set_telegramOk_lightRelay v w : lightRelay (set_telegramOk v w) = lightRelay w.
Proof. reflexivity. Qed.

Lemma set_telegramOk_doorOpenTime v w : doorOpenTime (set_telegramOk v w) = doorOpenTime w.
Proof. reflexivity. Qed.

Lemma set_telegramOk_lightOpenTime v w : lightOpenTime (set_telegramOk v w) = lightOpenTime w.
Proof. reflexivity. Qed.

Lemma set_telegramOk_buttonInterruptFlag v w : buttonInterruptFlag (set_telegramOk v w) = buttonInterruptFlag w.
Proof. reflexivity. Qed.

Lemma set_telegramOk_lastInterruptTime v w : lastInterruptTime (set_telegramOk v w) = lastInterruptTime w.
Proof. reflexivity. Qed.

Lemma set_telegramOk_userConfig_authorizedUsers v w : userConfig_authorizedUsers (set_telegramOk v w) = userConfig_authorizedUsers w.
Proof. reflexivity. Qed.

Lemma set_telegramOk_authorizedUsers v w : authorizedUsers (set_telegramOk v w) = authorizedUsers w.
Proof. reflexivity. Qed.

Lemma set_telegramOk_numAuthorizedUsers v w : numAuthorizedUsers (set_telegramOk v w) = numAuthorizedUsers w.
Proof. reflexivity. Qed.

Lemma set_telegramOk_operationLog v w : operationLog (set_telegramOk v w) = operationLog w.
Proof. reflexivity. Qed.

Lemma set_telegramOk_wifiOk v w : wifiOk (set_telegramOk v w) = wifiOk w.
Proof. reflexivity. Qed.

Lemma set_telegramOk_lastDisplayContent v w : lastDisplayContent (set_telegramOk v w) = lastDisplayContent w.
Proof. reflexivity. Qed.

Lemma set_telegramOk_radio v w : radio (set_telegramOk v w) = radio w.
Proof. reflexivity. Qed.

Lemma set_telegramOk_trace v w : trace (set_telegramOk v w) = trace w.
Proof. reflexivity. Qed.

Lemma set_wifiOk_clock v w : clock (set_wifiOk v w) = clock w.
Proof. reflexivity. Qed.

Lemma set_wifiOk_doorRelay v w : doorRelay (set_wifiOk v w) = doorRelay w.
Proof. reflexivity. Qed.

Lemma set_wifiOk_lightRelay v w : lightRelay (set_wifiOk v w) = lightRelay w.
Proof. reflexivity. Qed.

Lemma set_wifiOk_doorOpenTime v w : doorOpenTime (set_wifiOk v w) = doorOpenTime w.
Proof. reflexivity. Qed.

Lemma set_wifiOk_lightOpenTime v w : lightOpenTime (set_wifiOk v w) = lightOpenTime w.
Proof. reflexivity. Qed.

Lemma set_wifiOk_buttonInterruptFlag v w : buttonInterruptFlag (set_wifiOk v w) = buttonInterruptFlag w.
Proof. reflexivity. Qed.

Lemma set_wifiOk_lastInterruptTime v w : lastInterruptTime (set_wifiOk v w) = lastInterruptTime w.
Proof. reflexivity. Qed.

Lemma set_wifiOk_userConfig_authorizedUsers v w : userConfig_authorizedUsers (set_wifiOk v w) = userConfig_authorizedUsers w.
Proof. reflexivity. Qed.

Lemma set_wifiOk_authorizedUsers v w : authorizedUsers (set_wifiOk v w) = authorizedUsers w.
Proof. reflexivity. Qed.

Lemma set_wifiOk_numAuthorizedUsers v w : numAuthorizedUsers (set_wifiOk v w) = numAuthorizedUsers w.
Proof. reflexivity. Qed.

Lemma set_wifiOk_operationLog v w : operationLog (set_wifiOk v w) = operationLog w.
Proof. reflexivity. Qed.

Lemma set_wifiOk_telegramOk v w : telegramOk (set_wifiOk v w) = telegramOk w.
Proof. reflexivity. Qed.

Lemma set_wifiOk_lastDisplayContent v w : lastDisplayContent (set_wifiOk v w) = lastDisplayContent w.
Proof. reflexivity. Qed.

Lemma set_wifiOk_radio v w : radio (set_wifiOk v w) = radio w.
Proof. reflexivity. Qed.

Lemma set_wifiOk_trace v w : trace (set_wifiOk v w) = trace w.
Proof. reflexivity. Qed.

Lemma at_time_doorRelay v w : doorRelay (at_time v w) = doorRelay w.
Proof. reflexivity. Qed.

Lemma at_time_lightRelay v w : lightRelay (at_time v w) = lightRelay w.
Proof. reflexivity. Qed.

Lemma at_time_doorOpenTime v w : doorOpenTime (at_time v w) = doorOpenTime w.
Proof. reflexivity. Qed.

Lemma at_time_lightOpenTime v w : lightOpenTime (at_time v w) = lightOpenTime w.
Proof. reflexivity. Qed.

Lemma at_time_buttonInterruptFlag v w : buttonInterruptFlag (at_time v w) = buttonInterruptFlag w.
Proof. reflexivity. Qed.

Lemma at_time_lastInterruptTime v w : lastInterruptTime (at_time v w) = lastInterruptTime w.
Proof. reflexivity. Qed.

Lemma at_time_userConfig_authorizedUsers v w : userConfig_authorizedUsers (at_time v w) = userConfig_authorizedUsers w.
Proof. reflexivity. Qed.

Lemma at_time_authorizedUsers v w : authorizedUsers (at_time v w) = authorizedUsers w.
Proof. reflexivity. Qed.

Lemma at_time_numAuthorizedUsers v w : numAuthorizedUsers (at_time v w) = numAuthorizedUsers w.
Proof. reflexivity. Qed.

Lemma at_time_operationLog v w : operationLog (at_time v w) = operationLog w.
Proof. reflexivity. Qed.

Lemma at_time_wifiOk v w : wifiOk (at_time v w) = wifiOk w.
Proof. reflexivity. Qed.

Lemma at_time_telegramOk v w : telegramOk (at_time v w) = telegramOk w.
Proof. reflexivity. Qed.

Lemma at_time_lastDisplayContent v w : lastDisplayContent (at_time v w) = lastDisplayContent w.
Proof. reflexivity. Qed.

Lemma at_time_radio v w : radio (at_time v w) = radio w.
Proof. reflexivity. Qed.

Lemma at_time_trace v w : trace (at_time v w) = trace w.
Proof. reflexivity. Qed.

#[local] Hint Rewrite set_telegramOk_clock set_telegramOk_doorRelay set_telegramOk_lightRelay set_telegramOk_doorOpenTime set_telegramOk_lightOpenTime set_telegramOk_buttonInterruptFlag set_telegramOk_lastInterruptTime set_telegramOk_userConfig_authorizedUsers set_telegramOk_authorizedUsers set_telegramOk_numAuthorizedUsers set_telegramOk_operationLog set_telegramOk_wifiOk set_telegramOk_lastDisplayContent set_telegramOk_radio set_telegramOk_trace set_wifiOk_clock set_wifiOk_doorRelay set_wifiOk_lightRelay set_wifiOk_doorOpenTime set_wifiOk_lightOpenTime set_wifiOk_buttonInterruptFlag set_wifiOk_lastInterruptTime set_wifiOk_userConfig_authorizedUsers set_wifiOk_authorizedUsers set_wifiOk_numAuthorizedUsers set_wifiOk_operationLog set_wifiOk_telegramOk set_wifiOk_lastDisplayContent set_wifiOk_radio set_wifiOk_trace at_time_doorRelay at_time_lightRelay at_time_doorOpenTime at_time_lightOpenTime at_time_buttonInterruptFlag at_time_lastInterruptTime at_time_userConfig_authorizedUsers at_time_authorizedUsers at_time_numAuthorizedUsers at_time_operationLog at_time_wifiOk at_time_telegramOk at_time_lastDisplayContent at_time_radio at_time_trace : world.
Lemma at_time_clock t w : clock (at_time t w) = t.
Proof. reflexivity. Qed.

#[local] Hint Rewrite at_time_clock : world.

Lemma handleTimeouts_frame w :
  userConfig_authorizedUsers (handleTimeouts w) = userConfig_authorizedUsers w /\
  authorizedUsers (handleTimeouts w) = authorizedUsers w /\
  numAuthorizedUsers (handleTimeouts w) = numAuthorizedUsers w /\
  buttonInterruptFlag (handleTimeouts w) = buttonInterruptFlag w /\
  lastInterruptTime (handleTimeouts w) = lastInterruptTime w /\
  operationLog (handleTimeouts w) = operationLog w /\
  clock (handleTimeouts w) = clock w.
Proof.
  rewrite handleTimeouts_cases. cbv zeta.
  destruct ((0 <? doorOpenTime w)
            && (DOOR_TIMEOUT <? usub (clock w) (doorOpenTime w)));
    destruct ((0 <? lightOpenTime w)
              && (LIGHT_TIMEOUT <? usub (clock w) (lightOpenTime w)));
    repeat split.
Qed.

Ltac board :=
  cbn [world lastTimeBotRan resetButtonPressTime configModeRequested
       lastBlink ledState statusLed lastCheck reconnects
       set_world set_lastTimeBotRan set_resetButtonPressTime
       set_configModeRequested set_lastBlink set_ledState set_statusLed
       set_lastCheck set_reconnects on_world board_at].

Lemma blinkStatusLED_frame b :
  world (blinkStatusLED b) = world b /\
  resetButtonPressTime (blinkStatusLED b) = resetButtonPressTime b /\
  configModeRequested (blinkStatusLED b) = configModeRequested b /\
  lastTimeBotRan (blinkStatusLED b) = lastTimeBotRan b.
Proof.
  unfold blinkStatusLED.
  destruct (1000 <? usub (millis (world b)) (lastBlink b)); repeat split.
Qed.

(** The display refresh and the two connection flags are all that
    [checkWiFiConnection] changes in the globals of [World]. *)
Lemma checkWiFiConnection_frame b :
  same_core (world b) (world (checkWiFiConnection b)) /\
  clock (world (checkWiFiConnection b)) = clock (world b) /\
  resetButtonPressTime (checkWiFiConnection b) = resetButtonPressTime b /\
  configModeRequested (checkWiFiConnection b) = configModeRequested b /\
  lastTimeBotRan (checkWiFiConnection b) = lastTimeBotRan b.
Proof.
  unfold checkWiFiConnection.
  destruct (30000 <? usub (millis (world b)) (lastCheck b));
    [|split; [apply same_core_refl | repeat split]].
  cbv zeta.
  destruct (negb (wifiConnected (radio (world b)))); board.
  - split; [core_by_push|]. split; [push; reflexivity | repeat split].
  - split; [core_by_push|]. split; [push; reflexivity | repeat split].
Qed.

Lemma handle_updates_kept (answers : list Updates) : forall u w,
  length (operationLog w) = LOG_SIZE ->
  installation_kept w (handle_updates answers u w).
Proof.
  induction answers as [|u' rest IH]; intros u w Hlen; cbn [handle_updates].
  - destruct (numNewMessages u =? 0); [apply installation_kept_refl|].
    cbv zeta.
    pose proof (handleNewMessages_kept
                  (take (Z.to_nat (numNewMessages u)) (messages u)) w Hlen)
      as Hk.
    eapply installation_kept_trans; [exact Hk|].
    generalize (handleNewMessages
                  (take (Z.to_nat (numNewMessages u)) (messages u)) w).
    intros w1. kept_by_push.
  - destruct (numNewMessages u =? 0); [apply installation_kept_refl|].
    cbv zeta.
    pose proof (handleNewMessages_kept
                  (take (Z.to_nat (numNewMessages u)) (messages u)) w Hlen)
      as Hk.
    eapply installation_kept_trans; [exact Hk|].
    assert (Hlen1 : length (operationLog
                      (handleNewMessages
                         (take (Z.to_nat (numNewMessages u)) (messages u)) w))
                    = LOG_SIZE).
    { destruct Hk as (_ & _ & _ & _ & _ & Hl & _). rewrite Hl. exact Hlen. }
    revert Hlen1.
    generalize (handleNewMessages
                  (take (Z.to_nat (numNewMessages u)) (messages u)) w).
    intros w1 Hlen1.
    eapply installation_kept_trans; [|apply IH; push; exact Hlen1].
    kept_by_push.
Qed.

Lemma checkTelegramMessages_kept answers w :
  length (operationLog w) = LOG_SIZE ->
  installation_kept w (checkTelegramMessages answers w).
Proof.
  intros Hlen. unfold checkTelegramMessages. cbv zeta.
  eapply installation_kept_trans; [|apply handle_updates_kept; push; exact Hlen].
  kept_by_push.
Qed.

Lemma checkTelegramMessages_idle w :
  checkTelegramMessages [] w = updateDisplay (set_telegramOk true w).
Proof. reflexivity. Qed.

Lemma loop_returns r a b b1 :
  loop r a b = Returns b1 ->
  exists b0, world b0 = world b /\ lastTimeBotRan b0 = lastTimeBotRan b /\
             b1 = loop_body a b0.
Proof.
  unfold loop. intros H.
  destruct r.
  - destruct (resetButtonPressTime b =? 0).
    + injection H as <-.
      exists (set_resetButtonPressTime (millis (world b)) b). repeat split.
    + destruct ((3000 <? usub (millis (world b)) (resetButtonPressTime b))
                && negb (configModeRequested b)); [discriminate|].
      injection H as <-. exists b. repeat split.
  - injection H as <-.
    exists (set_configModeRequested false (set_resetButtonPressTime 0 b)).
    repeat split.
Qed.

Lemma loop_body_stages a b :
  loop_body a b = after_sweep (on_world handleTimeouts (poll_stage a b)).
Proof. reflexivity. Qed.

Lemma poll_stage_kept a b :
  length (operationLog (world b)) = LOG_SIZE ->
  installation_kept (world b) (world (poll_stage a b)) /\
  resetButtonPressTime (poll_stage a b) = resetButtonPressTime b /\
  configModeRequested (poll_stage a b) = configModeRequested b.
Proof.
  intros Hlen. unfold poll_stage.
  destruct (uadd (lastTimeBotRan b) BOT_REQUEST_DELAY <? millis (world b)).
  - cbv zeta. board. split; [|split; reflexivity].
    apply checkTelegramMessages_kept. exact Hlen.
  - split; [apply installation_kept_refl | split; reflexivity].
Qed.

Lemma poll_stage_idle b :
  same_core (world b) (world (poll_stage [] b)) /\
  clock (world (poll_stage [] b)) = clock (world b).
Proof.
  unfold poll_stage.
  destruct (uadd (lastTimeBotRan b) BOT_REQUEST_DELAY <? millis (world b)).
  - cbv zeta. board. rewrite checkTelegramMessages_idle.
    split; [core_by_push | push; reflexivity].
  - split; [apply same_core_refl | reflexivity].
Qed.

(** Without a pending button press the rest of the pass leaves relays,
    timestamps, log and clock as the sweep left them. *)
Lemma after_sweep_idle b :
  buttonInterruptFlag (world b) = false ->
  same_core (world b) (world (after_sweep b)) /\
  clock (world (after_sweep b)) = clock (world b).
Proof.
  intros Hflag. unfold after_sweep.
  destruct (blinkStatusLED_frame b) as (Hw & _).
  destruct (checkWiFiConnection_frame (blinkStatusLED b))
    as (Hcore & Hclk & _).
  rewrite Hw in Hcore, Hclk.
  set (b3 := checkWiFiConnection (blinkStatusLED b)) in *.
  assert (Hf3 : buttonInterruptFlag (world b3) = false).
  { destruct Hcore as (_ & _ & _ & _ & _ & _ & _ & Hf & _).
    rewrite Hf. exact Hflag. }
  board. unfold checkButtonOpenDoor. rewrite Hf3.
  generalize dependent (world b3). intros w3 Hcore Hclk _.
  split.
  - eapply same_core_step; [exact Hcore|]. core_by_push.
  - push. exact Hclk.
Qed.

(** With a pending button press the pass ends with the door relay
    energised by [openDoorFromButton]. *)
Lemma after_sweep_button b :
  buttonInterruptFlag (world b) = true ->
  length (operationLog (world b)) = LOG_SIZE ->
  let w' := world (after_sweep b) in
  doorRelay w' = true /\ doorOpenTime w' = clock (world b) /\
  clock w' = uadd (clock (world b)) 1250 /\
  buttonInterruptFlag w' = false /\
  operationLog w'
  = mkLogEntry (clock (world b)) 0 "DOOR_BUTTON" "Button"
      :: take 4 (operationLog (world b)).
Proof.
  intros Hflag Hlen. cbv zeta. unfold after_sweep.
  destruct (blinkStatusLED_frame b) as (Hw & _).
  destruct (checkWiFiConnection_frame (blinkStatusLED b))
    as (Hcore & Hclk & _).
  rewrite Hw in Hcore, Hclk.
  set (b3 := checkWiFiConnection (blinkStatusLED b)) in *.
  destruct Hcore as (_ & _ & _ & _ & Hlog & _ & _ & Hf & _).
  rewrite Hflag in Hf. rewrite <- Hlog in Hlen.
  board. unfold checkButtonOpenDoor. rewrite Hf, <- Hlog, <- Hclk.
  revert Hlen. generalize (world b3). intros w3 Hlen.
  assert (Hlen' : length (operationLog (set_buttonInterruptFlag false w3))
                  = LOG_SIZE) by exact Hlen.
  destruct (openDoorFromButton_effect _ Hlen') as (Hd & Ht & Hc).
  destruct (openDoorFromButton_log _ Hlen') as (Hl & Hfl).
  push. rewrite Hd, Ht, Hc, Hl, Hfl. repeat split.
Qed.

Lemma poll_stage_reset_state a b :
  resetButtonPressTime (poll_stage a b) = resetButtonPressTime b /\
  configModeRequested (poll_stage a b) = configModeRequested b.
Proof.
  unfold poll_stage.
  destruct (uadd (lastTimeBotRan b) BOT_REQUEST_DELAY <? millis (world b));
    split; reflexivity.
Qed.

Lemma loop_body_reset_state a b :
  resetButtonPressTime (loop_body a b) = resetButtonPressTime b /\
  configModeRequested (loop_body a b) = configModeRequested b.
Proof.
  rewrite loop_body_stages. unfold after_sweep. board.
  destruct (poll_stage_reset_state a b) as (Hr & Hc).
  set (b1 := on_world handleTimeouts (poll_stage a b)).
  assert (Hr1 : resetButtonPressTime b1 = resetButtonPressTime b)
    by (subst b1; board; exact Hr).
  assert (Hc1 : configModeRequested b1 = configModeRequested b)
    by (subst b1; board; exact Hc).
  clearbody b1.
  destruct (blinkStatusLED_frame b1) as (_ & Hr2 & Hc2 & _).
  destruct (checkWiFiConnection_frame (blinkStatusLED b1))
    as (_ & _ & Hr3 & Hc3 & _).
  rewrite Hr3, Hc3, Hr2, Hc2. split; assumption.
Qed.

Lemma passes_app ps qs : forall b,
  passes (ps ++ qs) b
  = match passes ps b with
    | Returns b' => passes qs b'
    | ConfigMode b' => ConfigMode b'
    end.
Proof.
  induction ps as [|p ps IH]; intros b; [reflexivity|].
  cbn [app passes].
  destruct (loop (pass_reset_low p) (pass_answers p) (board_at (pass_time p) b));
    [apply IH | reflexivity].
Qed.

Lemma loop_held t a b :
  resetButtonPressTime b <> 0 ->
  configModeRequested b = false ->
  loop true a (board_at t b)
  = if 3000 <? usub t (resetButtonPressTime b)
    then ConfigMode
           (on_world config_mode_signal
              (set_configModeRequested true (board_at t b)))
    else Returns (loop_body a (board_at t b)).
Proof.
  intros Hne Hc. unfold loop.
  change (resetButtonPressTime (board_at t b)) with (resetButtonPressTime b).
  change (configModeRequested (board_at t b)) with (configModeRequested b).
  change (millis (world (board_at t b))) with t.
  apply Z.eqb_neq in Hne. rewrite Hne, Hc. cbn [negb].
  rewrite andb_true_r. reflexivity.
Qed.

Lemma passes_held t0 ps : forall b,
  resetButtonPressTime b = t0 -> t0 <> 0 ->
  configModeRequested b = false ->
  Forall (fun q => pass_reset_low q = true /\ usub (pass_time q) t0 <= 3000)
         ps ->
  exists b', passes ps b = Returns b' /\ resetButtonPressTime b' = t0 /\
             configModeRequested b' = false.
Proof.
  induction ps as [|q ps IH]; intros b Hr Hne Hc Hps.
  - exists b. repeat split; assumption.
  - apply Forall_cons in Hps as [[Hlow Hshort] Hps]. cbn [passes].
    rewrite Hlow, loop_held by (try rewrite Hr; assumption).
    rewrite Hr.
    assert (Hno : (3000 <? usub (pass_time q) t0) = false)
      by (apply Z.ltb_ge; exact Hshort).
    rewrite Hno.
    destruct (loop_body_reset_state (pass_answers q)
                (board_at (pass_time q) b)) as (Hr' & Hc').
    apply IH; [rewrite Hr'; exact Hr | exact Hne | rewrite Hc'; exact Hc
              | exact Hps].
Qed.

Lemma config_mode_signal_trace w :
  trace (config_mode_signal w)
  = trace w ++ [Tone 1000 (Some 500); Tone 1500 (Some 500); NoTone].
Proof.
  unfold config_mode_signal. cbv zeta. push. rewrite <- !app_assoc.
  reflexivity.
Qed.

(** X23. The configuration mode is entered by holding the reset button: from
    the released state, the first pass that reads the pin low notes the
    clock; while the pin stays low and no more than 3000 ms have gone by
    the passes return; a pass after more than 3000 ms enters the
    configuration mode, with its two-tone signal. A pass that reads the
    pin high instead forgets the noted time. *)
Theorem long_press_enters_config_mode
    (b : Board) (t0 : Z) (a0 : list Updates) (ps : list Pass) (p q : Pass) :
  resetButtonPressTime b = 0 ->
  configModeRequested b = false ->
  t0 <> 0 ->
  Forall (fun x => pass_reset_low x = true /\ usub (pass_time x) t0 <= 3000)
         ps ->
  pass_reset_low p = true ->
  3000 < usub (pass_time p) t0 ->
  pass_reset_low q = false ->
  let held := mkPass t0 true a0 :: ps in
  in_config_mode (passes held b) = false /\
  resetButtonPressTime (board_of (passes held b)) = t0 /\
  in_config_mode (passes (held ++ [p]) b) = true /\
  trace (world (board_of (passes (held ++ [p]) b)))
  = trace (world (board_of (passes held b)))
      ++ [Tone 1000 (Some 500); Tone 1500 (Some 500); NoTone] /\
  in_config_mode (passes (held ++ [q]) b) = false /\
  resetButtonPressTime (board_of (passes (held ++ [q]) b)) = 0.
Proof.
  intros Hr Hc Hne Hps Hlow Hlong Hhigh. cbv zeta.
  set (b0 := loop_body a0
               (set_resetButtonPressTime t0 (board_at t0 b))).
  assert (Hfirst : loop true a0 (board_at t0 b) = Returns b0).
  { unfold loop.
    change (resetButtonPressTime (board_at t0 b))
      with (resetButtonPressTime b).
    rewrite Hr. reflexivity. }
  destruct (loop_body_reset_state a0
              (set_resetButtonPressTime t0 (board_at t0 b))) as (Hr0 & Hc0).
  fold b0 in Hr0, Hc0.
  change (resetButtonPressTime
            (set_resetButtonPressTime t0 (board_at t0 b))) with t0 in Hr0.
  change (configModeRequested
            (set_resetButtonPressTime t0 (board_at t0 b)))
    with (configModeRequested b) in Hc0.
  rewrite Hc in Hc0. clearbody b0.
  destruct (passes_held t0 ps b0 Hr0 Hne Hc0 Hps) as (b1 & Hrun & Hr1 & Hc1).
  assert (Hheld : passes (mkPass t0 true a0 :: ps) b = Returns b1).
  { cbn [passes pass_reset_low pass_answers pass_time].
    rewrite Hfirst. exact Hrun. }
  rewrite !passes_app, Hheld. cbn [in_config_mode board_of].
  split; [reflexivity|]. split; [exact Hr1|].
  cbn [passes]. rewrite Hlow, Hhigh.
  rewrite loop_held by (try rewrite Hr1; assumption).
  rewrite Hr1.
  assert (Hyes : (3000 <? usub (pass_time p) t0) = true)
    by (apply Z.ltb_lt; exact Hlong).
  rewrite Hyes. cbn [in_config_mode board_of].
  split; [reflexivity|]. split.
  { board. rewrite config_mode_signal_trace. reflexivity. }
  unfold loop at 1 2. cbn [in_config_mode board_of].
  split; [reflexivity|].
  destruct (loop_body_reset_state (pass_answers q)
              (set_configModeRequested false
                 (set_resetButtonPressTime 0 (board_at (pass_time q) b1))))
    as (Hr2 & _).
  exact Hr2.
Qed.

Lemma sweep_stage_button a b :
  length (operationLog (world b)) = LOG_SIZE ->
  buttonInterruptFlag (world (on_world handleTimeouts (poll_stage a b)))
  = buttonInterruptFlag (world b) /\
  length (operationLog (world (on_world handleTimeouts (poll_stage a b))))
  = LOG_SIZE.
Proof.
  intros Hlen. destruct (poll_stage_kept a b Hlen) as (Hk & _).
  destruct Hk as (_ & _ & _ & Hf & _ & Hl & _).
  board. destruct (handleTimeouts_frame (world (poll_stage a b)))
    as (_ & _ & _ & Hf' & _ & Hl' & _).
  rewrite Hf', Hl', Hf, Hl. split; [reflexivity | exact Hlen].
Qed.

(** X24. A press of the push button is served at the end of the pass, after
    the sweep: when the pass returns the door relay is still energised,
    1250 ms after it was switched on, and the log starts with the button
    entry. The sweep of the next pass releases the relay (here a pass
    in which the bot has no news). *)
Theorem button_pulse_lasts_until_next_pass
    (b b1 b2 : Board) (r r2 : bool) (a : list Updates) (t2 : Z) :
  length (operationLog (world b)) = LOG_SIZE ->
  buttonInterruptFlag (world b) = true ->
  loop r a b = Returns b1 ->
  0 < doorOpenTime (world b1) ->
  DOOR_TIMEOUT < usub t2 (doorOpenTime (world b1)) ->
  loop r2 [] (board_at t2 b1) = Returns b2 ->
  (doorRelay (world b1) = true /\
   buttonInterruptFlag (world b1) = false /\
   clock (world b1) = uadd (doorOpenTime (world b1)) 1250 /\
   exists rest,
     operationLog (world b1)
     = mkLogEntry (doorOpenTime (world b1)) 0 "DOOR_BUTTON" "Button" :: rest /\
     length rest = 4%nat) /\
  doorRelay (world b2) = false /\ doorOpenTime (world b2) = 0.
Proof.
  intros Hlen Hflag H1 Hpos Hold H2.
  destruct (loop_returns _ _ _ _ H1) as (b0 & Hw0 & _ & ->).
  rewrite <- Hw0 in Hlen, Hflag. clear H1 Hw0.
  rewrite loop_body_stages in *.
  destruct (sweep_stage_button a b0 Hlen) as (Hf & Hl).
  rewrite Hflag in Hf.
  set (bs := on_world handleTimeouts (poll_stage a b0)) in *.
  destruct (after_sweep_button bs Hf Hl) as (Hd & Ht & Hc & Hfl & Hlog).
  set (b1 := after_sweep bs) in *. clearbody b1.
  assert (Hfirst :
    doorRelay (world b1) = true /\
    buttonInterruptFlag (world b1) = false /\
    clock (world b1) = uadd (doorOpenTime (world b1)) 1250 /\
    exists rest,
      operationLog (world b1)
      = mkLogEntry (doorOpenTime (world b1)) 0 "DOOR_BUTTON" "Button" :: rest /\
      length rest = 4%nat).
  { rewrite Ht. split; [exact Hd|]. split; [exact Hfl|]. split; [exact Hc|].
    exists (take 4 (operationLog (world bs))). split; [exact Hlog|].
    rewrite length_take, Hl. reflexivity. }
  split; [exact Hfirst|].
  destruct (loop_returns _ _ _ _ H2) as (b0' & Hw0' & _ & ->).
  rewrite loop_body_stages.
  destruct (poll_stage_idle b0') as (Hcore & Hclk).
  rewrite Hw0' in Hcore, Hclk.
  change (world (board_at t2 b1)) with (at_time t2 (world b1)) in Hcore, Hclk.
  destruct Hcore as (_ & _ & Hdt & _ & _ & _ & _ & Hbf & _).
  rewrite at_time_clock in Hclk.
  rewrite at_time_doorOpenTime in Hdt.
  rewrite at_time_buttonInterruptFlag, Hfl in Hbf.
  set (wp := world (poll_stage [] b0')) in *.
  assert (Hrel : doorRelay (handleTimeouts wp) = false /\
                 doorOpenTime (handleTimeouts wp) = 0).
  { apply handleTimeouts_door_releases.
    - rewrite Hdt. exact Hpos.
    - unfold millis. rewrite Hclk, Hdt. exact Hold. }
  destruct (handleTimeouts_frame wp) as (_ & _ & _ & Hf' & _).
  assert (Hidle : buttonInterruptFlag
                    (world (on_world handleTimeouts (poll_stage [] b0')))
                  = false).
  { board. fold wp. rewrite Hf'. exact Hbf. }
  destruct (after_sweep_idle _ Hidle) as (Hcore2 & _).
  destruct Hcore2 as (Hdr & _ & Hdo & _).
  rewrite Hdr, Hdo. board. fold wp. exact Hrel.
Qed.

Lemma checkTelegramMessages_single m w :
  checkTelegramMessages [mkUpdates 1 [m]] w
  = updateDisplay
      (set_telegramOk true
         (handleMessage (updateDisplay (set_telegramOk true w)) m)).
Proof. reflexivity. Qed.

Lemma after_sweep_lastTimeBotRan b :
  lastTimeBotRan (after_sweep b) = lastTimeBotRan b.
Proof.
  unfold after_sweep. board.
  destruct (blinkStatusLED_frame b) as (_ & _ & _ & H1).
  destruct (checkWiFiConnection_frame (blinkStatusLED b))
    as (_ & _ & _ & _ & H2).
  rewrite H2, H1. reflexivity.
Qed.

(** X25. An [/open] command that arrives in a pass is over within the same
    pass: the handler keeps the relay energised through its 3250 ms of
    feedback, and the sweep that follows the poll releases it, so when
    the pass returns the door relay is off and the log starts with the
    command's entry. *)
Theorem command_pulse_ends_within_the_pass
    (b b1 : Board) (r : bool) (m : Message) :
  length (operationLog (world b)) = LOG_SIZE ->
  buttonInterruptFlag (world b) = false ->
  0 < clock (world b) < ULONG_MOD ->
  uadd (lastTimeBotRan b) BOT_REQUEST_DELAY < clock (world b) ->
  msg_type m = "message" ->
  text m = "/open" ->
  fst (isAuthorizedUser (toInt (chat_id m)) (world b)) = true ->
  loop r [mkUpdates 1 [m]] b = Returns b1 ->
  doorRelay (world b1) = false /\
  doorOpenTime (world b1) = 0 /\
  operationLog (world b1)
  = mkLogEntry (clock (world b)) (toInt (chat_id m)) "OPEN_DOOR" (from_name m)
      :: take 4 (operationLog (world b)) /\
  clock (world b1) = uadd (clock (world b)) 3250 /\
  lastTimeBotRan b1 = uadd (clock (world b)) 3250.
Proof.
  intros Hlen Hflag Hclk Hdue Htype Htext Hauth H1.
  destruct (loop_returns _ _ _ _ H1) as (b0 & Hw0 & Hl0 & ->). clear H1.
  rewrite <- Hw0 in Hlen, Hflag, Hclk, Hdue, Hauth. rewrite <- Hl0 in Hdue.
  rewrite <- Hw0. clear Hw0 Hl0 b.
  rewrite loop_body_stages.
  assert (Hpoll : poll_stage [mkUpdates 1 [m]] b0
    = set_lastTimeBotRan
        (millis (checkTelegramMessages [mkUpdates 1 [m]] (world b0)))
        (set_world (checkTelegramMessages [mkUpdates 1 [m]] (world b0)) b0)).
  { unfold poll_stage. apply Z.ltb_lt in Hdue. unfold millis at 1.
    rewrite Hdue. reflexivity. }
  rewrite Hpoll. clear Hpoll. rewrite checkTelegramMessages_single.
  set (w := world b0) in *.
  set (w0 := updateDisplay (set_telegramOk true w)).
  assert (Hcore0 : same_core w w0) by (subst w0; core_by_push).
  assert (Hclk0 : clock w0 = clock w) by (subst w0; push; reflexivity).
  assert (Hlen0 : length (operationLog w0) = LOG_SIZE)
    by (subst w0; push; exact Hlen).
  assert (Hflag0 : buttonInterruptFlag w0 = false)
    by (subst w0; push; exact Hflag).
  assert (Hlog0 : operationLog w0 = operationLog w)
    by (subst w0; push; reflexivity).
  assert (Hauth0 : fst (isAuthorizedUser (toInt (chat_id m)) w0) = true)
    by (rewrite (isAuthorizedUser_fst_ext _ _ _ Hcore0); exact Hauth).
  clearbody w0.
  destruct (handleMessage_authorized_text w0 m Htype Hauth0)
    as (tr & _ & Hm).
  rewrite Hm, Htext, processCommand_open. clear Hm.
  set (w1 := set_trace (trace w0 ++ tr) w0).
  assert (Hlen1 : length (operationLog w1) = LOG_SIZE) by exact Hlen0.
  destruct (handleOpenDoor_effect (chat_id m) (from_name m)
              (toInt (chat_id m)) w1 Hlen1)
    as (Hd & Ht & _ & _ & Hlog & Hc & _).
  pose proof (processCommand_kept (chat_id m) "/open" (from_name m)
                (toInt (chat_id m)) w1 Hlen1) as Hk.
  rewrite processCommand_open in Hk.
  destruct Hk as (_ & _ & _ & Hf & _).
  change (clock w1) with (clock w0) in Ht, Hc, Hlog.
  change (operationLog w1) with (operationLog w0) in Hlog.
  change (buttonInterruptFlag w1) with (buttonInterruptFlag w0) in Hf.
  rewrite Hclk0 in Ht, Hc, Hlog. rewrite Hlog0 in Hlog. rewrite Hflag0 in Hf.
  set (wh := handleOpenDoor (chat_id m) (from_name m) (toInt (chat_id m)) w1)
    in *.
  clearbody wh. clear w1 Hlen1.
  set (wp := updateDisplay (set_telegramOk true wh)).
  assert (Hdp : doorRelay wp = true) by (subst wp; push; exact Hd).
  assert (Htp : doorOpenTime wp = clock w) by (subst wp; push; exact Ht).
  assert (Hcp : clock wp = uadd (clock w) 3250) by (subst wp; push; exact Hc).
  assert (Hlp : operationLog wp
                = mkLogEntry (clock w) (toInt (chat_id m)) "OPEN_DOOR"
                    (from_name m) :: take 4 (operationLog w))
    by (subst wp; push; exact Hlog).
  assert (Hfp : buttonInterruptFlag wp = false) by (subst wp; push; exact Hf).
  clearbody wp.
  assert (Hrel : doorRelay (handleTimeouts wp) = false /\
                 doorOpenTime (handleTimeouts wp) = 0).
  { apply handleTimeouts_door_releases.
    - rewrite Htp. lia.
    - unfold millis. rewrite Hcp, Htp, usub_uadd.
      + unfold DOOR_TIMEOUT. lia.
      + unfold ULONG_MOD. lia. }
  destruct (handleTimeouts_frame wp) as (_ & _ & _ & Hf' & _ & Hl' & Hc').
  set (bs := on_world handleTimeouts
               (set_lastTimeBotRan (millis wp) (set_world wp b0))).
  assert (Hws : world bs = handleTimeouts wp) by reflexivity.
  assert (Hls : lastTimeBotRan bs = clock wp) by reflexivity.
  assert (Hidle : buttonInterruptFlag (world bs) = false)
    by (rewrite Hws, Hf'; exact Hfp).
  destruct (after_sweep_idle bs Hidle) as (Hcore & Hclock).
  destruct Hcore as (Hdr & _ & Hdo & _ & Hlo & _).
  pose proof (after_sweep_lastTimeBotRan bs) as Hlast.
  rewrite Hws in Hdr, Hdo, Hlo, Hclock.
  rewrite Hl', Hlp in Hlo. rewrite Hc', Hcp in Hclock.
  rewrite Hls, Hcp in Hlast.
  destruct Hrel as (Hr1 & Hr2). rewrite Hr1 in Hdr. rewrite Hr2 in Hdo.
  repeat split; assumption.
Qed.

(** ** Worked instances of the further properties *)

Lemma authorized_text_actions_witness :
  fst (isAuthorizedUser (toInt (chat_id alice_open)) demo_world) = true /\
  doorRelay (handleNewMessages [alice_open] demo_world) = true /\
  doorOpenTime (handleNewMessages [alice_open] demo_world)
  = clock demo_world.
Proof.
  assert (Hlen : length (operationLog demo_world) = LOG_SIZE)
    by (vm_compute; reflexivity).
  assert (Hauth : fst (isAuthorizedUser (toInt (chat_id alice_open))
                         demo_world) = true) by (vm_compute; reflexivity).
  split; [exact Hauth|].
  destruct (authorized_text_actions demo_world alice_open Hlen eq_refl Hauth)
    as (Hopen & _).
  destruct (Hopen eq_refl) as (Hd & Ht & _).
  split; [exact Hd | exact Ht].
Defined.

Lemma authorized_callback_actions_witness :
  fst (isAuthorizedUser (toInt (chat_id alice_open_callback)) demo_world)
  = true /\
  doorRelay (handleNewMessages [alice_open_callback] demo_world) = true /\
  doorOpenTime (handleNewMessages [alice_open_callback] demo_world)
  = clock demo_world.
Proof.
  assert (Hlen : length (operationLog demo_world) = LOG_SIZE)
    by (vm_compute; reflexivity).
  assert (Hauth : fst (isAuthorizedUser (toInt (chat_id alice_open_callback))
                         demo_world) = true) by (vm_compute; reflexivity).
  split; [exact Hauth|].
  destruct (authorized_callback_actions demo_world alice_open_callback Hlen
              eq_refl Hauth) as (Hopen & _).
  destruct (Hopen eq_refl) as (Hd & Ht & _).
  split; [exact Hd | exact Ht].
Defined.

Lemma reporting_commands_leave_state_witness :
  fst (isAuthorizedUser (toInt (chat_id alice_status)) demo_world) = true /\
  reports_to "111" demo_world (handleNewMessages [alice_status] demo_world).
Proof.
  assert (Hauth : fst (isAuthorizedUser (toInt (chat_id alice_status))
                         demo_world) = true) by (vm_compute; reflexivity).
  split; [exact Hauth|].
  apply (reporting_commands_leave_state demo_world alice_status eq_refl Hauth);
    vm_compute; discriminate.
Defined.

Lemma callbacks_acknowledged_first_witness :
  fst (isAuthorizedUser (toInt (chat_id alice_help_callback)) demo_world)
  = true /\
  acknowledged "q8" "111" demo_world
    (handleNewMessages [alice_help_callback] demo_world) /\
  same_core demo_world (handleNewMessages [alice_help_callback] demo_world).
Proof.
  assert (Hlen : length (operationLog demo_world) = LOG_SIZE)
    by (vm_compute; reflexivity).
  assert (Hauth : fst (isAuthorizedUser (toInt (chat_id alice_help_callback))
                         demo_world) = true) by (vm_compute; reflexivity).
  split; [exact Hauth|].
  destruct (callbacks_acknowledged_first demo_world alice_help_callback Hlen
              eq_refl Hauth) as (Hack & Hcore & _).
  split; [exact Hack|]. apply Hcore; vm_compute; discriminate.
Defined.

Lemma demo_registry :
  authorized_set demo_world = [111; 222] /\
  (numAuthorizedUsers demo_world <= length (authorizedUsers demo_world))%nat /\
  ~ In 999 (authorized_set demo_world).
Proof.
  assert (H : authorized_set demo_world = [111; 222])
    by (vm_compute; reflexivity).
  split; [exact H|]. split; [vm_compute; lia|].
  rewrite H. intros [E|[E|[]]]; discriminate E.
Qed.

(** C1 as the specification words it fails twice. A callback query
    from 999, who is not in the registry, gets only the callback
    acknowledgement: the access-denied message is not sent and the
    buzzer stays silent. And with the registry configured as
    5000000000, beyond the 32-bit [long], an [/open] from 6000000000,
    who is not in it, is routed: the door relay is energised and the
    operation is logged. *)
Lemma unauthorized_event_claim_fails :
  (let w' := handleNewMessages [mallory_callback] demo_world in
   authorized_set demo_world = [111; 222] /\
   chat_id mallory_callback = String_of 999 /\
   outbound (trace w') = [AnswerCallbackQuery "q1" "Unauthorized"] /\
   sounds (trace w') = [] /\
   ~ denied_with_feedback demo_world mallory_callback) /\
  (let w' := handleNewMessages [big_sender_open] big_registry_world in
   userConfig_authorizedUsers big_registry_world = String_of 5000000000 /\
   authorized_set big_registry_world = [LONG_MAX] /\
   chat_id big_sender_open = String_of 6000000000 /\
   doorRelay big_registry_world = false /\
   doorRelay w' = true /\
   operationLog w' !! 0%nat
   = Some (mkLogEntry 5000 LONG_MAX "OPEN_DOOR" "Eve")).
Proof.
  cbv zeta. split.
  - split; [vm_compute; reflexivity|]. split; [vm_compute; reflexivity|].
    split; [vm_compute; reflexivity|]. split; [vm_compute; reflexivity|].
    intros (_ & H & _). vm_compute in H. discriminate H.
  - repeat split; vm_compute; reflexivity.
Qed.

Lemma unauthorized_event_not_routed_witness :
  authorized_set demo_world = [111; 222] /\
  chat_id mallory_text = String_of 999 /\
  same_core demo_world (handleNewMessages [mallory_text] demo_world) /\
  denied_with_feedback demo_world mallory_text.
Proof.
  destruct demo_registry as (Hset & Hn & Hout).
  assert (Hchat : chat_id mallory_text = String_of 999)
    by (vm_compute; reflexivity).
  assert (Hid : in_long 999) by (unfold in_long, LONG_MIN, LONG_MAX; lia).
  split; [exact Hset|]. split; [exact Hchat|].
  destruct (unauthorized_event_not_routed demo_world mallory_text 999
              Hn Hchat Hid Hout) as (Hcore & Htext & _).
  split; [exact Hcore | exact (Htext eq_refl)].
Defined.

Lemma unauthorized_batch_not_routed_witness :
  let ms := [mallory_text; mallory_callback] in
  authorized_set demo_world = [111; 222] /\
  Forall (outsider demo_world) ms /\
  same_core demo_world (handleNewMessages ms demo_world) /\
  outbound (trace (handleNewMessages ms demo_world))
  = outbound (trace demo_world) ++ concat (denial <$> ms).
Proof.
  cbv zeta.
  destruct demo_registry as (Hset & Hn & Hout).
  assert (Hid : in_long 999) by (unfold in_long, LONG_MIN, LONG_MAX; lia).
  assert (H : Forall (outsider demo_world) [mallory_text; mallory_callback]).
  { repeat constructor; exists 999;
      (split; [vm_compute; reflexivity | split; [exact Hid | exact Hout]]). }
  split; [exact Hset|]. split; [exact H|].
  destruct (unauthorized_batch_not_routed [mallory_text; mallory_callback]
              demo_world Hn H) as (Hcore & Hout' & _).
  split; [exact Hcore | exact Hout'].
Defined.

Lemma handlers_outlast_the_timeout_witness :
  0 < clock demo_world < ULONG_MOD /\
  doorRelay (handleOpenDoor "111" "Alice" 111 demo_world) = true /\
  doorRelay (handleTimeouts (handleOpenDoor "111" "Alice" 111 demo_world))
  = false.
Proof.
  assert (Hlen : length (operationLog demo_world) = LOG_SIZE)
    by (vm_compute; reflexivity).
  assert (Hclk : 0 < clock demo_world < ULONG_MOD)
    by (split; vm_compute; reflexivity).
  split; [exact Hclk|].
  destruct (handlers_outlast_the_timeout demo_world "111" "Alice" "q7" 111
              Hlen Hclk) as ((Hon & _ & Hoff) & _).
  split; [exact Hon | exact Hoff].
Defined.

Lemma debounce_window_counts_from_accepted_edge_witness :
  edge_passes (at_time 5000 fresh_world) = true /\
  fst (edges [5000; uadd 5000 100; uadd 5000 101] fresh_world) = 2%nat.
Proof.
  assert (H : edge_passes (at_time 5000 fresh_world) = true)
    by (vm_compute; reflexivity).
  split; [exact H|].
  apply (debounce_window_counts_from_accepted_edge fresh_world 5000 100 101 H);
    unfold interruptDebounceDelay, ULONG_MOD; lia.
Defined.

Lemma several_edges_open_once_witness :
  let ts := [5000; 5200; 5400] in
  let w1 := snd (edges ts fresh_world) in
  fst (edges ts fresh_world) = 3%nat /\
  doorRelay w1 = false /\
  doorRelay (checkButtonOpenDoor w1) = true /\
  doorOpenTime (checkButtonOpenDoor w1) = 5400 /\
  operationLog (checkButtonOpenDoor w1)
  = [mkLogEntry 5400 0 "DOOR_BUTTON" "Button";
     empty_entry; empty_entry; empty_entry; empty_entry] /\
  buttonInterruptFlag (checkButtonOpenDoor w1) = false /\
  checkButtonOpenDoor (checkButtonOpenDoor w1) = checkButtonOpenDoor w1.
Proof.
  cbv zeta.
  assert (Hlen : length (operationLog fresh_world) = LOG_SIZE)
    by (vm_compute; reflexivity).
  assert (Hthree : fst (edges [5000; 5200; 5400] fresh_world) = 3%nat)
    by (vm_compute; reflexivity).
  split; [exact Hthree|].
  split; [vm_compute; reflexivity|].
  assert (Hpos : (0 < fst (edges [5000; 5200; 5400]%Z fresh_world))%nat)
    by (rewrite Hthree; lia).
  destruct (several_edges_open_once fresh_world [5000; 5200; 5400] Hlen Hpos)
    as (Hon & Hstamp & Hlog & Hflag & Hidem).
  split; [exact Hon|].
  split; [rewrite Hstamp; vm_compute; reflexivity|].
  split; [rewrite Hlog; vm_compute; reflexivity|].
  split; [exact Hflag | exact Hidem].
Defined.

Lemma decimal_ids_round_trip_witness :
  let w' :=
    parseAuthorizedUsers
      (set_userConfig_authorizedUsers (join_ids [111; -222]) fresh_world) in
  join_ids [111; -222] = "111,-222" /\
  take (numAuthorizedUsers w') (authorizedUsers w') = [111; -222] /\
  (fst (isAuthorizedUser (toInt (String_of (-222))) w') = true
   <-> In (-222) [111; -222]).
Proof.
  cbv zeta. split; [vm_compute; reflexivity|].
  assert (Hlen : length (authorizedUsers fresh_world) = MAX_USERS)
    by (vm_compute; reflexivity).
  assert (Hn : (length [111; -222]%Z <= MAX_USERS)%nat) by (vm_compute; lia).
  assert (Hfit : (String.length (join_ids [111; -222]%Z) <= MAX_USERS_LEN - 1)%nat)
    by (vm_compute; lia).
  assert (Hids : Forall in_long [111; -222])
    by (repeat constructor; unfold in_long, LONG_MIN, LONG_MAX; lia).
  assert (Hid : in_long (-222)) by (unfold in_long, LONG_MIN, LONG_MAX; lia).
  destruct (decimal_ids_round_trip fresh_world [111; -222] (-222)
              Hlen Hn Hfit Hids Hid) as (_ & Htake & _ & Hauth).
  split; [exact Htake | exact Hauth].
Defined.

Lemma ids_beyond_long_are_confused_witness :
  join_ids [5000000000] = "5000000000" /\
  fst (isAuthorizedUser (toInt "6000000000")
         (parseAuthorizedUsers
            (set_userConfig_authorizedUsers (join_ids [5000000000])
               fresh_world))) = true.
Proof.
  split; [vm_compute; reflexivity|].
  assert (Hlen : length (authorizedUsers fresh_world) = MAX_USERS)
    by (vm_compute; reflexivity).
  assert (Hn : (length [5000000000]%Z <= MAX_USERS)%nat) by (vm_compute; lia).
  assert (Hfit : (String.length (join_ids [5000000000]%Z)
                  <= MAX_USERS_LEN - 1)%nat) by (vm_compute; lia).
  assert (Hin : In 5000000000 [5000000000]) by (left; reflexivity).
  assert (Hout : (LONG_MAX <= 5000000000 /\ LONG_MAX <= 6000000000) \/
                 (5000000000 <= LONG_MIN /\ 6000000000 <= LONG_MIN))
    by (left; unfold LONG_MAX; lia).
  exact (ids_beyond_long_are_confused fresh_world [5000000000] 5000000000
           6000000000 Hlen Hn Hfit Hin Hout).
Defined.

Lemma time_ago_texts_agree_witness :
  exists u n,
    formatTimeAgo 125000 = String_of n +:+ long_suffix u /\
    formatTimeAgoShort 125000 = String_of n +:+ short_suffix u /\
    n * unit_ms u <= 125000 < (n + 1) * unit_ms u /\
    0 <= n < unit_bound u /\
    (u <> Seconds -> 1 <= n).
Proof.
  apply (time_ago_texts_agree 125000). unfold ULONG_MOD. lia.
Defined.

Lemma uptime_components_add_up_witness :
  exists d h m s,
    formatUptime 90061000
    = uptime_part d "d " +:+ uptime_part h "h " +:+ uptime_part m "m "
        +:+ String_of s +:+ "s" /\
    90061000 / 1000 = ((d * 24 + h) * 60 + m) * 60 + s /\
    0 <= d /\ 0 <= h < 24 /\ 0 <= m < 60 /\ 0 <= s < 60.
Proof.
  apply (uptime_components_add_up 90061000). lia.
Defined.

Lemma portal_closed_without_password_witness :
  passwordOk new_portal = false /\
  EEPROM (serve guessing_requests new_portal) = EEPROM new_portal /\
  userConfig (serve guessing_requests new_portal) = userConfig new_portal /\
  passwordOk (serve guessing_requests new_portal) = false.
Proof.
  assert (Hout : passwordOk new_portal = false) by (vm_compute; reflexivity).
  assert (Hrs : Forall (fun r =>
                   presents (configPassword (userConfig new_portal)) r = false
                   /\ is_reset r = false) guessing_requests)
    by (repeat constructor; vm_compute; reflexivity).
  split; [exact Hout|].
  destruct (portal_closed_without_password new_portal guessing_requests
              Hout Hrs) as (Hc & He & Hp & _).
  split; [exact He|]. split; [exact Hc | exact Hp].
Defined.

Lemma factory_reset_needs_no_login_witness :
  restarted open_portal = false /\
  EEPROM (handleClient open_portal PostResetEEPROM) = zero_config /\
  restarted (handleClient open_portal PostResetEEPROM) = true.
Proof.
  assert (Hrun : restarted open_portal = false) by (vm_compute; reflexivity).
  split; [exact Hrun|].
  destruct (factory_reset_needs_no_login open_portal Hrun) as (He & Hr & _).
  split; [exact He | exact Hr].
Defined.

Lemma save_then_restart_round_trip_witness :
  let c :=
    userConfig
      (loadConfig (power_on (EEPROM (handleClient open_portal
                                       (PostSave home_args))))) in
  passwordOk open_portal = true /\
  ssid c = "home" /\
  config_authorizedUsers c = "111,222" /\
  configPassword c = "admin" /\
  configured c = true.
Proof.
  cbv zeta.
  assert (Hrun : restarted open_portal = false) by (vm_compute; reflexivity).
  assert (Hok : passwordOk open_portal = true) by (vm_compute; reflexivity).
  assert (Hargs : hasArg "ssid" home_args && hasArg "pass" home_args
                  && hasArg "token" home_args && hasArg "users" home_args
                  = true) by (vm_compute; reflexivity).
  assert (Hne : configPassword (userConfig open_portal) <> EmptyString)
    by (vm_compute; discriminate).
  assert (Hfit : (String.length (configPassword (userConfig open_portal))
                  <= MAX_PASSCFG_LEN - 1)%nat) by (vm_compute; lia).
  split; [exact Hok|].
  destruct (save_then_restart_round_trip open_portal home_args
              Hrun Hok Hargs Hne Hfit)
    as (_ & _ & Hs & _ & _ & Hu & Hp & Hc).
  split; [rewrite Hs; vm_compute; reflexivity|].
  split; [rewrite Hu; vm_compute; reflexivity|].
  split; [rewrite Hp; vm_compute; reflexivity | exact Hc].
Defined.

Lemma change_password_effect_witness :
  let p1 := handleClient new_portal (PostChangePassword new_password_args) in
  arg "oldpw" new_password_args = configPassword (userConfig new_portal) /\
  configPassword (userConfig p1) = "hunter2" /\
  passwordOk p1 = false /\
  configPassword (userConfig (loadConfig (power_on (EEPROM p1)))) = "admin".
Proof.
  cbv zeta.
  assert (Hrun : restarted new_portal = false) by (vm_compute; reflexivity).
  assert (Hargs : hasArg "oldpw" new_password_args
                  && hasArg "newpw" new_password_args
                  && hasArg "newpw2" new_password_args = true)
    by (vm_compute; reflexivity).
  assert (Hold : arg "oldpw" new_password_args
                 = configPassword (userConfig new_portal))
    by (vm_compute; reflexivity).
  assert (Hnew : arg "newpw" new_password_args = arg "newpw2" new_password_args)
    by (vm_compute; reflexivity).
  split; [exact Hold|].
  destruct (change_password_effect new_portal new_password_args
              Hrun Hargs Hold Hnew) as (Hkept & Hp & _ & _ & Hboot).
  split; [rewrite Hkept; vm_compute; reflexivity|].
  split; [rewrite Hp; vm_compute; reflexivity|].
  rewrite Hboot. vm_compute. reflexivity.
Defined.

Lemma saved_ids_are_the_authorized_ids_witness :
  let w' :=
    registry_at_boot (EEPROM (handleClient open_portal (PostSave home_args)))
      fresh_world in
  arg "users" home_args = join_ids [111; 222] /\
  take (numAuthorizedUsers w') (authorizedUsers w') = [111; 222] /\
  (fst (isAuthorizedUser (toInt (String_of 222)) w') = true
   <-> In 222 [111; 222]).
Proof.
  cbv zeta.
  assert (Hrun : restarted open_portal = false) by (vm_compute; reflexivity).
  assert (Hok : passwordOk open_portal = true) by (vm_compute; reflexivity).
  assert (Hargs : hasArg "ssid" home_args && hasArg "pass" home_args
                  && hasArg "token" home_args && hasArg "users" home_args
                  = true) by (vm_compute; reflexivity).
  assert (Husers : arg "users" home_args = join_ids [111; 222])
    by (vm_compute; reflexivity).
  assert (Hn : (length [111; 222]%Z <= MAX_USERS)%nat) by (vm_compute; lia).
  assert (Hfit : (String.length (join_ids [111; 222]%Z)
                  <= MAX_USERS_LEN - 1)%nat) by (vm_compute; lia).
  assert (Hids : Forall in_long [111; 222])
    by (repeat constructor; unfold in_long, LONG_MIN, LONG_MAX; lia).
  assert (Hid : in_long 222) by (unfold in_long, LONG_MIN, LONG_MAX; lia).
  assert (Hlen : length (authorizedUsers fresh_world) = MAX_USERS)
    by (vm_compute; reflexivity).
  split; [exact Husers|].
  exact (saved_ids_are_the_authorized_ids open_portal home_args fresh_world
           [111; 222] 222 Hrun Hok Hargs Husers Hn Hfit Hids Hid Hlen).
Defined.

Lemma telegram_events_keep_installation_witness :
  length (operationLog demo_world) = LOG_SIZE /\
  installation_kept demo_world
    (handleNewMessages [alice_open; mallory_text] demo_world).
Proof.
  assert (Hlen : length (operationLog demo_world) = LOG_SIZE)
    by (vm_compute; reflexivity).
  split; [exact Hlen|].
  exact (proj1 (telegram_events_keep_installation
                  [alice_open; mallory_text] demo_world Hlen)).
Defined.

Lemma long_press_enters_config_mode_witness :
  let held := [mkPass 5000 true []; mkPass 6000 true []] in
  usub 6000 5000 = 1000 /\
  usub 9000 5000 = 4000 /\
  in_config_mode (passes held demo_board) = false /\
  in_config_mode (passes (held ++ [mkPass 9000 true []]) demo_board) = true /\
  in_config_mode (passes (held ++ [mkPass 7000 false []]) demo_board) = false.
Proof.
  cbv zeta.
  assert (H1 : usub 6000 5000 = 1000) by (vm_compute; reflexivity).
  assert (H2 : usub 9000 5000 = 4000) by (vm_compute; reflexivity).
  split; [exact H1|]. split; [exact H2|].
  assert (Hr : resetButtonPressTime demo_board = 0) by reflexivity.
  assert (Hc : configModeRequested demo_board = false) by reflexivity.
  assert (Hne : 5000 <> 0) by lia.
  assert (Hps : Forall (fun x => pass_reset_low x = true /\
                                 usub (pass_time x) 5000 <= 3000)
                  [mkPass 6000 true []]).
  { repeat constructor. cbn [pass_time]. rewrite H1. lia. }
  assert (Hlong : 3000 < usub (pass_time (mkPass 9000 true [])) 5000)
    by (cbn [pass_time]; rewrite H2; lia).
  destruct (long_press_enters_config_mode demo_board 5000 []
              [mkPass 6000 true []] (mkPass 9000 true [])
              (mkPass 7000 false []) Hr Hc Hne Hps eq_refl Hlong eq_refl)
    as (Hno & _ & Hyes & _ & Hrel & _).
  split; [exact Hno|]. split; [exact Hyes | exact Hrel].
Defined.

Lemma button_pulse_lasts_until_next_pass_witness :
  buttonInterruptFlag (world pressed_board) = true /\
  doorOpenTime (world pressed_board_after) = 5000 /\
  usub 9000 (doorOpenTime (world pressed_board_after)) = 4000 /\
  doorRelay (world pressed_board_after) = true /\
  doorRelay (world pressed_board_later) = false.
Proof.
  assert (Hlen : length (operationLog (world pressed_board)) = LOG_SIZE)
    by (vm_compute; reflexivity).
  assert (Hflag : buttonInterruptFlag (world pressed_board) = true)
    by (vm_compute; reflexivity).
  assert (H1 : loop false [] pressed_board = Returns pressed_board_after)
    by reflexivity.
  assert (Ht : doorOpenTime (world pressed_board_after) = 5000)
    by (vm_compute; reflexivity).
  assert (Hd : usub 9000 (doorOpenTime (world pressed_board_after)) = 4000)
    by (rewrite Ht; vm_compute; reflexivity).
  assert (Hpos : 0 < doorOpenTime (world pressed_board_after))
    by (rewrite Ht; lia).
  assert (Hold : DOOR_TIMEOUT
                 < usub 9000 (doorOpenTime (world pressed_board_after)))
    by (rewrite Hd; unfold DOOR_TIMEOUT; lia).
  assert (H2 : loop false [] (board_at 9000 pressed_board_after)
               = Returns pressed_board_later) by reflexivity.
  split; [exact Hflag|]. split; [exact Ht|]. split; [exact Hd|].
  destruct (button_pulse_lasts_until_next_pass pressed_board
              pressed_board_after pressed_board_later false false [] 9000
              Hlen Hflag H1 Hpos Hold H2) as ((Hon & _) & Hoff & _).
  split; [exact Hon | exact Hoff].
Defined.

Lemma command_pulse_ends_within_the_pass_witness :
  fst (isAuthorizedUser (toInt (chat_id alice_open)) (world demo_board))
  = true /\
  uadd (lastTimeBotRan demo_board) BOT_REQUEST_DELAY = 500 /\
  clock (world demo_board) = 5000 /\
  doorRelay (world demo_board_after_open) = false /\
  clock (world demo_board_after_open) = uadd (clock (world demo_board)) 3250.
Proof.
  assert (Hlen : length (operationLog (world demo_board)) = LOG_SIZE)
    by (vm_compute; reflexivity).
  assert (Hflag : buttonInterruptFlag (world demo_board) = false)
    by (vm_compute; reflexivity).
  assert (Hc : clock (world demo_board) = 5000) by (vm_compute; reflexivity).
  assert (Hclk : 0 < clock (world demo_board) < ULONG_MOD)
    by (rewrite Hc; unfold ULONG_MOD; lia).
  assert (Hl : uadd (lastTimeBotRan demo_board) BOT_REQUEST_DELAY = 500)
    by (vm_compute; reflexivity).
  assert (Hdue : uadd (lastTimeBotRan demo_board) BOT_REQUEST_DELAY
                 < clock (world demo_board)) by (rewrite Hl, Hc; lia).
  assert (Hauth : fst (isAuthorizedUser (toInt (chat_id alice_open))
                         (world demo_board)) = true)
    by (vm_compute; reflexivity).
  assert (H1 : loop false [mkUpdates 1 [alice_open]] demo_board
               = Returns demo_board_after_open) by reflexivity.
  split; [exact Hauth|]. split; [exact Hl|]. split; [exact Hc|].
  destruct (command_pulse_ends_within_the_pass demo_board
              demo_board_after_open false alice_open
              Hlen Hflag Hclk Hdue eq_refl eq_refl Hauth H1)
    as (Hoff & _ & _ & Hclock & _).
  split; [exact Hoff | exact Hclock].
Defined.
